(** * Historical analysis and hype-score engine

    A shallow embedding of [services/historical_analysis_service.py]
    (class [HistoricalAnalysisService]) and the properties of its
    similarity matcher, benchmark calculator, component scorers, score
    composer and fallback policy.

    Conventions of the embedding:
    - Python floats are rationals ([Q]); every comparison is the exact one,
      and rounding errors of binary floating point are not modelled.
    - a dictionary with a fixed set of keys is a record;
    - [None] in an optional column or field is [None] of [option];
    - an exception is the [Raise] constructor of [result]; [try/except]
      is a match on it;
    - the database is a record of query answers: each [conn.fetch] either
      yields rows or raises. *)

From Stdlib Require Import String QArith Qround Qabs List Bool Lia Lqa ZArith.
From Stdlib Require Import Sorting.Sorted Sorting.Permutation.
Import ListNotations.
Open Scope Q_scope.

(** ** Python built-ins used by the service *)

Module Py.

(** [x < y] on floats. *)
Definition ltb (x y : Q) : bool := negb (Qle_bool y x).

(** [x >= y] on floats. *)
Definition geb (x y : Q) : bool := Qle_bool y x.

(** [x > y] on floats. *)
Definition gtb (x y : Q) : bool := ltb y x.

(** [max(a, b)]: the first argument unless the second is larger. *)
Definition max (a b : Q) : Q := if ltb a b then b else a.

(** [min(a, b)]: the first argument unless the second is smaller. *)
Definition min (a b : Q) : Q := if ltb b a then b else a.

(** [abs(x)]. *)
Definition abs (x : Q) : Q := if ltb x 0 then - x else x.

(** Truthiness of a number: zero is false. *)
Definition truthy (x : Q) : bool := negb (Qeq_bool x 0).

(** Truthiness of a string: the empty string is false. *)
Definition truthy_str (s : string) : bool :=
  match s with EmptyString => false | _ => true end.

(** Truthiness of an optional string. *)
Definition truthy_ostr (s : option string) : bool :=
  match s with Some v => truthy_str v | None => false end.

(** [len(l)] as a float operand. *)
Definition len {A} (l : list A) : Q := inject_Z (Z.of_nat (length l)).

(** [sum(l)]. *)
Definition sum (l : list Q) : Q := fold_left Qplus l 0.

(** [round(x)] to an integer, ties to the even neighbour. *)
Definition round_half_even (y : Q) : Z :=
  let f := Qfloor y in
  let d := y - inject_Z f in
  if ltb d (1#2) then f
  else if ltb (1#2) d then (f + 1)%Z
  else if Z.even f then f else (f + 1)%Z.

(** [round(x, ndigits)]. *)
Definition round (x : Q) (ndigits : nat) : Q :=
  let p := inject_Z (10 ^ Z.of_nat ndigits) in
  inject_Z (round_half_even (x * p)) / p.

(** [x == y] on optional strings ([None == None] holds). *)
Definition ostr_eqb (a b : option string) : bool :=
  match a, b with
  | Some x, Some y => String.eqb x y
  | None, None => true
  | _, _ => false
  end.

End Py.

(** ** Exceptions *)

Inductive exn : Type :=
| StatisticsError.

Inductive result (A : Type) : Type :=
| Ok (a : A)
| Raise (e : exn).
Arguments Ok {A} a.
Arguments Raise {A} e.

Definition bind {A B} (m : result A) (k : A -> result B) : result B :=
match m with
| Ok a => k a
| Raise e => Raise e
end.

Notation "x <- m ;; k" := (bind m (fun x => k))
(at level 61, m at next level, right associativity).

(** ** The [statistics] module *)

Module Statistics.

(** Insertion of [x] in front of the first element not below it. *)
Fixpoint insert (x : Q) (l : list Q) : list Q :=
  match l with
  | [] => [x]
  | y :: t => if Qle_bool x y then x :: y :: t else y :: insert x t
  end.

(** [sorted(data)]: ascending and stable. *)
Fixpoint sorted (data : list Q) : list Q :=
  match data with
  | [] => []
  | x :: t => insert x (sorted t)
  end.

(** [statistics.median]: the middle value of the sorted data, the mean of
    the two middle values when the length is even; raises on no data. *)
Definition median (data : list Q) : result Q :=
  let s := sorted data in
  let n := length s in
  match n with
  | O => Raise StatisticsError
  | _ =>
    if Nat.odd n then Ok (nth (n / 2) s 0)
    else Ok ((nth (n / 2 - 1) s 0 + nth (n / 2) s 0) / 2)
  end.

(** [statistics.mean]: raises on no data. *)
Definition mean (data : list Q) : result Q :=
  match data with
  | [] => Raise StatisticsError
  | _ => Ok (Py.sum data / Py.len data)
  end.

End Statistics.

(** ** Percentile rank and safe median *)

(** [_calculate_percentile_rank(value, data)]. *)
Definition _calculate_percentile_rank (value : Q) (data : list Q) : Q :=
match data with
| [] => 50
| _ =>
  let sorted_data := Statistics.sorted data in
  let rank := length (filter (fun x => Py.ltb x value) sorted_data) in
  (inject_Z (Z.of_nat rank) / Py.len sorted_data) * 100
end.

(** [_safe_median(values, default)]; the values are never [None] at the
  call sites, so [filtered] is the list itself. *)
Definition _safe_median (values : list Q) (default : Q) : Q :=
let filtered := values in
match filtered with
| [] => default
| [v] => v
| v :: _ =>
  match Statistics.median filtered with
  | Ok m => m
  | Raise StatisticsError => v
  end
end.

(** ** Data model *)

(** The feature record of the company being scored ([current_ipo]); an
    absent key is its [.get] default. *)
Module CurrentIpo.
Record t : Type := mk {
  sector : string;
  industry : string;
  implied_market_cap : Q;
  revenue_growth_yoy : Q;
  gross_margin : Q;
  trend_score : Q;
  trend_average_interest : Q;
  trend_recent_interest : Q;
  trend_data_available : bool;
  trend_error : option string;
  sentiment_score : Q;
  news_total_articles : Z;
  news_data_available : bool;
  news_error : option string
}.
End CurrentIpo.

(** A row of the peers query over [historical_ipos]. *)
Module Row.
Record t : Type := mk {
  ticker : string;
  name : string;
  sector : option string;
  industry : option string;
  revenue_growth_yoy : option Q;
  gross_margin : option Q;
  operating_margin : option Q;
  market_cap_at_ipo : option Q;
  first_day_return : option Q;
  first_week_return : option Q;
  first_month_return : option Q;
  market_cap_category : option string;
  growth_stage : option string
}.
End Row.

(** The dataclass [SimilarityMatch]. *)
Module SimilarityMatch.
Record t : Type := mk {
  ticker : string;
  name : string;
  similarity_score : Q;
  matching_factors : list string;
  revenue_growth : option Q;
  gross_margin : option Q;
  market_cap : option Q;
  first_day_return : option Q;
  first_week_return : option Q;
  first_month_return : option Q
}.
End SimilarityMatch.

(** The dataclass [HistoricalBenchmark]. *)
Module HistoricalBenchmark.
Record t : Type := mk {
  metric_name : string;
  current_value : Q;
  historical_median : Q;
  historical_mean : Q;
  historical_std : Q;
  percentile_rank : Q;
  similar_ipos_median : Q;
  similar_ipos_mean : Q;
  similar_ipos_std : Q;
  similar_ipos_percentile : Q
}.
End HistoricalBenchmark.

(** ** The database *)

(** What one [conn.fetch] gives: rows, or an exception. *)
Inductive fetched (A : Type) : Type :=
| Rows (rows : list A)
| FetchError.
Arguments Rows {A} rows.
Arguments FetchError {A}.

(** The answers of the queries the service issues.  The peers query is
    indexed by its parameters (the market-cap category, when there is one,
    and the sector, when it is not empty); the per-ticker queries by the
    ticker list. *)
Module Store.
Record t : Type := mk {
  candidates : option string -> string -> fetched Row.t;
  revenue_growth_rates : fetched Q;
  gross_margins : fetched Q;
  market_caps : fetched Q;
  trend_scores : fetched (option Q);
  trend_scores_of : list string -> fetched (option Q);
  sentiment_scores : fetched (option Q);
  sentiment_scores_of : list string -> fetched (option Q);
  performance : fetched (option Q * option Q * option Q)
}.

(** A reachable database holding no row at all. *)
Definition empty : t :=
  mk (fun _ _ => Rows []) (Rows []) (Rows []) (Rows [])
     (Rows []) (fun _ => Rows []) (Rows []) (fun _ => Rows []) (Rows []).
End Store.

(** [[v for v in xs if v is not None]]. *)
Definition not_none {A} (xs : list (option A)) : list A :=
  flat_map (fun o => match o with Some v => [v] | None => [] end) xs.

(** ** Similarity matcher *)

(** The market-cap bucket computed at the head of
    [_find_similar_historical_ipos]. *)
Definition market_cap_category_of (market_cap : Q) : option string :=
  if Py.truthy market_cap then
    let market_cap_billions := market_cap / 1000000000 in
    if Py.ltb market_cap_billions 0.3 then Some "micro"%string
    else if Py.ltb market_cap_billions 2 then Some "small"%string
    else if Py.ltb market_cap_billions 10 then Some "mid"%string
    else if Py.ltb market_cap_billions 200 then Some "large"%string
    else Some "mega"%string
  else None.

(** [row['sector'] == sector], a nullable column against a string. *)
Definition col_eqb (col : option string) (s : string) : bool :=
  match col with Some c => String.eqb c s | None => false end.

(** The revenue-growth test of the loop body: both values truthy and the
    relative difference below 0.2. *)
Definition growth_matches (row_growth : option Q) (revenue_growth : Q) : bool :=
  match row_growth with
  | Some g =>
    if Py.truthy g && Py.truthy revenue_growth then
      let growth_diff := Py.abs (g - revenue_growth) / Py.max (Py.abs revenue_growth) 1 in
      Py.ltb growth_diff 0.2
    else false
  | None => false
  end.

(** The body of the loop over the rows up to the threshold test: the
    score and the factors of one candidate. *)
Definition score_candidate (current_ipo : CurrentIpo.t) (row : Row.t)
  : Q * list string :=
  let market_cap_category := market_cap_category_of (CurrentIpo.implied_market_cap current_ipo) in
  let similarity_score := 0.0 in
  let factors := @nil string in
  let '(similarity_score, factors) :=
    if Py.ostr_eqb (Row.market_cap_category row) market_cap_category
    then (similarity_score + 0.3, factors ++ ["market_cap"%string])
    else (similarity_score, factors) in
  let '(similarity_score, factors) :=
    if col_eqb (Row.sector row) (CurrentIpo.sector current_ipo)
    then (similarity_score + 0.2, factors ++ ["sector"%string])
    else (similarity_score, factors) in
  let '(similarity_score, factors) :=
    if col_eqb (Row.industry row) (CurrentIpo.industry current_ipo)
    then (similarity_score + 0.2, factors ++ ["industry"%string])
    else (similarity_score, factors) in
  if growth_matches (Row.revenue_growth_yoy row) (CurrentIpo.revenue_growth_yoy current_ipo)
  then (similarity_score + 0.3, factors ++ ["revenue_growth"%string])
  else (similarity_score, factors).

(** The [SimilarityMatch(...)] call of the loop: [market_cap] is not among
    the keyword arguments and keeps its default [None]. *)
Definition make_match (row : Row.t) (similarity_score : Q) (factors : list string)
  : SimilarityMatch.t :=
  {| SimilarityMatch.ticker := Row.ticker row;
     SimilarityMatch.name := Row.name row;
     SimilarityMatch.similarity_score := similarity_score;
     SimilarityMatch.matching_factors := factors;
     SimilarityMatch.revenue_growth := Row.revenue_growth_yoy row;
     SimilarityMatch.gross_margin := Row.gross_margin row;
     SimilarityMatch.market_cap := None;
     SimilarityMatch.first_day_return := Row.first_day_return row;
     SimilarityMatch.first_week_return := Row.first_week_return row;
     SimilarityMatch.first_month_return := Row.first_month_return row |}.

(** The loop over the rows, [similar_matches] being the accumulator. *)
Fixpoint collect_matches (current_ipo : CurrentIpo.t) (rows : list Row.t)
  (similar_matches : list SimilarityMatch.t) : list SimilarityMatch.t :=
  match rows with
  | [] => similar_matches
  | row :: rest =>
    let '(similarity_score, factors) := score_candidate current_ipo row in
    if Py.geb similarity_score 0.3
    then collect_matches current_ipo rest
           (similar_matches ++ [make_match row similarity_score factors])
    else collect_matches current_ipo rest similar_matches
  end.

(** [similar_matches.sort(key=lambda x: x.similarity_score, reverse=True)]:
    descending, equal scores keeping their order. *)
Fixpoint insert_desc (m : SimilarityMatch.t) (l : list SimilarityMatch.t)
  : list SimilarityMatch.t :=
  match l with
  | [] => [m]
  | y :: t =>
    if Py.geb (SimilarityMatch.similarity_score m) (SimilarityMatch.similarity_score y)
    then m :: y :: t
    else y :: insert_desc m t
  end.

Fixpoint sort_desc (l : list SimilarityMatch.t) : list SimilarityMatch.t :=
  match l with
  | [] => []
  | m :: t => insert_desc m (sort_desc t)
  end.

(** The matcher on the rows the query returned. *)
Definition rank_candidates (current_ipo : CurrentIpo.t) (rows : list Row.t)
  : list SimilarityMatch.t :=
  firstn 10 (sort_desc (collect_matches current_ipo rows [])).

(** [_find_similar_historical_ipos]: no pool or a failing query gives no
    match. *)
Definition _find_similar_historical_ipos (pool : option Store.t)
  (current_ipo : CurrentIpo.t) : list SimilarityMatch.t :=
  match pool with
  | None => []
  | Some conn =>
    let market_cap_category := market_cap_category_of (CurrentIpo.implied_market_cap current_ipo) in
    match Store.candidates conn market_cap_category (CurrentIpo.sector current_ipo) with
    | Rows rows => rank_candidates current_ipo rows
    | FetchError => []
    end
  end.

(** ** Analysis records *)

(** The dictionary returned by [_analyze_search_trends_historically]. *)
Module SearchAnalysis.
Record t : Type := mk {
  current_trend_score : Q;
  effective_trend_score : Q;
  historical_percentile : Q;
  similar_ipos_percentile : Q;
  effective_percentile : Q;
  trend_strength : string;
  trend_impact : string;
  historical_median : Q;
  similar_ipos_median : Q;
  trend_volatility : Q;
  data_available : bool;
  used_historical_fallback : bool;
  fallback_source : string;
  data_confidence : Q;
  historical_sample_size : nat;
  similar_sample_size : nat
}.
End SearchAnalysis.

(** The dictionary returned by [_analyze_sentiment_historically]. *)
Module SentimentAnalysis.
Record t : Type := mk {
  current_sentiment : Q;
  effective_sentiment : Q;
  total_articles : Z;
  historical_percentile : Q;
  similar_ipos_percentile : Q;
  effective_percentile : Q;
  sentiment_strength : string;
  historical_median : Q;
  similar_ipos_median : Q;
  data_available : bool;
  used_historical_fallback : bool;
  fallback_source : string;
  data_confidence : Q;
  historical_sample_size : nat;
  similar_sample_size : nat
}.
End SentimentAnalysis.

(** The dictionary returned by [_predict_performance_from_history]. *)
Module PerformancePredictions.
Record t : Type := mk {
  predicted_first_day_return : Q;
  predicted_first_week_return : Q;
  predicted_first_month_return : Q;
  performance_volatility : Q;
  historical_sample_size : nat;
  risk_level : string
}.
End PerformancePredictions.

(** One value per scored component, in the key order of [base_weights]. *)
Module Weights.
Record t : Type := mk {
  financial : Q;
  trend : Q;
  sentiment : Q;
  performance : Q;
  similarity : Q
}.

(** [w.values()]. *)
Definition values (w : t) : list Q :=
  [financial w; trend w; sentiment w; performance w; similarity w].

(** A dictionary comprehension over the keys. *)
Definition map (f : Q -> Q) (w : t) : t :=
  mk (f (financial w)) (f (trend w)) (f (sentiment w))
     (f (performance w)) (f (similarity w)).
End Weights.

(** The ["component_scores"] entry of the result. *)
Module ComponentScores.
Record t : Type := mk {
  financial_score : Q;
  trend_score : Q;
  sentiment_score : Q;
  performance_score : Q;
  similarity_score : Q
}.
End ComponentScores.

(** The result dictionary; the fallback result has no weight allocation. *)
Module HypeScoreResult.
Record t : Type := mk {
  hype_score : Q;
  component_scores : ComponentScores.t;
  weight_allocation : option Weights.t;
  analysis : string;
  key_factors : list string;
  recommendation : string;
  risk_level : string;
  similar_ipos_count : nat;
  benchmarks_analyzed : nat;
  last_updated : string
}.
End HypeScoreResult.

(** ** Component scorers *)

(** [_calculate_financial_score]. *)
Definition _calculate_financial_score (benchmarks : list HistoricalBenchmark.t)
  : result Q :=
  match benchmarks with
  | [] => Ok 50.0
  | _ =>
    let scores :=
      map (fun benchmark =>
             let similar_percentile := HistoricalBenchmark.similar_ipos_percentile benchmark in
             let general_percentile := HistoricalBenchmark.percentile_rank benchmark in
             (similar_percentile * 0.7) + (general_percentile * 0.3))
          benchmarks in
    Statistics.mean scores
  end.

(** The [strength_multiplier] table of [_calculate_trend_score], with its
    [.get] default. *)
Definition trend_strength_multiplier (strength : string) : Q :=
  if String.eqb strength "Exceptional" then 1.2
  else if String.eqb strength "Strong" then 1.1
  else if String.eqb strength "Moderate" then 1.0
  else if String.eqb strength "Weak" then 0.8
  else 1.0.

(** [_calculate_trend_score]. *)
Definition _calculate_trend_score (search_analysis : SearchAnalysis.t) : Q :=
  let percentile := SearchAnalysis.effective_percentile search_analysis in
  let strength := SearchAnalysis.trend_strength search_analysis in
  let data_confidence := SearchAnalysis.data_confidence search_analysis in
  let strength_multiplier := trend_strength_multiplier strength in
  let base_score := Py.min 100 (percentile * strength_multiplier) in
  let confidence_multiplier := 0.6 + (0.4 * Py.max 0.0 (Py.min 1.0 data_confidence)) in
  let score := base_score * confidence_multiplier in
  Py.max 35.0 (Py.min 100 score).

(** The [strength_multiplier] table of [_calculate_sentiment_score]. *)
Definition sentiment_strength_multiplier (strength : string) : Q :=
  if String.eqb strength "Extremely Positive" then 1.2
  else if String.eqb strength "Very Positive" then 1.1
  else if String.eqb strength "Moderately Positive" then 1.0
  else if String.eqb strength "Neutral/Negative" then 0.7
  else if String.eqb strength "Negative" then 0.6
  else 1.0.

(** [_calculate_sentiment_score]. *)
Definition _calculate_sentiment_score (sentiment_analysis : SentimentAnalysis.t) : Q :=
  let percentile := SentimentAnalysis.effective_percentile sentiment_analysis in
  let strength := SentimentAnalysis.sentiment_strength sentiment_analysis in
  let data_confidence := SentimentAnalysis.data_confidence sentiment_analysis in
  let strength_multiplier := sentiment_strength_multiplier strength in
  let base_score := Py.min 100 (percentile * strength_multiplier) in
  let confidence_multiplier := 0.6 + (0.4 * Py.max 0.0 (Py.min 1.0 data_confidence)) in
  let score := base_score * confidence_multiplier in
  Py.max 30.0 (Py.min 100 score).

(** [_calculate_performance_score]. *)
Definition _calculate_performance_score
  (performance_predictions : PerformancePredictions.t) : Q :=
  let predicted_return :=
    PerformancePredictions.predicted_first_day_return performance_predictions in
  let volatility :=
    PerformancePredictions.performance_volatility performance_predictions in
  let return_score := Py.max 0 (Py.min 100 (50 + (predicted_return * 100))) in
  let volatility := Py.max 0.0 (Py.min 0.5 volatility) in
  let multiplier := 1.1 - (volatility * 0.8 / 0.5) in
  Py.min 100 (return_score * multiplier).

(** [_calculate_similarity_score]. *)
Definition _calculate_similarity_score (similar_ipos : list SimilarityMatch.t)
  : result Q :=
  match similar_ipos with
  | [] => Ok 30.0
  | _ =>
    avg_similarity <- Statistics.mean (map SimilarityMatch.similarity_score similar_ipos) ;;
    let quality_bonus := Py.min 20 (Py.len similar_ipos * 5) in
    Ok (Py.min 100 ((avg_similarity * 100) + quality_bonus))
  end.

(** [needle in s] on strings. *)
Fixpoint contains (needle s : string) : bool :=
  String.prefix needle s ||
  match s with
  | EmptyString => false
  | String _ rest => contains needle rest
  end.

(** [_extract_key_factors]. *)
Definition _extract_key_factors (benchmarks : list HistoricalBenchmark.t)
  (search_analysis : SearchAnalysis.t) (sentiment_analysis : SentimentAnalysis.t)
  : list string :=
  let factors :=
    flat_map (fun benchmark =>
      let p := HistoricalBenchmark.similar_ipos_percentile benchmark in
      let metric := HistoricalBenchmark.metric_name benchmark in
      if Py.gtb p 80 then ["Strong " ++ metric ++ " vs similar IPOs"]
      else if Py.ltb p 30 then ["Weak " ++ metric ++ " vs similar IPOs"]
      else [])%string benchmarks in
  let trend_strength := SearchAnalysis.trend_strength search_analysis in
  let factors :=
    if String.eqb trend_strength "Exceptional" || String.eqb trend_strength "Strong"
    then factors ++ [(trend_strength ++ " search interest")%string]
    else factors in
  let sentiment_strength := SentimentAnalysis.sentiment_strength sentiment_analysis in
  let factors :=
    if contains "Positive" sentiment_strength
    then factors ++ [(sentiment_strength ++ " media sentiment")%string]
    else factors in
  firstn 5 factors.

(** [_generate_recommendation]. *)
Definition _generate_recommendation (hype_score : Q) : string :=
  if Py.geb hype_score 85 then "Strong Buy"
  else if Py.geb hype_score 70 then "Buy"
  else if Py.geb hype_score 50 then "Hold"
  else "Sell".

(** [_assess_risk_level]. *)
Definition _assess_risk_level (performance_predictions : PerformancePredictions.t)
  (_benchmarks : list HistoricalBenchmark.t) : string :=
  let volatility :=
    PerformancePredictions.performance_volatility performance_predictions in
  if Py.gtb volatility 0.4 then "High"
  else if Py.gtb volatility 0.2 then "Medium"
  else "Low".

(** ** Score composer: weights *)

Definition base_weights : Weights.t :=
  {| Weights.financial := 0.28;
     Weights.trend := 0.18;
     Weights.sentiment := 0.18;
     Weights.performance := 0.20;
     Weights.similarity := 0.16 |}.

(** The dictionary [component_confidences]. *)
Definition component_confidences (similar_ipos : list SimilarityMatch.t)
  (benchmarks : list HistoricalBenchmark.t)
  (search_analysis : SearchAnalysis.t) (sentiment_analysis : SentimentAnalysis.t)
  (performance_predictions : PerformancePredictions.t) : Weights.t :=
  {| Weights.financial := match benchmarks with [] => 0.7 | _ => 1.0 end;
     Weights.trend := Py.max 0.35 (SearchAnalysis.data_confidence search_analysis);
     Weights.sentiment := Py.max 0.35 (SentimentAnalysis.data_confidence sentiment_analysis);
     Weights.performance :=
       Py.min 1.0 (0.6 + 0.08 * inject_Z (Z.of_nat
         (PerformancePredictions.historical_sample_size performance_predictions)));
     Weights.similarity := Py.min 1.0 (0.55 + 0.05 * Py.len similar_ipos) |}.

(** The dictionary [weighted_weights]. *)
Definition weighted_weights (confidences : Weights.t) : Weights.t :=
  {| Weights.financial :=
       Weights.financial base_weights * Py.max (Weights.financial confidences) 0.25;
     Weights.trend :=
       Weights.trend base_weights * Py.max (Weights.trend confidences) 0.25;
     Weights.sentiment :=
       Weights.sentiment base_weights * Py.max (Weights.sentiment confidences) 0.25;
     Weights.performance :=
       Weights.performance base_weights * Py.max (Weights.performance confidences) 0.25;
     Weights.similarity :=
       Weights.similarity base_weights * Py.max (Weights.similarity confidences) 0.25 |}.

(** The dictionary [weights] from [weighted_weights]: the scaled weights
    over their total, the base weights when the total is zero. *)
Definition renormalize (weighted_weights : Weights.t) : Weights.t :=
  let total_weight := Py.sum (Weights.values weighted_weights) in
  if Qeq_bool total_weight 0 then base_weights
  else Weights.map (fun w => w / total_weight) weighted_weights.

(** The weights the composer uses for given confidences. *)
Definition normalized_weights (confidences : Weights.t) : Weights.t :=
  renormalize (weighted_weights confidences).

(** ** The service *)

Section Service.

(** [statistics.stdev], whose square root leaves the rationals. *)
Variable stdev : list Q -> Q.

(** [_generate_detailed_analysis], the free text of the result; number
    formatting is not modelled. *)
Variable _generate_detailed_analysis :
  list HistoricalBenchmark.t -> SearchAnalysis.t -> SentimentAnalysis.t ->
  PerformancePredictions.t -> list SimilarityMatch.t -> string.

(** [datetime.now().isoformat()]. *)
Variable now_isoformat : string.

(** [stat(data) if data else 0]. *)
Definition if_any (stat : list Q -> result Q) (data : list Q) : result Q :=
  match data with
  | [] => Ok 0
  | _ => stat data
  end.

(** [statistics.stdev(data) if len(data) > 1 else 0]. *)
Definition stdev_if_many (data : list Q) : Q :=
  if (1 <? length data)%nat then stdev data else 0.

(** One [HistoricalBenchmark(...)] call of [_calculate_historical_benchmarks]. *)
Definition make_benchmark (metric_name : string) (current_value : Q)
  (historical similar : list Q) : result HistoricalBenchmark.t :=
  historical_median <- if_any Statistics.median historical ;;
  historical_mean <- if_any Statistics.mean historical ;;
  similar_ipos_median <- if_any Statistics.median similar ;;
  similar_ipos_mean <- if_any Statistics.mean similar ;;
  Ok {| HistoricalBenchmark.metric_name := metric_name;
        HistoricalBenchmark.current_value := current_value;
        HistoricalBenchmark.historical_median := historical_median;
        HistoricalBenchmark.historical_mean := historical_mean;
        HistoricalBenchmark.historical_std := stdev_if_many historical;
        HistoricalBenchmark.percentile_rank :=
          _calculate_percentile_rank current_value historical;
        HistoricalBenchmark.similar_ipos_median := similar_ipos_median;
        HistoricalBenchmark.similar_ipos_mean := similar_ipos_mean;
        HistoricalBenchmark.similar_ipos_std := stdev_if_many similar;
        HistoricalBenchmark.similar_ipos_percentile :=
          _calculate_percentile_rank current_value similar |}.

(** The peer values of the three benchmarked metrics. *)
Definition similar_growth_rates (similar_ipos : list SimilarityMatch.t) : list Q :=
  not_none (map SimilarityMatch.revenue_growth similar_ipos).

Definition similar_margins (similar_ipos : list SimilarityMatch.t) : list Q :=
  not_none (map SimilarityMatch.gross_margin similar_ipos).

Definition similar_market_caps (similar_ipos : list SimilarityMatch.t) : list Q :=
  not_none (map SimilarityMatch.market_cap similar_ipos).

(** The market-cap benchmark, from the rows of its query. *)
Definition market_cap_benchmark (current_ipo : CurrentIpo.t)
  (similar_ipos : list SimilarityMatch.t) (historical_market_caps : list Q)
  : result HistoricalBenchmark.t :=
  make_benchmark "Market Cap" (CurrentIpo.implied_market_cap current_ipo)
    historical_market_caps (similar_market_caps similar_ipos).

(** [_calculate_historical_benchmarks]: an exception ends the [try] block
    and the benchmarks appended so far are returned. *)
Definition _calculate_historical_benchmarks (pool : option Store.t)
  (current_ipo : CurrentIpo.t) (similar_ipos : list SimilarityMatch.t)
  : list HistoricalBenchmark.t :=
  match pool with
  | None => []
  | Some conn =>
    match Store.revenue_growth_rates conn with
    | FetchError => []
    | Rows historical_growth_rates =>
      match make_benchmark "Revenue Growth YoY"
              (CurrentIpo.revenue_growth_yoy current_ipo)
              historical_growth_rates (similar_growth_rates similar_ipos) with
      | Raise _ => []
      | Ok b1 =>
        match Store.gross_margins conn with
        | FetchError => [b1]
        | Rows historical_margins =>
          match make_benchmark "Gross Margin"
                  (CurrentIpo.gross_margin current_ipo)
                  historical_margins (similar_margins similar_ipos) with
          | Raise _ => [b1]
          | Ok b2 =>
            match Store.market_caps conn with
            | FetchError => [b1; b2]
            | Rows historical_market_caps =>
              match market_cap_benchmark current_ipo similar_ipos
                      historical_market_caps with
              | Raise _ => [b1; b2]
              | Ok b3 => [b1; b2; b3]
              end
            end
          end
        end
      end
    end
  end.

(** The two pools of an analysis: the full pool and the peers' pool, as
    the [if pool: try ... except] block leaves them. *)
Definition fetch_pools (pool : option Store.t)
  (full : Store.t -> fetched (option Q))
  (of_tickers : Store.t -> list string -> fetched (option Q))
  (similar_ipos : list SimilarityMatch.t) : list Q * list Q :=
  match pool with
  | None => ([], [])
  | Some conn =>
    match full conn with
    | FetchError => ([], [])
    | Rows rows =>
      let historical := not_none rows in
      let similar_tickers :=
        filter Py.truthy_str (map SimilarityMatch.ticker similar_ipos) in
      match similar_tickers with
      | [] => (historical, [])
      | _ =>
        match of_tickers conn similar_tickers with
        | FetchError => (historical, [])
        | Rows rows => (historical, not_none rows)
        end
      end
    end
  end.

(** [xs = default] when [not xs]. *)
Definition or_default (xs default : list Q) : list Q :=
  match xs with
  | [] => default
  | _ => xs
  end.

(** The fallback decision of the trend analysis: whether a substitute is
    used, its source, and the effective value. *)
Definition trend_fallback (live_data_available : bool) (trend_error : option string)
  (current_trend_score recent_interest average_interest : Q)
  (historical_trend_scores similar_trend_scores : list Q) : bool * string * Q :=
  let fallback_used := false in
  let fallback_source := "live"%string in
  let effective_trend_score := current_trend_score in
  if negb live_data_available || Py.truthy_ostr trend_error then
    match similar_trend_scores with
    | _ :: _ => (true, "similar"%string, _safe_median similar_trend_scores 55.0)
    | [] => (true, "historical"%string, _safe_median historical_trend_scores 55.0)
    end
  else if Qle_bool effective_trend_score 0 && Qle_bool recent_interest 0
          && Qle_bool average_interest 0 then
    (true, "similar"%string, _safe_median similar_trend_scores 55.0)
  else (fallback_used, fallback_source, effective_trend_score).

(** The strength label of a trend percentile. *)
Definition trend_strength_of (trend_percentile : Q) : string * string :=
  if Py.geb trend_percentile 90 then ("Exceptional", "Very High")%string
  else if Py.geb trend_percentile 75 then ("Strong", "High")%string
  else if Py.geb trend_percentile 50 then ("Moderate", "Medium")%string
  else ("Weak", "Low")%string.

(** [_analyze_search_trends_historically]. *)
Definition _analyze_search_trends_historically (pool : option Store.t)
  (current_ipo : CurrentIpo.t) (similar_ipos : list SimilarityMatch.t)
  : SearchAnalysis.t :=
  let current_trend_score := CurrentIpo.trend_score current_ipo in
  let average_interest := CurrentIpo.trend_average_interest current_ipo in
  let recent_interest := CurrentIpo.trend_recent_interest current_ipo in
  let live_data_available :=
    CurrentIpo.trend_data_available current_ipo
    && (Py.gtb (average_interest + recent_interest) 0 || Py.gtb current_trend_score 0) in
  let trend_error := CurrentIpo.trend_error current_ipo in
  let '(historical_trend_scores, similar_trend_scores) :=
    fetch_pools pool Store.trend_scores Store.trend_scores_of similar_ipos in
  let historical_trend_scores := or_default historical_trend_scores [50.0] in
  let similar_trend_scores := or_default similar_trend_scores historical_trend_scores in
  let '(fallback_used, fallback_source, effective_trend_score) :=
    trend_fallback live_data_available trend_error current_trend_score
      recent_interest average_interest historical_trend_scores similar_trend_scores in
  let trend_percentile :=
    _calculate_percentile_rank effective_trend_score historical_trend_scores in
  let similar_trend_percentile :=
    _calculate_percentile_rank effective_trend_score similar_trend_scores in
  let '(trend_strength, trend_impact) := trend_strength_of trend_percentile in
  let data_confidence :=
    if negb fallback_used then 1.0
    else if String.eqb fallback_source "similar" then 0.75
    else 0.6 in
  {| SearchAnalysis.current_trend_score := current_trend_score;
     SearchAnalysis.effective_trend_score := effective_trend_score;
     SearchAnalysis.historical_percentile := trend_percentile;
     SearchAnalysis.similar_ipos_percentile := similar_trend_percentile;
     SearchAnalysis.effective_percentile := similar_trend_percentile;
     SearchAnalysis.trend_strength := trend_strength;
     SearchAnalysis.trend_impact := trend_impact;
     SearchAnalysis.historical_median := _safe_median historical_trend_scores 50.0;
     SearchAnalysis.similar_ipos_median := _safe_median similar_trend_scores 50.0;
     SearchAnalysis.trend_volatility := stdev_if_many historical_trend_scores;
     SearchAnalysis.data_available := live_data_available && negb fallback_used;
     SearchAnalysis.used_historical_fallback := fallback_used;
     SearchAnalysis.fallback_source := fallback_source;
     SearchAnalysis.data_confidence := data_confidence;
     SearchAnalysis.historical_sample_size := length historical_trend_scores;
     SearchAnalysis.similar_sample_size := length similar_trend_scores |}.

(** The fallback decision of the sentiment analysis. *)
Definition sentiment_fallback (live_data_available : bool) (news_error : option string)
  (current_sentiment : Q) (total_articles : Z)
  (historical_sentiment_scores similar_sentiment_scores : list Q) : bool * string * Q :=
  let fallback_used := false in
  let fallback_source := "live"%string in
  let effective_sentiment := current_sentiment in
  if negb live_data_available || Py.truthy_ostr news_error then
    match similar_sentiment_scores with
    | _ :: _ => (true, "similar"%string, _safe_median similar_sentiment_scores 0.05)
    | [] => (true, "historical"%string, _safe_median historical_sentiment_scores 0.05)
    end
  else if (total_articles =? 0)%Z then
    (true, "similar"%string, _safe_median similar_sentiment_scores 0.05)
  else (fallback_used, fallback_source, effective_sentiment).

(** The strength label of an effective sentiment. *)
Definition sentiment_strength_of (effective_sentiment : Q) : string :=
  if Py.gtb effective_sentiment 0.2 then "Extremely Positive"
  else if Py.gtb effective_sentiment 0.1 then "Very Positive"
  else if Py.gtb effective_sentiment 0.02 then "Moderately Positive"
  else if Py.ltb effective_sentiment (-0.05) then "Negative"
  else "Neutral/Negative".

(** [_analyze_sentiment_historically]. *)
Definition _analyze_sentiment_historically (pool : option Store.t)
  (current_ipo : CurrentIpo.t) (similar_ipos : list SimilarityMatch.t)
  : SentimentAnalysis.t :=
  let current_sentiment := CurrentIpo.sentiment_score current_ipo in
  let total_articles := CurrentIpo.news_total_articles current_ipo in
  let live_data_available :=
    CurrentIpo.news_data_available current_ipo && (0 <? total_articles)%Z in
  let news_error := CurrentIpo.news_error current_ipo in
  let '(historical_sentiment_scores, similar_sentiment_scores) :=
    fetch_pools pool Store.sentiment_scores Store.sentiment_scores_of similar_ipos in
  let historical_sentiment_scores := or_default historical_sentiment_scores [0.0] in
  let similar_sentiment_scores :=
    or_default similar_sentiment_scores historical_sentiment_scores in
  let '(fallback_used, fallback_source, effective_sentiment) :=
    sentiment_fallback live_data_available news_error current_sentiment
      total_articles historical_sentiment_scores similar_sentiment_scores in
  let sentiment_percentile :=
    _calculate_percentile_rank effective_sentiment historical_sentiment_scores in
  let similar_sentiment_percentile :=
    _calculate_percentile_rank effective_sentiment similar_sentiment_scores in
  let sentiment_strength := sentiment_strength_of effective_sentiment in
  let data_confidence :=
    if negb fallback_used then 1.0
    else if String.eqb fallback_source "similar" then 0.7
    else 0.55 in
  {| SentimentAnalysis.current_sentiment := current_sentiment;
     SentimentAnalysis.effective_sentiment := effective_sentiment;
     SentimentAnalysis.total_articles := total_articles;
     SentimentAnalysis.historical_percentile := sentiment_percentile;
     SentimentAnalysis.similar_ipos_percentile := similar_sentiment_percentile;
     SentimentAnalysis.effective_percentile := similar_sentiment_percentile;
     SentimentAnalysis.sentiment_strength := sentiment_strength;
     SentimentAnalysis.historical_median := _safe_median historical_sentiment_scores 0.0;
     SentimentAnalysis.similar_ipos_median := _safe_median similar_sentiment_scores 0.0;
     SentimentAnalysis.data_available := live_data_available && negb fallback_used;
     SentimentAnalysis.used_historical_fallback := fallback_used;
     SentimentAnalysis.fallback_source := fallback_source;
     SentimentAnalysis.data_confidence := data_confidence;
     SentimentAnalysis.historical_sample_size := length historical_sentiment_scores;
     SentimentAnalysis.similar_sample_size := length similar_sentiment_scores |}.

(** [xs.append(v)] when [v is not None]. *)
Definition append_some (xs : list Q) (v : option Q) : list Q :=
  match v with
  | Some x => xs ++ [x]
  | None => xs
  end.

(** The three return pools of [_predict_performance_from_history]: the
    rows of the query, then the peers' returns appended in order. *)
Definition return_pools (pool : option Store.t) (similar_ipos : list SimilarityMatch.t)
  : list Q * list Q * list Q :=
  match pool with
  | None => ([], [], [])
  | Some conn =>
    match Store.performance conn with
    | FetchError => ([], [], [])
    | Rows historical_performance =>
      let first_day_returns :=
        not_none (map (fun row => fst (fst row)) historical_performance) in
      let first_week_returns :=
        not_none (map (fun row => snd (fst row)) historical_performance) in
      let first_month_returns :=
        not_none (map (fun row => snd row) historical_performance) in
      fold_left
        (fun '(d, w, m) ipo =>
           (append_some d (SimilarityMatch.first_day_return ipo),
            append_some w (SimilarityMatch.first_week_return ipo),
            append_some m (SimilarityMatch.first_month_return ipo)))
        similar_ipos (first_day_returns, first_week_returns, first_month_returns)
    end
  end.

(** [_predict_performance_from_history]: the medians are taken outside
    any [try], so an empty pool raises. *)
Definition _predict_performance_from_history (pool : option Store.t)
  (_current_ipo : CurrentIpo.t) (similar_ipos : list SimilarityMatch.t)
  : result PerformancePredictions.t :=
  let '(first_day_returns, first_week_returns, first_month_returns) :=
    return_pools pool similar_ipos in
  predicted_first_day <- Statistics.median first_day_returns ;;
  predicted_first_week <- Statistics.median first_week_returns ;;
  predicted_first_month <- Statistics.median first_month_returns ;;
  let performance_volatility := stdev_if_many first_day_returns in
  Ok {| PerformancePredictions.predicted_first_day_return := predicted_first_day;
        PerformancePredictions.predicted_first_week_return := predicted_first_week;
        PerformancePredictions.predicted_first_month_return := predicted_first_month;
        PerformancePredictions.performance_volatility := performance_volatility;
        PerformancePredictions.historical_sample_size := length first_day_returns;
        PerformancePredictions.risk_level :=
          if Py.gtb performance_volatility 0.3 then "High"
          else if Py.gtb performance_volatility 0.15 then "Medium"
          else "Low" |}.

(** The weighted sum of the sub-scores. *)
Definition base_hype_score_of (scores : ComponentScores.t) (weights : Weights.t) : Q :=
  ComponentScores.financial_score scores * Weights.financial weights +
  ComponentScores.trend_score scores * Weights.trend weights +
  ComponentScores.sentiment_score scores * Weights.sentiment weights +
  ComponentScores.performance_score scores * Weights.performance weights +
  ComponentScores.similarity_score scores * Weights.similarity weights.

(** The calibration of the base score: boost, then clamp. *)
Definition final_hype_score_of (base_hype_score : Q) : Q :=
  let baseline_boost := 12.5 in
  let optimism_multiplier := 1.1 in
  let boosted_hype_score := (base_hype_score * optimism_multiplier) + baseline_boost in
  Py.max 35.0 (Py.min 100.0 boosted_hype_score).

(** The five sub-scores, as computed at the head of
    [_generate_data_backed_hype_score]. *)
Definition component_scores_of (similar_ipos : list SimilarityMatch.t)
  (benchmarks : list HistoricalBenchmark.t)
  (search_analysis : SearchAnalysis.t) (sentiment_analysis : SentimentAnalysis.t)
  (performance_predictions : PerformancePredictions.t) : result ComponentScores.t :=
  financial_score <- _calculate_financial_score benchmarks ;;
  let trend_score := _calculate_trend_score search_analysis in
  let sentiment_score := _calculate_sentiment_score sentiment_analysis in
  let performance_score := _calculate_performance_score performance_predictions in
  similarity_score <- _calculate_similarity_score similar_ipos ;;
  Ok {| ComponentScores.financial_score := financial_score;
        ComponentScores.trend_score := trend_score;
        ComponentScores.sentiment_score := sentiment_score;
        ComponentScores.performance_score := performance_score;
        ComponentScores.similarity_score := similarity_score |}.

(** [_generate_data_backed_hype_score]. *)
Definition _generate_data_backed_hype_score (current_ipo : CurrentIpo.t)
  (similar_ipos : list SimilarityMatch.t)
  (benchmarks : list HistoricalBenchmark.t)
  (search_analysis : SearchAnalysis.t) (sentiment_analysis : SentimentAnalysis.t)
  (performance_predictions : PerformancePredictions.t) : result HypeScoreResult.t :=
  scores <- component_scores_of similar_ipos benchmarks search_analysis
              sentiment_analysis performance_predictions ;;
  let weights :=
    normalized_weights
      (component_confidences similar_ipos benchmarks search_analysis
         sentiment_analysis performance_predictions) in
  let base_hype_score := base_hype_score_of scores weights in
  let final_hype_score := final_hype_score_of base_hype_score in
  let analysis :=
    _generate_detailed_analysis benchmarks search_analysis sentiment_analysis
      performance_predictions similar_ipos in
  Ok {| HypeScoreResult.hype_score := Py.round final_hype_score 1;
        HypeScoreResult.component_scores :=
          {| ComponentScores.financial_score :=
               Py.round (ComponentScores.financial_score scores) 1;
             ComponentScores.trend_score :=
               Py.round (ComponentScores.trend_score scores) 1;
             ComponentScores.sentiment_score :=
               Py.round (ComponentScores.sentiment_score scores) 1;
             ComponentScores.performance_score :=
               Py.round (ComponentScores.performance_score scores) 1;
             ComponentScores.similarity_score :=
               Py.round (ComponentScores.similarity_score scores) 1 |};
        HypeScoreResult.weight_allocation :=
          Some (Weights.map (fun v => Py.round v 3) weights);
        HypeScoreResult.analysis := analysis;
        HypeScoreResult.key_factors :=
          _extract_key_factors benchmarks search_analysis sentiment_analysis;
        HypeScoreResult.recommendation := _generate_recommendation final_hype_score;
        HypeScoreResult.risk_level :=
          _assess_risk_level performance_predictions benchmarks;
        HypeScoreResult.similar_ipos_count := length similar_ipos;
        HypeScoreResult.benchmarks_analyzed := length benchmarks;
        HypeScoreResult.last_updated := now_isoformat |}.

(** [_get_fallback_hype_score]. *)
Definition _get_fallback_hype_score (_current_ipo_data : CurrentIpo.t)
  : result HypeScoreResult.t :=
  Ok {| HypeScoreResult.hype_score := 50.0;
        HypeScoreResult.component_scores :=
          {| ComponentScores.financial_score := 50.0;
             ComponentScores.trend_score := 50.0;
             ComponentScores.sentiment_score := 50.0;
             ComponentScores.performance_score := 50.0;
             ComponentScores.similarity_score := 30.0 |};
        HypeScoreResult.weight_allocation := None;
        HypeScoreResult.analysis :=
          "Historical analysis unavailable. Using basic scoring methodology.";
        HypeScoreResult.key_factors := ["Limited historical data available"%string];
        HypeScoreResult.recommendation := "Hold";
        HypeScoreResult.risk_level := "High";
        HypeScoreResult.similar_ipos_count := 0;
        HypeScoreResult.benchmarks_analyzed := 0;
        HypeScoreResult.last_updated := now_isoformat |}.

(** The six steps inside the [try] of [analyze_ipo_hype_score]. *)
Definition analysis_steps (pool : option Store.t) (current_ipo_data : CurrentIpo.t)
  : result HypeScoreResult.t :=
  let similar_ipos := _find_similar_historical_ipos pool current_ipo_data in
  let benchmarks := _calculate_historical_benchmarks pool current_ipo_data similar_ipos in
  let search_analysis :=
    _analyze_search_trends_historically pool current_ipo_data similar_ipos in
  let sentiment_analysis :=
    _analyze_sentiment_historically pool current_ipo_data similar_ipos in
  performance_predictions <-
    _predict_performance_from_history pool current_ipo_data similar_ipos ;;
  _generate_data_backed_hype_score current_ipo_data similar_ipos benchmarks
    search_analysis sentiment_analysis performance_predictions.

(** [analyze_ipo_hype_score]: [except Exception] turns every exception of
    the steps into the fallback result. *)
Definition analyze_ipo_hype_score (pool : option Store.t)
  (current_ipo_data : CurrentIpo.t) : result HypeScoreResult.t :=
  match analysis_steps pool current_ipo_data with
  | Ok hype_score_data => Ok hype_score_data
  | Raise _ => _get_fallback_hype_score current_ipo_data
  end.

End Service.

(** ** The rules as the specification words them

    Used only to compare with the functions above. *)

(** The factor table of the specification: the revenue-growth weight is
    earned whenever the relative difference is below 0.2. *)
Definition spec_candidate_score (current_ipo : CurrentIpo.t) (row : Row.t) : Q :=
  let revenue_growth := CurrentIpo.revenue_growth_yoy current_ipo in
  (if Py.ostr_eqb (Row.market_cap_category row)
        (market_cap_category_of (CurrentIpo.implied_market_cap current_ipo))
   then 0.30 else 0)
  + (if col_eqb (Row.sector row) (CurrentIpo.sector current_ipo) then 0.20 else 0)
  + (if col_eqb (Row.industry row) (CurrentIpo.industry current_ipo) then 0.20 else 0)
  + match Row.revenue_growth_yoy row with
    | Some g =>
      if Py.ltb (Py.abs (g - revenue_growth) / Py.max (Py.abs revenue_growth) 1) 0.2
      then 0.30 else 0
    | None => 0
    end.

(** The factor table as the code applies it: the revenue-growth weight
    also needs both growth figures to be present and non-zero. *)
Definition guarded_candidate_score (current_ipo : CurrentIpo.t) (row : Row.t) : Q :=
  let revenue_growth := CurrentIpo.revenue_growth_yoy current_ipo in
  (if Py.ostr_eqb (Row.market_cap_category row)
        (market_cap_category_of (CurrentIpo.implied_market_cap current_ipo))
   then 0.30 else 0)
  + (if col_eqb (Row.sector row) (CurrentIpo.sector current_ipo) then 0.20 else 0)
  + (if col_eqb (Row.industry row) (CurrentIpo.industry current_ipo) then 0.20 else 0)
  + match Row.revenue_growth_yoy row with
    | Some g =>
      if Py.truthy g && Py.truthy revenue_growth
         && Py.ltb (Py.abs (g - revenue_growth) / Py.max (Py.abs revenue_growth) 1) 0.2
      then 0.30 else 0
    | None => 0
    end.

(** The trend sub-score of the specification, the strength bucket taken
    from a given percentile. *)
Definition spec_trend_score (bucket_percentile effective_percentile confidence : Q) : Q :=
  let strength_multiplier :=
    trend_strength_multiplier (fst (trend_strength_of bucket_percentile)) in
  let base := Py.min 100 (effective_percentile * strength_multiplier) in
  Py.max 35 (base * (0.6 + 0.4 * confidence)).

(** The performance sub-score of the specification: the multiplier falls
    linearly from 1.1 at volatility 0 to 0.7 at volatility 0.5. *)
Definition spec_performance_score (predicted_first_day_return volatility : Q) : Q :=
  let return_score := Py.max 0 (Py.min 100 (50 + predicted_first_day_return * 100)) in
  let v := Py.max 0 (Py.min 0.5 volatility) in
  let multiplier := 1.1 - v * ((1.1 - 0.7) / 0.5) in
  Py.min 100 (return_score * multiplier).

(** Descending order of the similarity scores. *)
Definition score_ge (a b : SimilarityMatch.t) : Prop :=
  SimilarityMatch.similarity_score b <= SimilarityMatch.similarity_score a.

(** The three list properties of the matcher's answer: at most ten
    matches, each at the threshold or above, in descending order. *)
Definition well_ranked (matches : list SimilarityMatch.t) : Prop :=
  (length matches <= 10)%nat
  /\ Forall (fun m => 0.30 <= SimilarityMatch.similarity_score m) matches
  /\ StronglySorted score_ge matches.

(** An empty corpus: no connection, or a database whose peers query and
    performance query give no row (or fail). *)
Definition corpus_empty (pool : option Store.t) : Prop :=
  match pool with
  | None => True
  | Some conn =>
    (forall category sector,
        Store.candidates conn category sector = Rows []
        \/ Store.candidates conn category sector = FetchError)
    /\ (Store.performance conn = Rows [] \/ Store.performance conn = FetchError)
  end.

(** ** Sample inputs *)

Module Sample.

(** A company with every signal absent. *)
Definition blank : CurrentIpo.t :=
  {| CurrentIpo.sector := EmptyString;
     CurrentIpo.industry := EmptyString;
     CurrentIpo.implied_market_cap := 0;
     CurrentIpo.revenue_growth_yoy := 0;
     CurrentIpo.gross_margin := 0;
     CurrentIpo.trend_score := 0;
     CurrentIpo.trend_average_interest := 0;
     CurrentIpo.trend_recent_interest := 0;
     CurrentIpo.trend_data_available := false;
     CurrentIpo.trend_error := Some "rate limited"%string;
     CurrentIpo.sentiment_score := 0;
     CurrentIpo.news_total_articles := 0;
     CurrentIpo.news_data_available := false;
     CurrentIpo.news_error := Some "timeout"%string |}.

(** A one-billion software company with no revenue growth reported and a
    live trend score of 95. *)
Definition acme : CurrentIpo.t :=
  {| CurrentIpo.sector := "Technology";
     CurrentIpo.industry := "Software";
     CurrentIpo.implied_market_cap := 1000000000;
     CurrentIpo.revenue_growth_yoy := 0;
     CurrentIpo.gross_margin := 0.6;
     CurrentIpo.trend_score := 95;
     CurrentIpo.trend_average_interest := 40;
     CurrentIpo.trend_recent_interest := 60;
     CurrentIpo.trend_data_available := true;
     CurrentIpo.trend_error := None;
     CurrentIpo.sentiment_score := 0.15;
     CurrentIpo.news_total_articles := 12;
     CurrentIpo.news_data_available := true;
     CurrentIpo.news_error := None |}.

(** A peer of [acme]: same bucket, sector and industry, growth 0.1,
    market cap 1.2 billion. *)
Definition peer : Row.t :=
  {| Row.ticker := "PEER";
     Row.name := "Peer Inc";
     Row.sector := Some "Technology"%string;
     Row.industry := Some "Software"%string;
     Row.revenue_growth_yoy := Some 0.1;
     Row.gross_margin := Some 0.7;
     Row.operating_margin := None;
     Row.market_cap_at_ipo := Some 1200000000;
     Row.first_day_return := Some 0.2;
     Row.first_week_return := Some 0.1;
     Row.first_month_return := Some 0.3;
     Row.market_cap_category := Some "small"%string;
     Row.growth_stage := None |}.

(** A database with one historical IPO, ten trend samples overall and two
    for the peer. *)
Definition store : Store.t :=
  {| Store.candidates := fun _ _ => Rows [peer];
     Store.revenue_growth_rates := Rows [0.1];
     Store.gross_margins := Rows [0.7];
     Store.market_caps := Rows [1200000000];
     Store.trend_scores :=
       Rows (map Some [10; 20; 30; 40; 50; 60; 70; 80; 90; 100]);
     Store.trend_scores_of := fun _ => Rows (map Some [90; 100]);
     Store.sentiment_scores := Rows (map Some [0.0; 0.1; 0.2]);
     Store.sentiment_scores_of := fun _ => Rows (map Some [0.1; 0.2]);
     Store.performance := Rows [(Some 0.2, Some 0.1, Some 0.3)] |}.

(** Stand-ins for the three library routines of the service; the sample
    pools passed to [stdev] hold equal values or feed no score. *)
Definition stdev (_ : list Q) : Q := 0.

Definition text (_ : list HistoricalBenchmark.t) (_ : SearchAnalysis.t)
  (_ : SentimentAnalysis.t) (_ : PerformancePredictions.t)
  (_ : list SimilarityMatch.t) : string := EmptyString.

Definition now : string := "2025-01-01T00:00:00".

(** A forecast of a flat first day at volatility 0.5. *)
Definition volatile : PerformancePredictions.t :=
  {| PerformancePredictions.predicted_first_day_return := 0;
     PerformancePredictions.predicted_first_week_return := 0;
     PerformancePredictions.predicted_first_month_return := 0;
     PerformancePredictions.performance_volatility := 0.5;
     PerformancePredictions.historical_sample_size := 4;
     PerformancePredictions.risk_level := "High" |}.

End Sample.

(** ** Reading the matcher's loop as a rule *)

(** The names the loop appends to [factors], in the order of its tests. *)
Definition factor_names : list string :=
  ["market_cap"; "sector"; "industry"; "revenue_growth"]%string.

(** The weight the loop adds to the score with each factor name. *)
Definition factor_weight (factor : string) : Q :=
  if String.eqb factor "market_cap" then 0.3
  else if String.eqb factor "sector" then 0.2
  else if String.eqb factor "industry" then 0.2
  else if String.eqb factor "revenue_growth" then 0.3
  else 0.

(** Whether the test of the loop for one factor name succeeds. *)
Definition factor_matches (current_ipo : CurrentIpo.t) (row : Row.t)
  (factor : string) : bool :=
  if String.eqb factor "market_cap" then
    Py.ostr_eqb (Row.market_cap_category row)
      (market_cap_category_of (CurrentIpo.implied_market_cap current_ipo))
  else if String.eqb factor "sector" then
    col_eqb (Row.sector row) (CurrentIpo.sector current_ipo)
  else if String.eqb factor "industry" then
    col_eqb (Row.industry row) (CurrentIpo.industry current_ipo)
  else if String.eqb factor "revenue_growth" then
    growth_matches (Row.revenue_growth_yoy row)
      (CurrentIpo.revenue_growth_yoy current_ipo)
  else false.

(** The candidates that pass the threshold test, as a rule on the factors. *)
Definition retained (current_ipo : CurrentIpo.t) (row : Row.t) : bool :=
  factor_matches current_ipo row "market_cap"
  || factor_matches current_ipo row "revenue_growth"
  || (factor_matches current_ipo row "sector"
      && factor_matches current_ipo row "industry").

(** Both percentiles of a benchmark lie in [0, 100]. *)
Definition percentiles_in_range (b : HistoricalBenchmark.t) : Prop :=
  0 <= HistoricalBenchmark.percentile_rank b <= 100
  /\ 0 <= HistoricalBenchmark.similar_ipos_percentile b <= 100.

(** Further sample inputs. *)
Module Fixture.

(** A database with three trend samples and no historical IPO. *)
Definition three_trends : Store.t :=
  {| Store.candidates := fun _ _ => Rows [];
     Store.revenue_growth_rates := Rows [];
     Store.gross_margins := Rows [];
     Store.market_caps := Rows [];
     Store.trend_scores := Rows (map Some [20; 40; 90]);
     Store.trend_scores_of := fun _ => Rows [];
     Store.sentiment_scores := Rows [];
     Store.sentiment_scores_of := fun _ => Rows [];
     Store.performance := Rows [] |}.

(** A database with first-day returns only. *)
Definition first_day_only : Store.t :=
  {| Store.candidates := fun _ _ => Rows [];
     Store.revenue_growth_rates := Rows [];
     Store.gross_margins := Rows [];
     Store.market_caps := Rows [];
     Store.trend_scores := Rows [];
     Store.trend_scores_of := fun _ => Rows [];
     Store.sentiment_scores := Rows [];
     Store.sentiment_scores_of := fun _ => Rows [];
     Store.performance := Rows [(Some 0.2, None, None)] |}.

End Fixture.

(** A database with historical IPOs but no trend or sentiment sample. *)
Module Sparse.

Definition no_samples : Store.t :=
  {| Store.candidates := fun _ _ => Rows [Sample.peer];
     Store.revenue_growth_rates := Rows [0.1];
     Store.gross_margins := Rows [0.7];
     Store.market_caps := Rows [1200000000];
     Store.trend_scores := Rows [];
     Store.trend_scores_of := fun _ => Rows [];
     Store.sentiment_scores := Rows [];
     Store.sentiment_scores_of := fun _ => Rows [];
     Store.performance := Rows [(Some 0.2, Some 0.1, Some 0.3)] |}.

End Sparse.

(** ** Upstream data ([trends_service.py], [news_service.py]) *)

(** What [pytrends] gives for one company inside the [try] of
    [get_trends_data]: the interest series (empty when the frame is
    empty), or an exception with its message. *)
Inductive trends_reply : Type :=
| Interest (series : list Q)
| TrendsError (message : string).

(** The entry [get_trends_data] stores for a company, as far as the
    scoring reads it. *)
Module TrendEntry.
Record t : Type := mk {
  average_interest : Q;
  recent_interest : Q;
  trend_score : Q;
  error : option string
}.
End TrendEntry.

(** [series.mean()] of a non-empty series. *)
Definition series_mean (series : list Q) : Q := Py.sum series / Py.len series.

(** [series.tail(n)]. *)
Definition tail (n : nat) (series : list Q) : list Q :=
  skipn (length series - n) series.

(** The body of the loop of [get_trends_data] for one company. *)
Definition trends_entry (reply : trends_reply) : TrendEntry.t :=
  match reply with
  | Interest [] =>
    {| TrendEntry.average_interest := 0;
       TrendEntry.recent_interest := 0;
       TrendEntry.trend_score := 0;
       TrendEntry.error := Some "No data available"%string |}
  | Interest series =>
    let avg_interest := series_mean series in
    let recent_interest := series_mean (tail 7 series) in
    {| TrendEntry.average_interest := avg_interest;
       TrendEntry.recent_interest := recent_interest;
       TrendEntry.trend_score := recent_interest;
       TrendEntry.error := None |}
  | TrendsError message =>
    {| TrendEntry.average_interest := 0;
       TrendEntry.recent_interest := 0;
       TrendEntry.trend_score := 0;
       TrendEntry.error := Some message |}
  end.

(** An article dictionary, as built by the two fetchers. *)
Module Article.
Record t : Type := mk {
  title : string;
  description : string;
  url : option string;
  source : string;
  published_at : string;
  content : string;
  source_type : string
}.
End Article.

(** The per-company metadata of [get_company_news]. *)
Module CompanyNews.
Record t : Type := mk {
  articles : list Article.t;
  total_articles : nat;
  error : option string;
  warnings : option (string * string);
  newsapi_count : nat;
  gdelt_count : nat
}.
End CompanyNews.

(** The per-company result of [analyze_sentiment]; [total_articles] is a
    key of the last dictionary only. *)
Module SentimentEntry.
Record t : Type := mk {
  sentiment_score : Q;
  sentiment_label : string;
  positive_count : nat;
  negative_count : nat;
  neutral_count : nat;
  total_articles : option nat;
  error : option string
}.
End SentimentEntry.

Section NewsService.

(** [str.strip] and [str.lower], which follow the Unicode tables. *)
Variable strip : string -> string.
Variable lower : string -> string.

(** The key of an article in [_merge_articles]. *)
Definition article_key (article : Article.t) : string :=
  let url_value :=
    strip (match Article.url article with
           | Some u => u
           | None => EmptyString
           end) in
  lower url_value.

(** [key in seen_urls]. *)
Definition seen (key : string) (seen_urls : list string) : bool :=
  existsb (String.eqb key) seen_urls.

(** The body of the inner loop of [_merge_articles] on the pair of
    [merged] and [seen_urls]. *)
Definition merge_step (state : list Article.t * list string) (article : Article.t)
  : list Article.t * list string :=
  let '(merged, seen_urls) := state in
  let key := article_key article in
  if Py.truthy_str key && seen key seen_urls then (merged, seen_urls)
  else
    let seen_urls := if Py.truthy_str key then key :: seen_urls else seen_urls in
    (merged ++ [article], seen_urls).

(** [_merge_articles]: the loop over [primary], then over [secondary]. *)
Definition _merge_articles (primary secondary : list Article.t) : list Article.t :=
  fst (fold_left merge_step secondary (fold_left merge_step primary ([], []))).

(** The metadata [get_company_news] builds from the two fetches, each a
    pair of articles and error message. *)
Definition company_news (newsapi_articles gdelt_articles : list Article.t * string)
  : CompanyNews.t :=
  let combined_articles :=
    _merge_articles (fst newsapi_articles) (fst gdelt_articles) in
  let total_articles := length combined_articles in
  let newsapi_error := snd newsapi_articles in
  let gdelt_error := snd gdelt_articles in
  {| CompanyNews.articles := combined_articles;
     CompanyNews.total_articles := total_articles;
     CompanyNews.error :=
       if Py.truthy_str newsapi_error && Py.truthy_str gdelt_error
       then Some ("NewsAPI: " ++ newsapi_error ++ "; GDELT: " ++ gdelt_error)%string
       else None;
     CompanyNews.warnings :=
       if Py.truthy_str newsapi_error && Py.truthy_str gdelt_error then None
       else if Py.truthy_str newsapi_error then Some ("newsapi"%string, newsapi_error)
       else if Py.truthy_str gdelt_error then Some ("gdelt"%string, gdelt_error)
       else None;
     CompanyNews.newsapi_count := length (fst newsapi_articles);
     CompanyNews.gdelt_count := length (fst gdelt_articles) |}.

Definition positive_keywords : list string :=
  ["growth"; "profit"; "success"; "positive"; "increase"; "gain"; "up"; "rise";
   "bullish"; "strong"; "excellent"; "outstanding"]%string.

Definition negative_keywords : list string :=
  ["loss"; "decline"; "decrease"; "down"; "fall"; "bearish"; "weak"; "poor";
   "negative"; "crash"; "drop"; "trouble"]%string.

(** [sum(1 for keyword in keywords if keyword in text)]. *)
Definition keyword_score (keywords : list string) (text : string) : nat :=
  length (filter (fun keyword => contains keyword text) keywords).

(** The lower-cased text of an article. *)
Definition article_text (article : Article.t) : string :=
  lower (Article.title article ++ " " ++ Article.description article ++ " "
         ++ Article.content article)%string.

(** The body of the loop over the articles on the three counters. *)
Definition count_step (counts : nat * nat * nat) (article : Article.t)
  : nat * nat * nat :=
  let '(positive_count, negative_count, neutral_count) := counts in
  let text := article_text article in
  let positive_score := keyword_score positive_keywords text in
  let negative_score := keyword_score negative_keywords text in
  if (negative_score <? positive_score)%nat
  then (S positive_count, negative_count, neutral_count)
  else if (positive_score <? negative_score)%nat
  then (positive_count, S negative_count, neutral_count)
  else (positive_count, negative_count, S neutral_count).

(** The dictionary of [analyze_sentiment] when there is nothing to score. *)
Definition neutral_entry (error : string) : SentimentEntry.t :=
  {| SentimentEntry.sentiment_score := 0;
     SentimentEntry.sentiment_label := "neutral";
     SentimentEntry.positive_count := 0;
     SentimentEntry.negative_count := 0;
     SentimentEntry.neutral_count := 0;
     SentimentEntry.total_articles := None;
     SentimentEntry.error := Some error |}.

(** The body of the loop of [analyze_sentiment] for one company. *)
Definition sentiment_entry (company_news : CompanyNews.t) : SentimentEntry.t :=
  match CompanyNews.error company_news with
  | Some error => neutral_entry error
  | None =>
    let articles := CompanyNews.articles company_news in
    match articles with
    | [] => neutral_entry "No articles found"
    | _ =>
      let '(positive_count, negative_count, neutral_count) :=
        fold_left count_step articles (0, 0, 0)%nat in
      let total_articles := length articles in
      let sentiment_score :=
        if (0 <? total_articles)%nat
        then (inject_Z (Z.of_nat positive_count) - inject_Z (Z.of_nat negative_count))
             / inject_Z (Z.of_nat total_articles)
        else 0 in
      let sentiment_score := Py.max (-1) (Py.min 1 sentiment_score) in
      let sentiment_label :=
        if Py.gtb sentiment_score 0.1 then "positive"%string
        else if Py.ltb sentiment_score (-0.1) then "negative"%string
        else "neutral"%string in
      {| SentimentEntry.sentiment_score := sentiment_score;
         SentimentEntry.sentiment_label := sentiment_label;
         SentimentEntry.positive_count := positive_count;
         SentimentEntry.negative_count := negative_count;
         SentimentEntry.neutral_count := neutral_count;
         SentimentEntry.total_articles := Some total_articles;
         SentimentEntry.error := None |}
    end
  end.

End NewsService.

(** ** The caller ([openai_service.py]) *)

(** A key of a dictionary whose stored null is read differently from its
    absence: the key is absent, holds a null, or holds a value. *)
Inductive slot (A : Type) : Type :=
| Missing
| Null
| Held (value : A).
Arguments Missing {A}.
Arguments Null {A}.
Arguments Held {A} value.

(** [d.get(key, default)]: the default for an absent key only; a stored
    null comes back as [None]. *)
Definition get_default {A} (x : slot A) (default : option A) : option A :=
  match x with
  | Missing => default
  | Null => None
  | Held value => Some value
  end.

(** The three dictionaries handed to [generate_hype_score], as far as
    [_get_historical_analysis] reads them; the values are numbers and
    strings as the services produce them.  In [search_data] every key is
    read so that a stored null and an absent key give the same record
    ([is not None], [or 0], truthiness), and [None] stands for both. *)
Module SearchData.
Record t : Type := mk {
  trend_score : option Q;
  average_interest : option Q;
  recent_interest : option Q;
  error : option string
}.
End SearchData.

(** In [news_data] the three keys read with a default tell a stored
    null from an absent key; for ["error"], read without a default,
    [None] stands for both. *)
Module NewsData.
Record t : Type := mk {
  sentiment_score : slot Q;
  total_articles : slot Z;
  totalArticles : slot Z;
  error : option string
}.
End NewsData.

(** In [stock_data] [None] is an absent key, and a key that is present
    holds a string or a number: a stored null would reach the historical
    service as [None], which the record [CurrentIpo.t] of this development
    does not hold, so such dictionaries are not covered. *)
Module StockData.
Record t : Type := mk {
  sector : option string;
  industry : option string;
  revenue_growth_yoy : option Q;
  gross_margin : option Q;
  market_cap : option Q
}.
End StockData.

(** [x or 0], and an optional reading or a default. *)
Definition or_zero (x : option Q) : Q :=
  match x with Some v => v | None => 0 end.

Definition get_or {A} (x : option A) (default : A) : A :=
  match x with Some v => v | None => default end.

(** The dictionary [current_ipo_data] of [_get_historical_analysis]; the
    interests, the sentiment and the article count are stored after the
    [or 0] the analyses apply to them. *)
Definition current_ipo_data_of (search_data : SearchData.t)
  (news_data : NewsData.t) (stock_data : StockData.t) : CurrentIpo.t :=
  let trend_score := SearchData.trend_score search_data in
  let average_interest := SearchData.average_interest search_data in
  let recent_interest := SearchData.recent_interest search_data in
  let trend_error := SearchData.error search_data in
  let trend_data_available :=
    ((match trend_score with Some v => Py.gtb v 0 | None => false end
      || Py.gtb (or_zero average_interest) 0
      || Py.gtb (or_zero recent_interest) 0)
     && negb (Py.truthy_ostr trend_error))%bool in
  let total_articles :=
    get_default (NewsData.total_articles news_data)
      (get_default (NewsData.totalArticles news_data) (Some 0%Z)) in
  let news_error := NewsData.error news_data in
  let news_data_available :=
    ((0 <? get_or total_articles 0)%Z && negb (Py.truthy_ostr news_error))%bool in
  {| CurrentIpo.sector := get_or (StockData.sector stock_data) EmptyString;
     CurrentIpo.industry := get_or (StockData.industry stock_data) EmptyString;
     CurrentIpo.implied_market_cap := get_or (StockData.market_cap stock_data) 0;
     CurrentIpo.revenue_growth_yoy :=
       get_or (StockData.revenue_growth_yoy stock_data) 0;
     CurrentIpo.gross_margin := get_or (StockData.gross_margin stock_data) 0;
     CurrentIpo.trend_score := match trend_score with Some v => v | None => 0 end;
     CurrentIpo.trend_average_interest := or_zero average_interest;
     CurrentIpo.trend_recent_interest := or_zero recent_interest;
     CurrentIpo.trend_data_available := trend_data_available;
     CurrentIpo.trend_error := trend_error;
     CurrentIpo.sentiment_score :=
       or_zero (get_default (NewsData.sentiment_score news_data) (Some 0));
     CurrentIpo.news_total_articles := get_or total_articles 0%Z;
     CurrentIpo.news_data_available := news_data_available;
     CurrentIpo.news_error := news_error |}.

(** The entries of the services as the dictionaries of the caller
    ([get_company_analysis] of [main.py] passes them on unchanged). *)
Definition search_data_of (entry : TrendEntry.t) : SearchData.t :=
  {| SearchData.trend_score := Some (TrendEntry.trend_score entry);
     SearchData.average_interest := Some (TrendEntry.average_interest entry);
     SearchData.recent_interest := Some (TrendEntry.recent_interest entry);
     SearchData.error := TrendEntry.error entry |}.

Definition news_data_of (entry : SentimentEntry.t) : NewsData.t :=
  {| NewsData.sentiment_score := Held (SentimentEntry.sentiment_score entry);
     NewsData.total_articles :=
       match SentimentEntry.total_articles entry with
       | Some n => Held (Z.of_nat n)
       | None => Missing
       end;
     NewsData.totalArticles := Missing;
     NewsData.error := SentimentEntry.error entry |}.

(** What the first model call gives: an exception, or a parsed object in
    which ["hype_score"] is absent, not a number, or a number. *)
Inductive score_reply : Type :=
| ScoreCallFailed
| ScoreParsed (hype_score : option (option Q)).

(** What the second model call gives: an exception, or the raw text and
    the keys of the parsed object. *)
Inductive analysis_reply : Type :=
| AnalysisCallFailed
| AnalysisParsed (response : string) (analysis : option string)
    (key_factors : option (list string)) (recommendation : option string)
    (risk_level : option string) (market_outlook : option string).

(** The dictionary [generate_hype_score] returns. *)
Module AiResult.
Record t : Type := mk {
  company_name : string;
  hype_score : Q;
  analysis : string;
  key_factors : list string;
  recommendation : string;
  risk_level : string;
  component_scores : ComponentScores.t;
  similar_ipos_count : nat;
  benchmarks_analyzed : nat;
  market_outlook : option string;
  last_updated : string
}.
End AiResult.

(** [_get_recommendation_from_score]. *)
Definition _get_recommendation_from_score (hype_score : Q) : string :=
  if Py.geb hype_score 85 then "Strong Buy"
  else if Py.geb hype_score 70 then "Buy"
  else if Py.geb hype_score 50 then "Hold"
  else "Sell".

(** The values the two prompts format with a numeric format
    specification ([:.2f], [:,.0f], [:.1%], [:,]): the sentiment score of
    [news_data], twelve keys of [stock_data] and, when
    [ipo_calendar_data] is given and not empty, three of its keys.  An
    absent key formats its default 0. *)
Module PromptData.
Record t : Type := mk {
  sentiment_score : slot Q;
  change_percent : slot Q;
  volume : slot Q;
  market_cap : slot Q;
  revenue : slot Q;
  revenue_growth_yoy : slot Q;
  net_income : slot Q;
  gross_margin : slot Q;
  operating_margin : slot Q;
  free_cash_flow : slot Q;
  cash_burn : slot Q;
  enterprise_value : slot Q;
  shares_outstanding : slot Q;
  ipo_calendar_data : option (slot Q * slot Q * slot Q)
}.
End PromptData.

(** The exception of [format] on a null. *)
Inductive py_error : Type :=
| TypeError.

(** A call that returns or raises. *)
Inductive attempt (A : Type) : Type :=
| Done (value : A)
| Raised (e : py_error).
Arguments Done {A} value.
Arguments Raised {A} e.

(** Whether [f"{d.get(key, 0):spec}"] can be formatted: a null has no
    numeric format. *)
Definition formats (x : slot Q) : bool :=
  match x with
  | Null => false
  | Missing => true
  | Held _ => true
  end.

(** [_format_news_sentiment_data]: whether the text can be built. *)
Definition _format_news_sentiment_data (data : PromptData.t) : bool :=
  formats (PromptData.sentiment_score data).

(** [_format_financial_data]: whether the text can be built. *)
Definition _format_financial_data (data : PromptData.t) : bool :=
  formats (PromptData.change_percent data)
  && formats (PromptData.volume data)
  && formats (PromptData.market_cap data)
  && formats (PromptData.revenue data)
  && formats (PromptData.revenue_growth_yoy data)
  && formats (PromptData.net_income data)
  && formats (PromptData.gross_margin data)
  && formats (PromptData.operating_margin data)
  && formats (PromptData.free_cash_flow data)
  && formats (PromptData.cash_burn data)
  && formats (PromptData.enterprise_value data)
  && formats (PromptData.shares_outstanding data).

(** [_build_hype_score_calculation_prompt]: the text is not modelled (the
    replies of the model are inputs), only whether building it raises. *)
Definition _build_hype_score_calculation_prompt (data : PromptData.t)
  : attempt unit :=
  if _format_news_sentiment_data data && _format_financial_data data
     && match PromptData.ipo_calendar_data data with
        | Some (proposed_price_low, proposed_price_high, shares_offered) =>
          formats proposed_price_low && formats proposed_price_high
          && formats shares_offered
        | None => true
        end
  then Done tt
  else Raised TypeError.

(** [_build_analysis_generation_prompt], likewise. *)
Definition _build_analysis_generation_prompt (data : PromptData.t)
  : attempt unit :=
  if _format_news_sentiment_data data
     && formats (PromptData.revenue_growth_yoy data)
     && formats (PromptData.gross_margin data)
     && formats (PromptData.operating_margin data)
     && formats (PromptData.net_income data)
     && formats (PromptData.free_cash_flow data)
     && formats (PromptData.market_cap data)
  then Done tt
  else Raised TypeError.

(** [_calculate_hype_score_with_ai], returning the score: the prompt is
    built before the [try], the call and the parsing are inside it. *)
Definition _calculate_hype_score_with_ai (data : PromptData.t)
  (reply : score_reply) (historical_analysis : HypeScoreResult.t) : attempt Q :=
  match _build_hype_score_calculation_prompt data with
  | Raised e => Raised e
  | Done _ =>
    match reply with
    | ScoreCallFailed => Done (HypeScoreResult.hype_score historical_analysis)
    | ScoreParsed parsed =>
      match get_or parsed (Some 50) with
      | None => Done (HypeScoreResult.hype_score historical_analysis)
      | Some hype_score =>
        let hype_score := Py.max 0 (Py.min 100 hype_score) in
        Done (Py.round hype_score 1)
      end
    end
  end.

(** [_generate_analysis_with_ai], returning the five values of its
    dictionary. *)
Definition _generate_analysis_with_ai (data : PromptData.t) (hype_score : Q)
  (reply : analysis_reply) (historical_analysis : HypeScoreResult.t)
  : attempt (string * list string * string * string * string) :=
  match _build_analysis_generation_prompt data with
  | Raised e => Raised e
  | Done _ =>
    match reply with
    | AnalysisParsed response a k r l o =>
      Done (get_or a response, get_or k [],
            get_or r (_get_recommendation_from_score hype_score),
            get_or l "Medium"%string, get_or o EmptyString)
    | AnalysisCallFailed =>
      Done (HypeScoreResult.analysis historical_analysis,
            HypeScoreResult.key_factors historical_analysis,
            _get_recommendation_from_score hype_score,
            HypeScoreResult.risk_level historical_analysis, EmptyString)
    end
  end.

(** [generate_hype_score], after [_get_historical_analysis] has returned
    [historical_analysis]: with no API key the historical result is
    repackaged; otherwise the two model calls are combined by
    [_build_result_dict]; an exception of a step is raised again. *)
Definition generate_hype_score (company_name : string) (api_key : bool)
  (data : PromptData.t) (score : score_reply) (analysis : analysis_reply)
  (historical_analysis : HypeScoreResult.t) : attempt AiResult.t :=
  if negb api_key then
    Done
      {| AiResult.company_name := company_name;
         AiResult.hype_score := HypeScoreResult.hype_score historical_analysis;
         AiResult.analysis := HypeScoreResult.analysis historical_analysis;
         AiResult.key_factors := HypeScoreResult.key_factors historical_analysis;
         AiResult.recommendation :=
           HypeScoreResult.recommendation historical_analysis;
         AiResult.risk_level := HypeScoreResult.risk_level historical_analysis;
         AiResult.component_scores :=
           HypeScoreResult.component_scores historical_analysis;
         AiResult.similar_ipos_count :=
           HypeScoreResult.similar_ipos_count historical_analysis;
         AiResult.benchmarks_analyzed :=
           HypeScoreResult.benchmarks_analyzed historical_analysis;
         AiResult.market_outlook := None;
         AiResult.last_updated :=
           HypeScoreResult.last_updated historical_analysis |}
  else
    match _calculate_hype_score_with_ai data score historical_analysis with
    | Raised e => Raised e
    | Done hype_score =>
      match _generate_analysis_with_ai data hype_score analysis
              historical_analysis with
      | Raised e => Raised e
      | Done (analysis_text, key_factors, recommendation, risk_level,
              market_outlook) =>
        Done
          {| AiResult.company_name := company_name;
             AiResult.hype_score := hype_score;
             AiResult.analysis := analysis_text;
             AiResult.key_factors := key_factors;
             AiResult.recommendation := recommendation;
             AiResult.risk_level := risk_level;
             AiResult.component_scores :=
               HypeScoreResult.component_scores historical_analysis;
             AiResult.similar_ipos_count :=
               HypeScoreResult.similar_ipos_count historical_analysis;
             AiResult.benchmarks_analyzed :=
               HypeScoreResult.benchmarks_analyzed historical_analysis;
             AiResult.market_outlook := Some market_outlook;
             AiResult.last_updated :=
               HypeScoreResult.last_updated historical_analysis |}
      end
    end.

(** The values formatted with a numeric specification, in the order of
    the first prompt. *)
Definition formatted_values (data : PromptData.t) : list (slot Q) :=
  [PromptData.sentiment_score data; PromptData.change_percent data;
   PromptData.volume data; PromptData.market_cap data;
   PromptData.revenue data; PromptData.revenue_growth_yoy data;
   PromptData.net_income data; PromptData.gross_margin data;
   PromptData.operating_margin data; PromptData.free_cash_flow data;
   PromptData.cash_burn data; PromptData.enterprise_value data;
   PromptData.shares_outstanding data]
  ++ match PromptData.ipo_calendar_data data with
     | Some (proposed_price_low, proposed_price_high, shares_offered) =>
       [proposed_price_low; proposed_price_high; shares_offered]
     | None => []
     end.

(** Whether a call raised. *)
Definition raised {A} (call : attempt A) : bool :=
  match call with
  | Done _ => false
  | Raised _ => true
  end.

(** A dictionary view in which every formatted key is absent, and one
    with a null market capitalisation. *)
Definition no_prompt_data : PromptData.t :=
  PromptData.mk Missing Missing Missing Missing Missing Missing Missing
    Missing Missing Missing Missing Missing Missing None.

Definition null_market_cap : PromptData.t :=
  PromptData.mk (Held 0.2) (Held 1.5) (Held 1000) Null Missing Missing Missing
    Missing Missing Missing Missing Missing Missing None.

(** A historical result with score 62.5. *)
Definition plain_result : HypeScoreResult.t :=
  {| HypeScoreResult.hype_score := 62.5;
     HypeScoreResult.component_scores :=
       {| ComponentScores.financial_score := 50.0;
          ComponentScores.trend_score := 60.0;
          ComponentScores.sentiment_score := 55.0;
          ComponentScores.performance_score := 50.0;
          ComponentScores.similarity_score := 30.0 |};
     HypeScoreResult.weight_allocation := None;
     HypeScoreResult.analysis := "Score composed from historical data.";
     HypeScoreResult.key_factors := [];
     HypeScoreResult.recommendation := "Hold";
     HypeScoreResult.risk_level := "Medium";
     HypeScoreResult.similar_ipos_count := 0;
     HypeScoreResult.benchmarks_analyzed := 0;
     HypeScoreResult.last_updated := "2025-01-01T00:00:00" |}.

(** The loop of [_merge_articles] as a recursive function on the articles
    still to come, [seen_urls] being the keys met so far. *)
Fixpoint keep_first (key : Article.t -> string) (seen_urls : list string)
  (articles : list Article.t) : list Article.t :=
  match articles with
  | [] => []
  | article :: rest =>
    if Py.truthy_str (key article) && seen (key article) seen_urls
    then keep_first key seen_urls rest
    else article ::
         keep_first key
           (if Py.truthy_str (key article) then key article :: seen_urls
            else seen_urls)
           rest
  end.

(** The keys that count in the merge: the non-empty ones. *)
Definition url_keys (key : Article.t -> string) (articles : list Article.t)
  : list string :=
  filter Py.truthy_str (map key articles).

(** The articles without a URL. *)
Definition without_url (key : Article.t -> string) (articles : list Article.t)
  : list Article.t :=
  filter (fun a => negb (Py.truthy_str (key a))) articles.

(** Sample articles and the identity as normalisation. *)
Module Press.

Definition same (s : string) : string := s.

Definition article (title url : string) : Article.t :=
  {| Article.title := title;
     Article.description := EmptyString;
     Article.url := Some url;
     Article.source := "wire";
     Article.published_at := "2025-01-01";
     Article.content := EmptyString;
     Article.source_type := "newsapi" |}.

Definition strong : Article.t := article "strong growth" "https://a.example/1".
Definition weak : Article.t := article "weak quarter" "https://a.example/2".
Definition copy : Article.t := article "strong growth again" "https://a.example/1".

End Press.

(** ** The stock service ([yahoo_service.py]) *)

(** What yfinance answers for one company: the closing prices of
    [history(period="5d")] with the entries of [info] that are read
    ([None] is an absent key), or an exception. *)
Inductive stock_reply : Type :=
| Ticker (close : list Q) (marketCap : option Q) (sector industry : option string)
| StockError (message : string).

(** The dictionary of [get_stock_data] for one company, as far as the
    caller reads it; [None] is an absent key. *)
Module StockEntry.
Record t : Type := mk {
  current_price : option Q;
  previous_close : option Q;
  change : option Q;
  change_percent : option Q;
  market_cap : option Q;
  sector : option string;
  industry : option string;
  error : option string
}.
End StockEntry.

(** The body of the loop of [get_stock_data] for one company. *)
Definition stock_entry (reply : stock_reply) : StockEntry.t :=
  match reply with
  | Ticker [] _ _ _ =>
    {| StockEntry.current_price := None;
       StockEntry.previous_close := None;
       StockEntry.change := None;
       StockEntry.change_percent := None;
       StockEntry.market_cap := None;
       StockEntry.sector := None;
       StockEntry.industry := None;
       StockEntry.error := Some "No stock data available"%string |}
  | Ticker close marketCap sector industry =>
    let latest_price := last close 0 in
    let previous_close :=
      if (1 <? length close)%nat then nth (length close - 2) close 0
      else latest_price in
    let change := latest_price - previous_close in
    let change_percent :=
      if Py.truthy previous_close then (change / previous_close) * 100 else 0 in
    {| StockEntry.current_price := Some latest_price;
       StockEntry.previous_close := Some previous_close;
       StockEntry.change := Some change;
       StockEntry.change_percent := Some change_percent;
       StockEntry.market_cap := Some (get_or marketCap 0);
       StockEntry.sector := Some (get_or sector EmptyString);
       StockEntry.industry := Some (get_or industry EmptyString);
       StockEntry.error := None |}
  | StockError message =>
    {| StockEntry.current_price := None;
       StockEntry.previous_close := None;
       StockEntry.change := None;
       StockEntry.change_percent := None;
       StockEntry.market_cap := None;
       StockEntry.sector := None;
       StockEntry.industry := None;
       StockEntry.error := Some message |}
  end.

(** The entry as the [stock_data] of the caller: the keys
    [revenue_growth_yoy] and [gross_margin] are in no entry. *)
Definition stock_data_of (entry : StockEntry.t) : StockData.t :=
  {| StockData.sector := StockEntry.sector entry;
     StockData.industry := StockEntry.industry entry;
     StockData.revenue_growth_yoy := None;
     StockData.gross_margin := None;
     StockData.market_cap := StockEntry.market_cap entry |}.

(** ** The collector of historical data ([populate_historical_data.py]) *)

(** [calculate_market_cap_category]. *)
Definition calculate_market_cap_category (market_cap : option Q) : option string :=
  match market_cap with
  | None => None
  | Some market_cap =>
    if negb (Py.truthy market_cap) then None
    else
      let market_cap_billions := market_cap / 1000000000 in
      if Py.ltb market_cap_billions 0.3 then Some "micro"%string
      else if Py.ltb market_cap_billions 2 then Some "small"%string
      else if Py.ltb market_cap_billions 10 then Some "mid"%string
      else if Py.ltb market_cap_billions 200 then Some "large"%string
      else Some "mega"%string
  end.

(** The keys of [ipo_data] that [calculate_data_completeness] reads. *)
Module Field.
Inductive t : Type :=
| name | ticker | ipo_date | ipo_price
| revenue | net_income | revenue_growth_yoy | gross_margin
| operating_margin | free_cash_flow | market_cap_at_ipo
| first_day_return | first_week_return | first_month_return.
End Field.

Definition required_fields : list Field.t :=
  [Field.name; Field.ticker; Field.ipo_date; Field.ipo_price].

Definition optional_fields : list Field.t :=
  [Field.revenue; Field.net_income; Field.revenue_growth_yoy; Field.gross_margin;
   Field.operating_margin; Field.free_cash_flow; Field.market_cap_at_ipo;
   Field.first_day_return; Field.first_week_return; Field.first_month_return].

(** [sum(1 for field in fields if ipo_data.get(field))], [ipo_data] being
    given by the truthiness of its value at each key. *)
Definition count_present (ipo_data : Field.t -> bool) (fields : list Field.t) : nat :=
  length (filter ipo_data fields).

(** [calculate_data_completeness]. *)
Definition calculate_data_completeness (ipo_data : Field.t -> bool) : Q :=
  let required_count := count_present ipo_data required_fields in
  let optional_count := count_present ipo_data optional_fields in
  let required_score :=
    inject_Z (Z.of_nat required_count) / Py.len required_fields in
  let optional_score :=
    inject_Z (Z.of_nat optional_count) / Py.len optional_fields * 0.5 in
  Py.min 1.0 (required_score + optional_score).

(** [l[start:stop]] for integers of either sign. *)
Definition slice_index (i : Z) (n : nat) : nat :=
  if (i <? 0)%Z then Z.to_nat (Z.max (i + Z.of_nat n) 0)
  else Nat.min (Z.to_nat i) n.

Definition py_slice {A} (start stop : Z) (l : list A) : list A :=
  let a := slice_index start (length l) in
  let b := slice_index stop (length l) in
  firstn (b - a) (skipn a l).

(** A row of [workingRolling.csv], as far as [run] reads it. *)
Module RollingRow.
Record t : Type := mk {
  polygon_list_date : option string;
  ticker : option string
}.
End RollingRow.

(** What [get_working_rolling] answers. *)
Inductive csv_result : Type :=
| CsvFailed
| CsvRows (data : list RollingRow.t).

(** What happens to one row in the loop of [run]: [process_ipo_row]
    returns nothing, or [store_ipo_data] answers, or one of them raises. *)
Inductive row_outcome : Type :=
| Stored | NotStored | NoData | RowRaised.

Definition rows_with_dates (rows : list RollingRow.t) : list RollingRow.t :=
  filter (fun row =>
            Py.truthy_ostr (RollingRow.polygon_list_date row)
            && Py.truthy_ostr (RollingRow.ticker row)) rows.

(** [if limit: rows = rows[start_from:start_from + limit]]. *)
Definition select_rows {A} (limit : option Z) (start_from : Z) (rows : list A)
  : list A :=
  match limit with
  | Some limit =>
    if (limit =? 0)%Z then rows
    else py_slice start_from (start_from + limit) rows
  | None => rows
  end.

(** The body of the loop of [run] on the index and the two counters. *)
Definition count_row (process : nat -> RollingRow.t -> row_outcome)
  (state : nat * nat * nat) (row : RollingRow.t) : nat * nat * nat :=
  let '(i, successful, failed) := state in
  match process i row with
  | Stored => (S i, S successful, failed)
  | NotStored => (S i, successful, S failed)
  | NoData => (S i, successful, S failed)
  | RowRaised => (S i, successful, S failed)
  end.

(** [run] of the collector: the two counters it prints, or nothing when
    it returns before the loop. *)
Definition populate_run (process : nat -> RollingRow.t -> row_outcome)
  (csv : csv_result) (limit : option Z) (start_from : Z) : option (nat * nat) :=
  match csv with
  | CsvFailed => None
  | CsvRows [] => None
  | CsvRows rows =>
    let selected := select_rows limit start_from (rows_with_dates rows) in
    let '(_, successful, failed) := fold_left (count_row process) selected (0, 0, 0)%nat in
    Some (successful, failed)
  end.

(** ** The nightly job ([precompute_daily_metrics.py]) *)

(** [x or y] on optional strings. *)
Definition or_else (x y : option string) : option string :=
  if Py.truthy_ostr x then x else y.

(** A candidate of [load_ipos]. *)
Module IpoRecord.
Record t : Type := mk {
  company_name : string;
  ticker : string;
  cik : string
}.
End IpoRecord.

(** An answer of [get_recent_ipos] or [get_upcoming_ipos]; a row is the
    [get] of its dictionary. *)
Module CsvResponse.
Record t : Type := mk {
  success : bool;
  data : list (string -> option string)
}.
End CsvResponse.

(** A row written to [historical_search_trends]. *)
Module TrendRow.
Record t : Type := mk {
  cik : string;
  ticker : string;
  trend_score : Z;
  search_volume : option Z
}.
End TrendRow.

(** A row written to [historical_news_sentiment]. *)
Module SentimentRow.
Record t : Type := mk {
  cik : string;
  ticker : string;
  sentiment_score : Q;
  total_articles : nat;
  positive_articles : nat;
  negative_articles : nat;
  neutral_articles : nat
}.
End SentimentRow.

(** How a call of one of the two store functions ends. *)
Inductive stored (A : Type) : Type :=
| NoEntry
| Inserted (row : A)
| StoreRaised.
Arguments NoEntry {A}.
Arguments Inserted {A} row.
Arguments StoreRaised {A}.

Section Precompute.

(** [str.strip] and [str.upper], which follow the Unicode tables. *)
Variable strip : string -> string.
Variable upper : string -> string.

(** [normalise_company_fields]. *)
Definition normalise_company_fields (row : string -> option string)
  : option string * option string * option string :=
  let company :=
    or_else (row "Company"%string)
      (or_else (row "company"%string)
         (or_else (row "Issuer"%string)
            (or_else (row "Company Name"%string) (row "name"%string)))) in
  let ticker :=
    or_else (row "Symbol"%string)
      (or_else (row "Ticker"%string)
         (or_else (row "ticker"%string) (row "symbol"%string))) in
  let cik :=
    or_else (row "CIK"%string)
      (or_else (row "cik"%string)
         (or_else (row "Sec CIK"%string) (row "SEC CIK"%string))) in
  let ticker :=
    if Py.truthy_ostr ticker then option_map (fun t => upper (strip t)) ticker
    else ticker in
  let cik := if Py.truthy_ostr cik then option_map strip cik else cik in
  (option_map strip company, ticker, cik).

(** The second loop of [load_ipos] as a recursive function on the rows
    still to come, [seen_tickers] being the tickers met so far. *)
Fixpoint normalise_rows (seen_tickers : list string)
  (combined : list (string -> option string)) : list IpoRecord.t :=
  match combined with
  | [] => []
  | row :: rest =>
    let '(company, ticker, cik) := normalise_company_fields row in
    match company, ticker with
    | Some company, Some ticker =>
      if negb (Py.truthy_str company) || negb (Py.truthy_str ticker)
      then normalise_rows seen_tickers rest
      else if seen ticker seen_tickers
      then normalise_rows seen_tickers rest
      else {| IpoRecord.company_name := company;
              IpoRecord.ticker := ticker;
              IpoRecord.cik :=
                if Py.truthy_ostr cik then get_or cik EmptyString
                else ("UNKNOWN-" ++ ticker)%string |}
           :: normalise_rows (ticker :: seen_tickers) rest
    | _, _ => normalise_rows seen_tickers rest
    end
  end.

(** [load_ipos]. *)
Definition load_ipos (include_recent include_upcoming : bool)
  (recent upcoming : CsvResponse.t) (limit : option Z) : list IpoRecord.t :=
  let tasks :=
    (if include_recent then [recent] else [])
    ++ (if include_upcoming then [upcoming] else []) in
  let combined :=
    flat_map (fun response =>
                if CsvResponse.success response
                then match CsvResponse.data response with
                     | [] => []
                     | data => data
                     end
                else []) tasks in
  let normalised := normalise_rows [] combined in
  match limit with
  | Some limit => py_slice 0 limit normalised
  | None => normalised
  end.

End Precompute.

(** [store_search_trend]: [trends] is the [get] of the dictionary of the
    trends service and [execute] tells whether the insertion succeeds. *)
Definition store_search_trend (execute : TrendRow.t -> bool)
  (record : IpoRecord.t) (trends : string -> option TrendEntry.t)
  : stored TrendRow.t :=
  match trends (IpoRecord.company_name record) with
  | None => NoEntry
  | Some entry =>
    let trend_score := TrendEntry.trend_score entry in
    let search_volume := TrendEntry.average_interest entry in
    let row :=
      {| TrendRow.cik := IpoRecord.cik record;
         TrendRow.ticker := IpoRecord.ticker record;
         TrendRow.trend_score := Py.round_half_even trend_score;
         TrendRow.search_volume := Some (Py.round_half_even search_volume) |} in
    if execute row then Inserted row else StoreRaised
  end.

(** [store_news_sentiment]. *)
Definition store_news_sentiment (execute : SentimentRow.t -> bool)
  (record : IpoRecord.t) (sentiment : string -> option SentimentEntry.t)
  : stored SentimentRow.t :=
  match sentiment (IpoRecord.company_name record) with
  | None => NoEntry
  | Some entry =>
    let row :=
      {| SentimentRow.cik := IpoRecord.cik record;
         SentimentRow.ticker := IpoRecord.ticker record;
         SentimentRow.sentiment_score := SentimentEntry.sentiment_score entry;
         SentimentRow.total_articles :=
           match SentimentEntry.total_articles entry with Some n => n | None => 0%nat end;
         SentimentRow.positive_articles := SentimentEntry.positive_count entry;
         SentimentRow.negative_articles := SentimentEntry.negative_count entry;
         SentimentRow.neutral_articles := SentimentEntry.neutral_count entry |} in
    if execute row then Inserted row else StoreRaised
  end.

(** The state of the loop of [run] of the nightly job: the two counters
    and the rows written to the two tables. *)
Module JobState.
Record t : Type := mk {
  stored_trends : nat;
  stored_sentiment : nat;
  trend_rows : list TrendRow.t;
  sentiment_rows : list SentimentRow.t
}.
End JobState.

(** A counter and a table after one store call. *)
Definition after_store {A} (outcome : stored A) (counter : nat) (rows : list A)
  : nat * list A :=
  match outcome with
  | NoEntry => (S counter, rows)
  | Inserted row => (S counter, rows ++ [row])
  | StoreRaised => (counter, rows)
  end.

(** The body of the loop of [run]. *)
Definition store_record (execute_trend : TrendRow.t -> bool)
  (execute_sentiment : SentimentRow.t -> bool)
  (trends : string -> option TrendEntry.t)
  (sentiment : string -> option SentimentEntry.t)
  (state : JobState.t) (record : IpoRecord.t) : JobState.t :=
  let '(stored_trends, trend_rows) :=
    after_store (store_search_trend execute_trend record trends)
      (JobState.stored_trends state) (JobState.trend_rows state) in
  let '(stored_sentiment, sentiment_rows) :=
    after_store (store_news_sentiment execute_sentiment record sentiment)
      (JobState.stored_sentiment state) (JobState.sentiment_rows state) in
  {| JobState.stored_trends := stored_trends;
     JobState.stored_sentiment := stored_sentiment;
     JobState.trend_rows := trend_rows;
     JobState.sentiment_rows := sentiment_rows |}.

(** [fetch_trends] and [fetch_sentiment]: an empty dictionary when the
    service raises. *)
Definition fetched_or_empty {A} (reply : option (string -> option A)) : string -> option A :=
  match reply with
  | Some entries => entries
  | None => fun _ => None
  end.

(** [run] of the nightly job from the candidates on; nothing is counted
    when there is no candidate. *)
Definition precompute_run (execute_trend : TrendRow.t -> bool)
  (execute_sentiment : SentimentRow.t -> bool)
  (ipos : list IpoRecord.t)
  (trends_fetch : option (string -> option TrendEntry.t))
  (sentiment_fetch : option (string -> option SentimentEntry.t))
  : option JobState.t :=
  match ipos with
  | [] => None
  | _ =>
    Some (fold_left
            (store_record execute_trend execute_sentiment
               (fetched_or_empty trends_fetch) (fetched_or_empty sentiment_fetch))
            ipos (JobState.mk 0 0 [] []))
  end.

(** * Properties *)

(** ** Comparisons, [max] and [min] *)

Lemma ltb_lt (x y : Q) : Py.ltb x y = true <-> x < y.
Proof.
  unfold Py.ltb. rewrite negb_true_iff.
  split; intro H.
  - apply Qnot_le_lt. intro L. apply Qle_bool_iff in L. congruence.
  - destruct (Qle_bool y x) eqn:E; [|reflexivity].
    apply Qle_bool_iff in E. apply Qle_not_lt in E. contradiction.
Qed.

Lemma ltb_ge (x y : Q) : Py.ltb x y = false <-> y <= x.
Proof.
  unfold Py.ltb. rewrite negb_false_iff. apply Qle_bool_iff.
Qed.

Lemma geb_le (x y : Q) : Py.geb x y = true <-> y <= x.
Proof. apply Qle_bool_iff. Qed.

Lemma geb_lt (x y : Q) : Py.geb x y = false <-> x < y.
Proof.
  unfold Py.geb. split; intro H.
  - apply Qnot_le_lt. intro L. apply Qle_bool_iff in L. congruence.
  - destruct (Qle_bool y x) eqn:E; [|reflexivity].
    apply Qle_bool_iff in E. apply Qle_not_lt in E. contradiction.
Qed.

Ltac by_cases_ltb x y :=
  let E := fresh "E" in
  destruct (Py.ltb x y) eqn:E;
  [apply ltb_lt in E | apply ltb_ge in E].

Lemma max_spec (a b : Q) :
  (a < b /\ Py.max a b = b) \/ (b <= a /\ Py.max a b = a).
Proof. unfold Py.max. by_cases_ltb a b; auto. Qed.

Lemma min_spec (a b : Q) :
  (b < a /\ Py.min a b = b) \/ (a <= b /\ Py.min a b = a).
Proof. unfold Py.min. by_cases_ltb b a; auto. Qed.

Ltac split_max a b :=
  let H := fresh "H" in let E := fresh "E" in
  destruct (max_spec a b) as [[H E] | [H E]]; rewrite ?E in *; clear E.

Ltac split_min a b :=
  let H := fresh "H" in let E := fresh "E" in
  destruct (min_spec a b) as [[H E] | [H E]]; rewrite ?E in *; clear E.

Lemma max_lower_l (a b : Q) : a <= Py.max a b.
Proof. split_max a b; lra. Qed.

Lemma max_lower_r (a b : Q) : b <= Py.max a b.
Proof. split_max a b; lra. Qed.

Lemma min_upper_l (a b : Q) : Py.min a b <= a.
Proof. split_min a b; lra. Qed.

Lemma clamp_bounds (lo hi x : Q) :
  lo <= hi -> lo <= Py.max lo (Py.min hi x) <= hi.
Proof.
  intro L. split; [apply max_lower_l|].
  split_max lo (Py.min hi x); [apply min_upper_l | exact L].
Qed.

(** ** Percentile rank *)

Lemma insert_length (x : Q) (l : list Q) :
  length (Statistics.insert x l) = S (length l).
Proof.
  induction l as [|y t IH]; simpl; [reflexivity|].
  destruct (Qle_bool x y); simpl; congruence.
Qed.

Lemma sorted_length (l : list Q) : length (Statistics.sorted l) = length l.
Proof.
  induction l as [|x t IH]; simpl; [reflexivity|].
  rewrite insert_length. congruence.
Qed.

Lemma insert_count (f : Q -> bool) (x : Q) (l : list Q) :
  length (filter f (Statistics.insert x l)) = length (filter f (x :: l)).
Proof.
  induction l as [|y t IH]; [reflexivity|].
  simpl Statistics.insert. destruct (Qle_bool x y); [reflexivity|].
  simpl in *. destruct (f y), (f x); simpl in *; lia.
Qed.

Lemma sorted_count (f : Q -> bool) (l : list Q) :
  length (filter f (Statistics.sorted l)) = length (filter f l).
Proof.
  induction l as [|x t IH]; [reflexivity|].
  simpl Statistics.sorted. rewrite insert_count.
  simpl. destruct (f x); simpl; congruence.
Qed.

Lemma count_le_length (f : Q -> bool) (l : list Q) :
  (length (filter f l) <= length l)%nat.
Proof.
  induction l as [|x t IH]; simpl; [lia|].
  destruct (f x); simpl; lia.
Qed.

Lemma count_lt_length (f : Q -> bool) (l : list Q) (y : Q) :
  In y l -> f y = false -> (length (filter f l) < length l)%nat.
Proof.
  induction l as [|x t IH]; simpl; [tauto|].
  intros [-> | Hin] Hy.
  - rewrite Hy. pose proof (count_le_length f t). lia.
  - specialize (IH Hin Hy). destruct (f x); simpl; lia.
Qed.

Lemma count_none (f : Q -> bool) (l : list Q) :
  (forall y, In y l -> f y = false) -> filter f l = [].
Proof.
  induction l as [|x t IH]; simpl; [reflexivity|].
  intro H. rewrite (H x (or_introl eq_refl)). apply IH. auto.
Qed.

(** On a non-empty dataset the rank is the share of the values strictly
    below [value], times 100. *)
Lemma percentile_rank_nonempty (value : Q) (data : list Q) :
  data <> [] ->
  _calculate_percentile_rank value data =
  inject_Z (Z.of_nat (length (filter (fun x => Py.ltb x value) data)))
  / inject_Z (Z.of_nat (length data)) * 100.
Proof.
  intro NE. destruct data as [|d t]; [congruence|].
  unfold _calculate_percentile_rank, Py.len.
  rewrite sorted_count, sorted_length. reflexivity.
Qed.

Lemma ratio_bounds (r n : nat) :
  (r <= n)%nat -> (0 < n)%nat ->
  0 <= inject_Z (Z.of_nat r) / inject_Z (Z.of_nat n) * 100 <= 100.
Proof.
  intros Hr Hn.
  assert (Hn' : 0 < inject_Z (Z.of_nat n)).
  { replace 0 with (inject_Z 0) by reflexivity. rewrite <- Zlt_Qlt. lia. }
  assert (Hr0 : 0 <= inject_Z (Z.of_nat r)).
  { replace 0 with (inject_Z 0) by reflexivity. rewrite <- Zle_Qle. lia. }
  assert (Hrn : inject_Z (Z.of_nat r) <= inject_Z (Z.of_nat n)).
  { rewrite <- Zle_Qle. lia. }
  assert (A : 0 <= inject_Z (Z.of_nat r) / inject_Z (Z.of_nat n)).
  { apply Qle_shift_div_l; [exact Hn'|]. lra. }
  assert (B : inject_Z (Z.of_nat r) / inject_Z (Z.of_nat n) <= 1).
  { apply Qle_shift_div_r; [exact Hn'|]. lra. }
  split; lra.
Qed.

Lemma ratio_below_100 (r n : nat) :
  (r < n)%nat -> inject_Z (Z.of_nat r) / inject_Z (Z.of_nat n) * 100 < 100.
Proof.
  intros Hr.
  assert (Hn' : 0 < inject_Z (Z.of_nat n)).
  { replace 0 with (inject_Z 0) by reflexivity. rewrite <- Zlt_Qlt. lia. }
  assert (Hrn : inject_Z (Z.of_nat r) < inject_Z (Z.of_nat n)).
  { rewrite <- Zlt_Qlt. lia. }
  assert (B : inject_Z (Z.of_nat r) / inject_Z (Z.of_nat n) < 1).
  { apply Qlt_shift_div_r; [exact Hn'|]. lra. }
  lra.
Qed.

(** Every percentile rank lies between 0 and 100. *)
Lemma percentile_rank_range (value : Q) (data : list Q) :
  0 <= _calculate_percentile_rank value data <= 100.
Proof.
  destruct data as [|d t] eqn:E.
  - simpl. split; lra.
  - rewrite <- E. rewrite percentile_rank_nonempty by congruence.
    apply ratio_bounds.
    + apply count_le_length.
    + rewrite E. simpl. lia.
Qed.

(** C3. The percentile rank counts the values strictly below the argument:
    it is 0 at a minimum of a dataset, it lies in [0, 100) at every
    value not above some element of the dataset (so at every value up to
    the maximum; the dataset need not have two elements or distinct values
    for this), and it is 50 on the empty dataset. *)
Theorem percentile_rank_strict (D : list Q) (m M x v : Q) :
  In m D -> (forall y, In y D -> m <= y) ->
  In M D -> x <= M ->
  _calculate_percentile_rank x D
    = inject_Z (Z.of_nat (length (filter (fun y => Py.ltb y x) D)))
      / inject_Z (Z.of_nat (length D)) * 100
  /\ _calculate_percentile_rank m D == 0
  /\ (0 <= _calculate_percentile_rank x D /\ _calculate_percentile_rank x D < 100)
  /\ _calculate_percentile_rank v [] = 50.
Proof.
  intros Hm Hmin HM HxM.
  assert (NE : D <> []) by (intro E; subst; contradiction).
  split; [apply percentile_rank_nonempty; exact NE|].
  split; [|split; [|reflexivity]].
  - rewrite percentile_rank_nonempty by exact NE.
    rewrite count_none; [change (inject_Z (Z.of_nat (@length Q []))) with 0; unfold Qdiv; ring|].
    intros y Hy. apply ltb_ge. auto.
  - split; [apply percentile_rank_range|].
    rewrite percentile_rank_nonempty by exact NE.
    apply ratio_below_100.
    apply (count_lt_length _ D M HM). apply ltb_ge. exact HxM.
Qed.

Lemma percentile_rank_strict_witness :
  _calculate_percentile_rank 1 [3; 1; 2] == 0
  /\ _calculate_percentile_rank 2 [3; 1; 2] < 100.
Proof.
  assert (Hmin : forall y, In y [3; 1; 2] -> 1 <= y).
  { intros y [<- | [<- | [<- | []]]]; unfold Qle; simpl; lia. }
  assert (HM : In 3 [3; 1; 2]) by (simpl; auto).
  assert (Hm : In 1 [3; 1; 2]) by (simpl; auto).
  assert (Hx : 2 <= 3) by (unfold Qle; simpl; lia).
  destruct (percentile_rank_strict [3; 1; 2] 1 3 2 7 Hm Hmin HM Hx)
    as (_ & A & (_ & B) & _).
  split; assumption.
Defined.

(** ** Similarity matcher *)

Lemma score_candidate_guarded (current_ipo : CurrentIpo.t) (row : Row.t) :
  fst (score_candidate current_ipo row) == guarded_candidate_score current_ipo row.
Proof.
  unfold score_candidate, guarded_candidate_score, growth_matches.
  destruct (Py.ostr_eqb _ _), (col_eqb (Row.sector row) _),
    (col_eqb (Row.industry row) _), (Row.revenue_growth_yoy row) as [g|];
    try destruct (Py.truthy g && Py.truthy _)%bool;
    try destruct (Py.ltb _ 0.2); simpl; ring.
Qed.

Lemma collect_matches_Forall (P : SimilarityMatch.t -> Prop)
  (current_ipo : CurrentIpo.t) (rows : list Row.t) :
  (forall row, In row rows ->
     Py.geb (fst (score_candidate current_ipo row)) 0.3 = true ->
     P (make_match row (fst (score_candidate current_ipo row))
                      (snd (score_candidate current_ipo row)))) ->
  forall acc, Forall P acc -> Forall P (collect_matches current_ipo rows acc).
Proof.
  induction rows as [|row rest IH]; intros Hrow acc Hacc; simpl; [exact Hacc|].
  pose proof (Hrow row (or_introl eq_refl)) as Hhere.
  destruct (score_candidate current_ipo row) as [s f]; simpl in Hhere.
  destruct (Py.geb s 0.3) eqn:E.
  - apply IH; [intros r Hr; apply Hrow; right; exact Hr|].
    apply Forall_app. split; [exact Hacc|]. constructor; auto.
  - apply IH; [intros r Hr; apply Hrow; right; exact Hr | exact Hacc].
Qed.

Lemma insert_desc_perm (m : SimilarityMatch.t) (l : list SimilarityMatch.t) :
  Permutation (insert_desc m l) (m :: l).
Proof.
  induction l as [|y t IH]; simpl; [reflexivity|].
  destruct (Py.geb _ _); [reflexivity|].
  rewrite IH. apply perm_swap.
Qed.

Lemma sort_desc_perm (l : list SimilarityMatch.t) : Permutation (sort_desc l) l.
Proof.
  induction l as [|m t IH]; simpl; [reflexivity|].
  rewrite insert_desc_perm. constructor. exact IH.
Qed.

Lemma insert_desc_sorted (m : SimilarityMatch.t) (l : list SimilarityMatch.t) :
  StronglySorted score_ge l -> StronglySorted score_ge (insert_desc m l).
Proof.
  induction 1 as [|y t Hs IH Hall]; simpl.
  - constructor; constructor.
  - destruct (Py.geb _ _) eqn:E.
    + apply geb_le in E. constructor.
      * constructor; assumption.
      * constructor; [exact E|].
        eapply Forall_impl; [|exact Hall].
        intros z Hz. unfold score_ge in *. lra.
    + apply geb_lt in E. constructor; [exact IH|].
      apply (Permutation_Forall (Permutation_sym (insert_desc_perm m t))).
      constructor; [unfold score_ge; lra | exact Hall].
Qed.

Lemma sort_desc_sorted (l : list SimilarityMatch.t) :
  StronglySorted score_ge (sort_desc l).
Proof.
  induction l as [|m t IH]; simpl; [constructor|].
  apply insert_desc_sorted. exact IH.
Qed.

Lemma firstn_Forall {A} (P : A -> Prop) (n : nat) (l : list A) :
  Forall P l -> Forall P (firstn n l).
Proof.
  revert l. induction n as [|n IH]; intros l H; simpl; [constructor|].
  destruct H as [|x t Hx Ht]; constructor; auto.
Qed.

Lemma firstn_sorted {A} (R : A -> A -> Prop) (n : nat) (l : list A) :
  StronglySorted R l -> StronglySorted R (firstn n l).
Proof.
  revert l. induction n as [|n IH]; intros l Hs; simpl; [constructor|].
  destruct Hs as [|x t Hs Hall]; [constructor|].
  constructor; [apply IH; exact Hs|].
  apply firstn_Forall. exact Hall.
Qed.

(** What every returned match satisfies, for any property of the matches
    the loop builds. *)
Lemma rank_candidates_Forall (P : SimilarityMatch.t -> Prop)
  (current_ipo : CurrentIpo.t) (rows : list Row.t) :
  (forall row, In row rows ->
     Py.geb (fst (score_candidate current_ipo row)) 0.3 = true ->
     P (make_match row (fst (score_candidate current_ipo row))
                      (snd (score_candidate current_ipo row)))) ->
  Forall P (rank_candidates current_ipo rows).
Proof.
  intro H. unfold rank_candidates. apply firstn_Forall.
  apply (Permutation_Forall (Permutation_sym (sort_desc_perm _))).
  apply collect_matches_Forall; [exact H | constructor].
Qed.

Lemma rank_candidates_well_ranked (current_ipo : CurrentIpo.t) (rows : list Row.t) :
  well_ranked (rank_candidates current_ipo rows).
Proof.
  split; [|split].
  - unfold rank_candidates. apply firstn_le_length.
  - apply rank_candidates_Forall. intros row _ E. simpl. apply geb_le in E. lra.
  - unfold rank_candidates. apply firstn_sorted, sort_desc_sorted.
Qed.

(** C4, as the code has it.  For every candidate list the matcher returns
    at most 10 matches, each with a score of at least 0.30, sorted by
    descending score; each match is built from one candidate row and its
    score is the sum of the weights 0.30 (same market-cap category), 0.20
    (same sector), 0.20 (same industry) and 0.30 for revenue growth, the
    last one being earned only when both growth figures are present and
    non-zero and their relative difference is below 0.2.  The same bounds
    hold for [_find_similar_historical_ipos] whatever the database
    answers. *)
Theorem similarity_matcher_guarded (pool : option Store.t)
  (current_ipo : CurrentIpo.t) (rows : list Row.t) :
  well_ranked (rank_candidates current_ipo rows)
  /\ Forall (fun m => exists row, In row rows
               /\ SimilarityMatch.ticker m = Row.ticker row
               /\ SimilarityMatch.similarity_score m
                  == guarded_candidate_score current_ipo row)
       (rank_candidates current_ipo rows)
  /\ (forall row, fst (score_candidate current_ipo row)
                  == guarded_candidate_score current_ipo row)
  /\ well_ranked (_find_similar_historical_ipos pool current_ipo).
Proof.
  split; [apply rank_candidates_well_ranked|].
  split; [|split; [apply score_candidate_guarded|]].
  - apply rank_candidates_Forall. intros row Hin _.
    exists row. split; [exact Hin|]. split; [reflexivity|].
    simpl. apply score_candidate_guarded.
  - unfold _find_similar_historical_ipos.
    destruct pool as [conn|];
      [destruct (Store.candidates conn _ _) as [rs|]|];
      try apply rank_candidates_well_ranked;
      (split; [simpl; lia | split; constructor]).
Qed.

(** C4, as the specification words it, fails: with no revenue growth
    reported for the company (0) and a peer growing by 0.1, the relative
    difference is 0.1 < 0.2, yet the code gives the peer 0.7, not 1.0. *)
Lemma similarity_score_spec_differs :
  fst (score_candidate Sample.acme Sample.peer) == 0.7
  /\ spec_candidate_score Sample.acme Sample.peer == 1
  /\ map SimilarityMatch.similarity_score
       (rank_candidates Sample.acme [Sample.peer]) = [0.0 + 0.3 + 0.2 + 0.2]
  /\ ~ (forall current_ipo row,
          fst (score_candidate current_ipo row)
          == spec_candidate_score current_ipo row).
Proof.
  split; [vm_compute; reflexivity|].
  split; [vm_compute; reflexivity|].
  split; [vm_compute; reflexivity|].
  intro H. specialize (H Sample.acme Sample.peer).
  vm_compute in H. discriminate H.
Qed.

(** ** Rounding *)

Lemma round_half_even_lower (k : Z) (y : Q) :
  inject_Z k <= y -> (k <= Py.round_half_even y)%Z.
Proof.
  intro H. apply Qfloor_resp_le in H. rewrite Qfloor_Z in H.
  unfold Py.round_half_even.
  repeat match goal with |- context [if ?c then _ else _] => destruct c end; lia.
Qed.

Lemma round_half_even_upper (k : Z) (y : Q) :
  y <= inject_Z k -> (Py.round_half_even y <= k)%Z.
Proof.
  intro H. pose proof (Qfloor_resp_le _ _ H) as F. rewrite Qfloor_Z in F.
  unfold Py.round_half_even.
  destruct (Z.eq_dec (Qfloor y) k) as [E | NE].
  - assert (L : Py.ltb (y - inject_Z (Qfloor y)) (1 # 2) = true).
    { apply ltb_lt. rewrite E. lra. }
    rewrite L. lia.
  - repeat match goal with |- context [if ?c then _ else _] => destruct c end; lia.
Qed.

Lemma pow10_pos (n : nat) : 0 < inject_Z (10 ^ Z.of_nat n).
Proof.
  replace 0 with (inject_Z 0) by reflexivity. rewrite <- Zlt_Qlt.
  apply Z.pow_pos_nonneg; lia.
Qed.

(** Rounding to [ndigits] decimals keeps a value between two integers. *)
Lemma round_range (lo hi : Z) (x : Q) (ndigits : nat) :
  inject_Z lo <= x <= inject_Z hi ->
  inject_Z lo <= Py.round x ndigits <= inject_Z hi.
Proof.
  intros [L H]. unfold Py.round.
  pose proof (pow10_pos ndigits) as P.
  set (p := (10 ^ Z.of_nat ndigits)%Z) in *.
  split.
  - apply Qle_shift_div_l; [exact P|].
    rewrite <- inject_Z_mult, <- Zle_Qle.
    apply round_half_even_lower. rewrite inject_Z_mult. nra.
  - apply Qle_shift_div_r; [exact P|].
    rewrite <- inject_Z_mult, <- Zle_Qle.
    apply round_half_even_upper. rewrite inject_Z_mult. nra.
Qed.

(** ** Score composer: the final score *)

Lemma financial_score_returns (benchmarks : list HistoricalBenchmark.t) :
  exists s, _calculate_financial_score benchmarks = Ok s.
Proof. destruct benchmarks; simpl; eauto. Qed.

Lemma similarity_score_returns (similar_ipos : list SimilarityMatch.t) :
  exists s, _calculate_similarity_score similar_ipos = Ok s.
Proof. destruct similar_ipos; simpl; eauto. Qed.

Lemma component_scores_return (similar_ipos : list SimilarityMatch.t)
  (benchmarks : list HistoricalBenchmark.t)
  (search_analysis : SearchAnalysis.t) (sentiment_analysis : SentimentAnalysis.t)
  (performance_predictions : PerformancePredictions.t) :
  exists scores,
    component_scores_of similar_ipos benchmarks search_analysis
      sentiment_analysis performance_predictions = Ok scores.
Proof.
  unfold component_scores_of.
  destruct (financial_score_returns benchmarks) as [f ->].
  destruct (similarity_score_returns similar_ipos) as [s ->].
  simpl. eauto.
Qed.

(** The calibrated score lies in [35, 100] whatever the base score. *)
Lemma final_hype_score_range (base_hype_score : Q) :
  35 <= final_hype_score_of base_hype_score <= 100.
Proof.
  unfold final_hype_score_of.
  pose proof (clamp_bounds 35.0 100.0
                (base_hype_score * 1.1 + 12.5)) as H.
  lra.
Qed.

(** C1. For every input of the score composer the hype-score generation
    returns a result; its score is the base score (the sub-scores weighted
    by the normalised, confidence-scaled weights) boosted by
    [base * 1.1 + 12.5], clamped to [35, 100] and rounded to one decimal,
    and both the clamped and the reported score lie in [35, 100]. *)
Theorem hype_score_bounded
  (text : list HistoricalBenchmark.t -> SearchAnalysis.t -> SentimentAnalysis.t ->
          PerformancePredictions.t -> list SimilarityMatch.t -> string)
  (now : string) (current_ipo : CurrentIpo.t)
  (similar_ipos : list SimilarityMatch.t)
  (benchmarks : list HistoricalBenchmark.t)
  (search_analysis : SearchAnalysis.t) (sentiment_analysis : SentimentAnalysis.t)
  (performance_predictions : PerformancePredictions.t) :
  exists scores r,
    component_scores_of similar_ipos benchmarks search_analysis
      sentiment_analysis performance_predictions = Ok scores
    /\ _generate_data_backed_hype_score text now current_ipo similar_ipos
         benchmarks search_analysis sentiment_analysis performance_predictions
       = Ok r
    /\ let base :=
         base_hype_score_of scores
           (normalized_weights
              (component_confidences similar_ipos benchmarks search_analysis
                 sentiment_analysis performance_predictions)) in
       let clamped := Py.max 35.0 (Py.min 100.0 (base * 1.1 + 12.5)) in
       HypeScoreResult.hype_score r = Py.round clamped 1
       /\ 35 <= clamped <= 100
       /\ 35 <= HypeScoreResult.hype_score r <= 100.
Proof.
  destruct (component_scores_return similar_ipos benchmarks search_analysis
              sentiment_analysis performance_predictions) as [scores Hs].
  exists scores. eexists. split; [exact Hs|].
  unfold _generate_data_backed_hype_score. rewrite Hs. simpl bind.
  split; [reflexivity|].
  cbv zeta. simpl HypeScoreResult.hype_score.
  set (base := base_hype_score_of scores _).
  split; [reflexivity|].
  pose proof (final_hype_score_range base) as R.
  unfold final_hype_score_of in R. cbv zeta in R.
  split; [exact R|].
  apply (round_range 35 100). exact R.
Qed.

(** ** Score composer: the weights *)

Lemma sum_values (w : Weights.t) :
  Py.sum (Weights.values w)
  == Weights.financial w + Weights.trend w + Weights.sentiment w
     + Weights.performance w + Weights.similarity w.
Proof. unfold Py.sum, Weights.values. simpl. ring. Qed.

Lemma max_quarter (c : Q) : 0.25 <= Py.max c 0.25.
Proof. apply max_lower_r. Qed.

Lemma max_quarter_id (c : Q) : 0.25 <= c -> Py.max c 0.25 == c.
Proof. intro H. split_max c 0.25; lra. Qed.

(** The scaled weights always have a positive total. *)
Lemma weighted_total_pos (confidences : Weights.t) :
  0 < Py.sum (Weights.values (weighted_weights confidences)).
Proof.
  rewrite sum_values. unfold weighted_weights, base_weights. simpl.
  pose proof (max_quarter (Weights.financial confidences)).
  pose proof (max_quarter (Weights.trend confidences)).
  pose proof (max_quarter (Weights.sentiment confidences)).
  pose proof (max_quarter (Weights.performance confidences)).
  pose proof (max_quarter (Weights.similarity confidences)).
  lra.
Qed.

Lemma renormalize_nonzero (ww : Weights.t) :
  ~ Py.sum (Weights.values ww) == 0 ->
  renormalize ww
  = Weights.map (fun w => w / Py.sum (Weights.values ww)) ww.
Proof.
  intro NZ. unfold renormalize.
  destruct (Qeq_bool _ 0) eqn:E; [|reflexivity].
  apply Qeq_bool_iff in E. contradiction.
Qed.

Lemma renormalize_sum (ww : Weights.t) :
  ~ Py.sum (Weights.values ww) == 0 ->
  Py.sum (Weights.values (renormalize ww)) == 1.
Proof.
  intro NZ. rewrite renormalize_nonzero by exact NZ.
  rewrite sum_values. unfold Weights.map. simpl.
  rewrite sum_values in NZ |- *.
  field. exact NZ.
Qed.

(** Every component confidence of the composer is at least 0.35. *)
Lemma component_confidences_floor (similar_ipos : list SimilarityMatch.t)
  (benchmarks : list HistoricalBenchmark.t)
  (search_analysis : SearchAnalysis.t) (sentiment_analysis : SentimentAnalysis.t)
  (performance_predictions : PerformancePredictions.t) :
  let c := component_confidences similar_ipos benchmarks search_analysis
             sentiment_analysis performance_predictions in
  0.35 <= Weights.financial c /\ 0.35 <= Weights.trend c
  /\ 0.35 <= Weights.sentiment c /\ 0.35 <= Weights.performance c
  /\ 0.35 <= Weights.similarity c.
Proof.
  simpl.
  assert (N : forall n : nat, 0 <= inject_Z (Z.of_nat n)).
  { intro n. replace 0 with (inject_Z 0) by reflexivity. rewrite <- Zle_Qle. lia. }
  repeat split.
  - destruct benchmarks; lra.
  - apply max_lower_l.
  - apply max_lower_l.
  - pose proof (N (PerformancePredictions.historical_sample_size performance_predictions)).
    match goal with |- _ <= Py.min ?a ?b => split_min a b end; lra.
  - unfold Py.len. pose proof (N (length similar_ipos)).
    match goal with |- _ <= Py.min ?a ?b => split_min a b end; lra.
Qed.

Lemma round3_error (x : Q) : x - 0.0005 <= Py.round x 3 <= x + 0.0005.
Proof.
  unfold Py.round.
  change (inject_Z (10 ^ Z.of_nat 3)) with 1000.
  set (y := x * 1000).
  assert (A : inject_Z (Py.round_half_even y) <= y + (1 # 2)
              /\ y - (1 # 2) <= inject_Z (Py.round_half_even y)).
  { pose proof (Qfloor_le y) as F. pose proof (Qlt_floor y) as G.
    rewrite inject_Z_plus in G. change (inject_Z 1) with 1 in G.
    unfold Py.round_half_even.
    by_cases_ltb (y - inject_Z (Qfloor y)) (1 # 2); [split; lra|].
    by_cases_ltb (1 # 2) (y - inject_Z (Qfloor y)).
    - rewrite inject_Z_plus. change (inject_Z 1) with 1. split; lra.
    - destruct (Z.even (Qfloor y));
        rewrite ?inject_Z_plus; change (inject_Z 1) with 1; split; lra. }
  destruct A as [A1 A2]. subst y.
  split.
  - apply Qle_shift_div_l; [reflexivity|]. lra.
  - apply Qle_shift_div_r; [reflexivity|]. lra.
Qed.

(** C5. The weights the composer uses are the base weights (0.28, 0.18,
    0.18, 0.20, 0.16) scaled by the component confidences and divided by the
    total of the scaled weights, and they sum to 1; this holds for the
    composer's own confidences (all at least 0.35, so the inner floor of
    0.25 changes nothing) and the sum is 1 for any confidences at all.
    Scaled weights of total zero are replaced by the base weights.  The
    reported allocation, rounded to three decimals, sums to 1 within
    0.0025. *)
Theorem weight_allocation_normalised
  (similar_ipos : list SimilarityMatch.t)
  (benchmarks : list HistoricalBenchmark.t)
  (search_analysis : SearchAnalysis.t) (sentiment_analysis : SentimentAnalysis.t)
  (performance_predictions : PerformancePredictions.t)
  (confidences scaled : Weights.t) :
  let c := component_confidences similar_ipos benchmarks search_analysis
             sentiment_analysis performance_predictions in
  let total :=
    0.28 * Weights.financial c + 0.18 * Weights.trend c
    + 0.18 * Weights.sentiment c + 0.20 * Weights.performance c
    + 0.16 * Weights.similarity c in
  let w := normalized_weights c in
  let reported := Weights.map (fun v => Py.round v 3) w in
  Py.sum (Weights.values w) == 1
  /\ (Weights.financial w == 0.28 * Weights.financial c / total
      /\ Weights.trend w == 0.18 * Weights.trend c / total
      /\ Weights.sentiment w == 0.18 * Weights.sentiment c / total
      /\ Weights.performance w == 0.20 * Weights.performance c / total
      /\ Weights.similarity w == 0.16 * Weights.similarity c / total)
  /\ Py.sum (Weights.values (normalized_weights confidences)) == 1
  /\ (Py.sum (Weights.values scaled) == 0 -> renormalize scaled = base_weights)
  /\ 1 - 0.0025 <= Py.sum (Weights.values reported) <= 1 + 0.0025.
Proof.
  intros c total w reported.
  destruct (component_confidences_floor similar_ipos benchmarks search_analysis
              sentiment_analysis performance_predictions)
    as (Hf & Ht & Hs & Hp & Hm).
  fold c in Hf, Ht, Hs, Hp, Hm. clearbody c.
  assert (S1 : Py.sum (Weights.values w) == 1).
  { apply renormalize_sum. pose proof (weighted_total_pos c). lra. }
  split; [exact S1|].
  split; [|split; [|split]].
  - assert (Ef : Py.max (Weights.financial c) 0.25 == Weights.financial c)
      by (apply max_quarter_id; lra).
    assert (Et : Py.max (Weights.trend c) 0.25 == Weights.trend c)
      by (apply max_quarter_id; lra).
    assert (Es : Py.max (Weights.sentiment c) 0.25 == Weights.sentiment c)
      by (apply max_quarter_id; lra).
    assert (Ep : Py.max (Weights.performance c) 0.25 == Weights.performance c)
      by (apply max_quarter_id; lra).
    assert (Em : Py.max (Weights.similarity c) 0.25 == Weights.similarity c)
      by (apply max_quarter_id; lra).
    assert (T : Py.sum (Weights.values (weighted_weights c)) == total).
    { rewrite sum_values. unfold weighted_weights, base_weights, total. simpl. lra. }
    assert (TP : 0 < total) by (rewrite <- T; apply weighted_total_pos).
    unfold w, normalized_weights.
    rewrite renormalize_nonzero by (rewrite T; lra).
    set (S := Py.sum (Weights.values (weighted_weights c))) in *.
    unfold Weights.map, weighted_weights, base_weights.
    cbn [Weights.financial Weights.trend Weights.sentiment
         Weights.performance Weights.similarity].
    rewrite Ef, Et, Es, Ep, Em, T.
    repeat split; reflexivity.
  - apply renormalize_sum. pose proof (weighted_total_pos confidences). lra.
  - intro Z. unfold renormalize.
    apply Qeq_bool_iff in Z. rewrite Z. reflexivity.
  - rewrite sum_values in S1 |- *. unfold reported, Weights.map. simpl.
    pose proof (round3_error (Weights.financial w)).
    pose proof (round3_error (Weights.trend w)).
    pose proof (round3_error (Weights.sentiment w)).
    pose proof (round3_error (Weights.performance w)).
    pose proof (round3_error (Weights.similarity w)).
    lra.
Qed.

Lemma weight_allocation_normalised_witness :
  renormalize (Weights.mk 0 0 0 0 0) = base_weights
  /\ Py.sum (Weights.values
       (normalized_weights
          (component_confidences [] [] 
             (_analyze_search_trends_historically Sample.stdev None Sample.blank [])
             (_analyze_sentiment_historically None Sample.blank [])
             Sample.volatile))) == 1.
Proof.
  destruct (weight_allocation_normalised [] []
              (_analyze_search_trends_historically Sample.stdev None Sample.blank [])
              (_analyze_sentiment_historically None Sample.blank [])
              Sample.volatile base_weights (Weights.mk 0 0 0 0 0))
    as (S1 & _ & _ & Z & _).
  split; [apply Z; reflexivity | exact S1].
Defined.

(** ** Performance sub-score *)

(** The multiplier of the code falls from 1.1 to 0.3, not to 0.7. *)
Lemma performance_score_closed_form (pp : PerformancePredictions.t) :
  let return_score :=
    Py.max 0 (Py.min 100
      (50 + PerformancePredictions.predicted_first_day_return pp * 100)) in
  let v := Py.max 0.0 (Py.min 0.5 (PerformancePredictions.performance_volatility pp)) in
  _calculate_performance_score pp == Py.min 100 (return_score * (1.1 - 1.6 * v)).
Proof.
  unfold _calculate_performance_score. cbv zeta.
  set (r := Py.max 0 _). set (v := Py.max 0.0 _).
  assert (E : r * (1.1 - v * 0.8 / 0.5) == r * (1.1 - 1.6 * v)) by (field).
  split_min 100 (r * (1.1 - v * 0.8 / 0.5));
    split_min 100 (r * (1.1 - 1.6 * v)); lra.
Qed.

(** C6 at volatility 0.5 and a flat predicted return: the return score
    is 50 on both sides; the code computes the multiplier
    [1.1 - 0.5 * 0.8 / 0.5 = 0.3] and the sub-score 15, where the
    specification (and the comment in the code) has the multiplier 0.7 and
    the sub-score 35. *)
Theorem performance_score_at_half_volatility :
  _calculate_performance_score Sample.volatile == 15
  /\ spec_performance_score
       (PerformancePredictions.predicted_first_day_return Sample.volatile)
       (PerformancePredictions.performance_volatility Sample.volatile) == 35
  /\ 1.1 - (Py.max 0.0 (Py.min 0.5 0.5) * 0.8 / 0.5) == 0.3.
Proof.
  split; [vm_compute; reflexivity|].
  split; vm_compute; reflexivity.
Qed.

(** ** Trend sub-score *)

Lemma trend_multiplier_cases (p : Q) :
  let m := trend_strength_multiplier (fst (trend_strength_of p)) in
  m == 1.2 \/ m == 1.1 \/ m == 1.0 \/ m == 0.8.
Proof.
  unfold trend_strength_of.
  destruct (Py.geb p 90); [left; reflexivity|].
  destruct (Py.geb p 75); [right; left; reflexivity|].
  destruct (Py.geb p 50); [right; right; left; reflexivity|].
  right; right; right; reflexivity.
Qed.

(** With the strength taken from percentile [p], a non-negative effective
    percentile and a confidence in [0, 1], the code's sub-score is the
    specified formula: the inner clamps change nothing. *)
Lemma trend_score_closed_form (sa : SearchAnalysis.t) (p : Q) :
  SearchAnalysis.trend_strength sa = fst (trend_strength_of p) ->
  0 <= SearchAnalysis.effective_percentile sa ->
  0 <= SearchAnalysis.data_confidence sa <= 1 ->
  _calculate_trend_score sa
  == spec_trend_score p (SearchAnalysis.effective_percentile sa)
       (SearchAnalysis.data_confidence sa).
Proof.
  intros Hs Hp [Hc0 Hc1].
  unfold _calculate_trend_score, spec_trend_score. cbv zeta. rewrite Hs.
  pose proof (trend_multiplier_cases p) as Hm. cbv zeta in Hm.
  set (m := trend_strength_multiplier _) in *.
  set (e := SearchAnalysis.effective_percentile sa) in *.
  set (c := SearchAnalysis.data_confidence sa) in *.
  assert (Hm0 : 0 < m) by (destruct Hm as [E | [E | [E | E]]]; rewrite E; lra).
  assert (Hem : 0 <= e * m) by nra.
  assert (Ec : Py.max 0.0 (Py.min 1.0 c) == c).
  { split_min 1.0 c; [split_max 0.0 c | split_max 0.0 1.0]; lra. }
  set (b := Py.min 100 (e * m)).
  assert (Hb : 0 <= b <= 100).
  { unfold b. split_min 100 (e * m); lra. }
  set (c' := Py.max 0.0 (Py.min 1.0 c)) in *.
  assert (Hs' : b * (0.6 + 0.4 * c') == b * (0.6 + 0.4 * c)) by (rewrite Ec; reflexivity).
  assert (Hle : b * (0.6 + 0.4 * c) <= 100) by nra.
  split_min 100 (b * (0.6 + 0.4 * c'));
    split_max 35.0 (b * (0.6 + 0.4 * c'));
    try split_max 35.0 100;
    split_max 35 (b * (0.6 + 0.4 * c)); lra.
Qed.

(** ** Fallback policy *)

Lemma or_default_nonempty (xs default : list Q) :
  default <> [] -> or_default xs default <> [].
Proof. destruct xs; simpl; [auto | discriminate]. Qed.

(** The peers' pool handed to the fallback decision is never empty. *)
Lemma peer_pool_nonempty (h0 s0 seed : list Q) :
  seed <> [] -> or_default s0 (or_default h0 seed) <> [].
Proof. intro H. apply or_default_nonempty, or_default_nonempty, H. Qed.

Lemma trend_fallback_cases (live : bool) (err : option string)
  (c r a : Q) (h s : list Q) :
  s <> [] ->
  (trend_fallback live err c r a h s = (false, "live"%string, c)
   /\ live = true)
  \/ trend_fallback live err c r a h s
     = (true, "similar"%string, _safe_median s 55.0).
Proof.
  intro NE. unfold trend_fallback.
  destruct s as [|x t]; [congruence|].
  destruct live; simpl negb; simpl orb.
  - destruct (Py.truthy_ostr err); [right; reflexivity|].
    destruct (Qle_bool c 0 && Qle_bool r 0 && Qle_bool a 0)%bool;
      [right | left]; auto.
  - right; reflexivity.
Qed.

Lemma sentiment_fallback_cases (live : bool) (err : option string)
  (c : Q) (n : Z) (h s : list Q) :
  s <> [] ->
  (sentiment_fallback live err c n h s = (false, "live"%string, c)
   /\ live = true)
  \/ sentiment_fallback live err c n h s
     = (true, "similar"%string, _safe_median s 0.05).
Proof.
  intro NE. unfold sentiment_fallback.
  destruct s as [|x t]; [congruence|].
  destruct live; simpl negb; simpl orb.
  - destruct (Py.truthy_ostr err); [right; reflexivity|].
    destruct (n =? 0)%Z; [right | left]; auto.
  - right; reflexivity.
Qed.

(** The fields of the trend analysis in terms of its two pools and of the
    fallback decision. *)
Lemma search_analysis_fields (stdev : list Q -> Q) (pool : option Store.t)
  (current_ipo : CurrentIpo.t) (similar_ipos : list SimilarityMatch.t) :
  let sa := _analyze_search_trends_historically stdev pool current_ipo similar_ipos in
  let pools := fetch_pools pool Store.trend_scores Store.trend_scores_of similar_ipos in
  let h := or_default (fst pools) [50.0] in
  let s := or_default (snd pools) h in
  let live :=
    (CurrentIpo.trend_data_available current_ipo
     && (Py.gtb (CurrentIpo.trend_average_interest current_ipo
                 + CurrentIpo.trend_recent_interest current_ipo) 0
         || Py.gtb (CurrentIpo.trend_score current_ipo) 0))%bool in
  let decision :=
    trend_fallback live (CurrentIpo.trend_error current_ipo)
      (CurrentIpo.trend_score current_ipo)
      (CurrentIpo.trend_recent_interest current_ipo)
      (CurrentIpo.trend_average_interest current_ipo) h s in
  let eff := snd decision in
  SearchAnalysis.used_historical_fallback sa = fst (fst decision)
  /\ SearchAnalysis.fallback_source sa = snd (fst decision)
  /\ SearchAnalysis.effective_trend_score sa = eff
  /\ SearchAnalysis.historical_percentile sa = _calculate_percentile_rank eff h
  /\ SearchAnalysis.effective_percentile sa = _calculate_percentile_rank eff s
  /\ SearchAnalysis.similar_ipos_percentile sa = _calculate_percentile_rank eff s
  /\ SearchAnalysis.trend_strength sa
     = fst (trend_strength_of (_calculate_percentile_rank eff h))
  /\ SearchAnalysis.data_confidence sa
     = (if negb (fst (fst decision)) then 1.0
        else if String.eqb (snd (fst decision)) "similar" then 0.75 else 0.6).
Proof.
  unfold _analyze_search_trends_historically. cbv zeta.
  destruct (fetch_pools pool Store.trend_scores Store.trend_scores_of similar_ipos)
    as [h0 s0].
  cbn [fst snd].
  destruct (trend_fallback _ _ _ _ _ _ _) as [[fu fs] eff].
  cbn [fst snd].
  destruct (trend_strength_of _) as [ts ti]. cbn [fst snd].
  repeat split; reflexivity.
Qed.

(** The same for the sentiment analysis. *)
Lemma sentiment_analysis_fields (pool : option Store.t)
  (current_ipo : CurrentIpo.t) (similar_ipos : list SimilarityMatch.t) :
  let se := _analyze_sentiment_historically pool current_ipo similar_ipos in
  let pools :=
    fetch_pools pool Store.sentiment_scores Store.sentiment_scores_of similar_ipos in
  let h := or_default (fst pools) [0.0] in
  let s := or_default (snd pools) h in
  let live :=
    (CurrentIpo.news_data_available current_ipo
     && (0 <? CurrentIpo.news_total_articles current_ipo)%Z)%bool in
  let decision :=
    sentiment_fallback live (CurrentIpo.news_error current_ipo)
      (CurrentIpo.sentiment_score current_ipo)
      (CurrentIpo.news_total_articles current_ipo) h s in
  SentimentAnalysis.used_historical_fallback se = fst (fst decision)
  /\ SentimentAnalysis.fallback_source se = snd (fst decision)
  /\ SentimentAnalysis.effective_sentiment se = snd decision
  /\ SentimentAnalysis.data_confidence se
     = (if negb (fst (fst decision)) then 1.0
        else if String.eqb (snd (fst decision)) "similar" then 0.7 else 0.55).
Proof.
  unfold _analyze_sentiment_historically. cbv zeta.
  destruct (fetch_pools pool Store.sentiment_scores Store.sentiment_scores_of
              similar_ipos) as [h0 s0].
  cbn [fst snd].
  destruct (sentiment_fallback _ _ _ _ _ _) as [[fu fs] eff].
  cbn [fst snd].
  repeat split; reflexivity.
Qed.

(** C7, as the code has it.  For every trend analysis the sub-score is
    [base * (0.6 + 0.4 * confidence)] floored at 35, with
    [base = min(100, effective_percentile * strength_multiplier)]; the
    effective percentile is the rank of the effective trend score in the
    peers' pool, while the strength bucket (Exceptional from 90, Strong
    from 75, Moderate from 50, else Weak) is taken from its rank in the
    full historical pool. *)
Theorem trend_score_bucket_from_full_pool (stdev : list Q -> Q)
  (pool : option Store.t) (current_ipo : CurrentIpo.t)
  (similar_ipos : list SimilarityMatch.t) :
  let sa := _analyze_search_trends_historically stdev pool current_ipo similar_ipos in
  let pools := fetch_pools pool Store.trend_scores Store.trend_scores_of similar_ipos in
  let full_pool := or_default (fst pools) [50.0] in
  let peer_pool := or_default (snd pools) full_pool in
  SearchAnalysis.historical_percentile sa
    = _calculate_percentile_rank (SearchAnalysis.effective_trend_score sa) full_pool
  /\ SearchAnalysis.effective_percentile sa
     = _calculate_percentile_rank (SearchAnalysis.effective_trend_score sa) peer_pool
  /\ SearchAnalysis.trend_strength sa
     = fst (trend_strength_of (SearchAnalysis.historical_percentile sa))
  /\ _calculate_trend_score sa
     == spec_trend_score (SearchAnalysis.historical_percentile sa)
          (SearchAnalysis.effective_percentile sa)
          (SearchAnalysis.data_confidence sa).
Proof.
  intros sa pools full_pool peer_pool.
  destruct (search_analysis_fields stdev pool current_ipo similar_ipos)
    as (_ & _ & He & Hh & Hp & _ & Hs & Hc).
  fold sa pools full_pool peer_pool in He, Hh, Hp, Hs, Hc.
  rewrite He. split; [exact Hh|]. split; [exact Hp|].
  assert (Hs' : SearchAnalysis.trend_strength sa
                = fst (trend_strength_of (SearchAnalysis.historical_percentile sa)))
    by (rewrite Hh; exact Hs).
  split; [exact Hs'|].
  apply trend_score_closed_form; [exact Hs'| |].
  - rewrite Hp. apply percentile_rank_range.
  - rewrite Hc.
    destruct (negb _); [lra|]. destruct (String.eqb _ _); lra.
Qed.

(** C7, as the specification words it, fails: with a full pool of ten
    samples and two peer samples, a live trend score of 95 ranks at 90 in
    the full pool (Exceptional, x1.2) and at 50 among the peers (Moderate,
    x1.0); the code returns 50 * 1.2 = 60 where the bucket of the peers'
    percentile would give 50. *)
Lemma trend_bucket_not_from_peer_pool :
  let sa :=
    _analyze_search_trends_historically Sample.stdev (Some Sample.store)
      Sample.acme (rank_candidates Sample.acme [Sample.peer]) in
  SearchAnalysis.historical_percentile sa == 90
  /\ SearchAnalysis.similar_ipos_percentile sa == 50
  /\ SearchAnalysis.trend_strength sa = "Exceptional"%string
  /\ SearchAnalysis.fallback_source sa = "live"%string
  /\ _calculate_trend_score sa == 60
  /\ spec_trend_score (SearchAnalysis.similar_ipos_percentile sa)
       (SearchAnalysis.effective_percentile sa)
       (SearchAnalysis.data_confidence sa) == 50
  /\ ~ (_calculate_trend_score sa
        == spec_trend_score (SearchAnalysis.similar_ipos_percentile sa)
             (SearchAnalysis.effective_percentile sa)
             (SearchAnalysis.data_confidence sa)).
Proof.
  cbv zeta.
  repeat (split; [vm_compute; reflexivity|]).
  intro H. vm_compute in H. discriminate H.
Qed.

(** C8. When [trend_data_available] is false and no peer has a trend
    sample, the trend analysis falls back and its substitute is the median
    of the full historical pool; yet it reports the source "similar" with
    confidence 0.75, where the claim requires "historical" and 0.60 for
    that substitute.  The peers' pool is replaced by the full pool before
    the fallback decision, so the branch of the code that reports
    "historical" with confidence 0.6 is never taken. *)
Theorem trend_full_pool_fallback_reported_similar (stdev : list Q -> Q)
  (pool : option Store.t) (current_ipo : CurrentIpo.t)
  (similar_ipos : list SimilarityMatch.t) :
  CurrentIpo.trend_data_available current_ipo = false ->
  snd (fetch_pools pool Store.trend_scores Store.trend_scores_of similar_ipos) = [] ->
  let sa := _analyze_search_trends_historically stdev pool current_ipo similar_ipos in
  let pools := fetch_pools pool Store.trend_scores Store.trend_scores_of similar_ipos in
  let full_pool := or_default (fst pools) [50.0] in
  SearchAnalysis.used_historical_fallback sa = true
  /\ SearchAnalysis.effective_trend_score sa = _safe_median full_pool 55.0
  /\ SearchAnalysis.fallback_source sa = "similar"%string
  /\ SearchAnalysis.data_confidence sa = 0.75
  /\ String.eqb (SearchAnalysis.fallback_source sa) "historical" = false
  /\ Qeq_bool (SearchAnalysis.data_confidence sa) 0.6 = false.
Proof.
  intros Hoff Hpeers sa pools full_pool.
  destruct (search_analysis_fields stdev pool current_ipo similar_ipos)
    as (Hu & Hf & He & _ & _ & _ & _ & Hc).
  fold sa pools full_pool in Hu, Hf, He, Hc.
  unfold pools in Hu, Hf, He, Hc. rewrite Hpeers in Hu, Hf, He, Hc.
  fold pools in Hu, Hf, He, Hc. fold full_pool in Hu, Hf, He, Hc.
  cbn [or_default] in Hu, Hf, He, Hc.
  rewrite Hoff in *. simpl andb in *.
  match type of Hu with
  | _ = fst (fst (trend_fallback false ?e ?c ?r ?a ?h ?s)) =>
    destruct (trend_fallback_cases false e c r a h s) as [[_ T] | T];
      [apply or_default_nonempty; discriminate | discriminate |];
      rewrite T in Hu, Hf, He, Hc
  end.
  cbn [fst snd] in *. simpl in Hc.
  rewrite Hu, Hf, Hc, He. repeat split; reflexivity.
Qed.

Lemma trend_full_pool_fallback_reported_similar_witness :
  let sa :=
    _analyze_search_trends_historically Sample.stdev (Some Fixture.three_trends)
      Sample.blank [] in
  SearchAnalysis.effective_trend_score sa == 40
  /\ SearchAnalysis.fallback_source sa = "similar"%string
  /\ SearchAnalysis.data_confidence sa = 0.75.
Proof.
  destruct (trend_full_pool_fallback_reported_similar Sample.stdev
              (Some Fixture.three_trends) Sample.blank [] eq_refl eq_refl)
    as (_ & E & S & C & _).
  split; [rewrite E; vm_compute; reflexivity|]. split; [exact S | exact C].
Defined.

(** C10. The fallback source reported by the trend analysis and by the
    sentiment analysis is "live" or "similar" and never "historical": the
    peers' pool is replaced by the full pool, and this one by a singleton,
    before the fallback decision, so the decision always finds peers. *)
Theorem fallback_source_never_historical (stdev : list Q -> Q)
  (pool : option Store.t) (current_ipo : CurrentIpo.t)
  (similar_ipos : list SimilarityMatch.t) :
  let sa := _analyze_search_trends_historically stdev pool current_ipo similar_ipos in
  let se := _analyze_sentiment_historically pool current_ipo similar_ipos in
  ((SearchAnalysis.fallback_source sa = "live"%string
    \/ SearchAnalysis.fallback_source sa = "similar"%string)
   /\ String.eqb (SearchAnalysis.fallback_source sa) "historical" = false)
  /\ ((SentimentAnalysis.fallback_source se = "live"%string
       \/ SentimentAnalysis.fallback_source se = "similar"%string)
      /\ String.eqb (SentimentAnalysis.fallback_source se) "historical" = false)
  /\ (0 < SearchAnalysis.similar_sample_size sa)%nat
  /\ (0 < SentimentAnalysis.similar_sample_size se)%nat.
Proof.
  intros sa se.
  assert (A : SearchAnalysis.fallback_source sa = "live"%string
              \/ SearchAnalysis.fallback_source sa = "similar"%string).
  { destruct (search_analysis_fields stdev pool current_ipo similar_ipos)
      as (_ & Hf & _).
    fold sa in Hf. rewrite Hf.
    match goal with
    | |- snd (fst (trend_fallback ?l ?e ?c ?r ?a ?h ?s)) = _ \/ _ =>
      destruct (trend_fallback_cases l e c r a h s) as [[T _] | T];
        [apply peer_pool_nonempty; discriminate | |]; rewrite T; auto
    end. }
  assert (B : SentimentAnalysis.fallback_source se = "live"%string
              \/ SentimentAnalysis.fallback_source se = "similar"%string).
  { destruct (sentiment_analysis_fields pool current_ipo similar_ipos)
      as (_ & Hf & _).
    fold se in Hf. rewrite Hf.
    match goal with
    | |- snd (fst (sentiment_fallback ?l ?e ?c ?n ?h ?s)) = _ \/ _ =>
      destruct (sentiment_fallback_cases l e c n h s) as [[T _] | T];
        [apply peer_pool_nonempty; discriminate | |]; rewrite T; auto
    end. }
  split; [split; [exact A | destruct A as [E | E]; rewrite E; reflexivity]|].
  split; [split; [exact B | destruct B as [E | E]; rewrite E; reflexivity]|].
  split.
  - unfold sa, _analyze_search_trends_historically. cbv zeta.
    destruct (fetch_pools pool Store.trend_scores _ _) as [h0 s0].
    destruct (trend_fallback _ _ _ _ _ _ _) as [[fu fs] eff].
    destruct (trend_strength_of _) as [ts ti].
    cbn [SearchAnalysis.similar_sample_size].
    pose proof (peer_pool_nonempty h0 s0 [50.0]) as NE.
    destruct (or_default s0 _); [exfalso; apply NE; [discriminate | reflexivity]|].
    simpl. lia.
  - unfold se, _analyze_sentiment_historically. cbv zeta.
    destruct (fetch_pools pool Store.sentiment_scores _ _) as [h0 s0].
    destruct (sentiment_fallback _ _ _ _ _ _) as [[fu fs] eff].
    cbn [SentimentAnalysis.similar_sample_size].
    pose proof (peer_pool_nonempty h0 s0 [0.0]) as NE.
    destruct (or_default s0 _); [exfalso; apply NE; [discriminate | reflexivity]|].
    simpl. lia.
Qed.

(** ** Peer market caps in the benchmark *)

Lemma if_any_median_returns (data : list Q) :
  exists v, if_any Statistics.median data = Ok v.
Proof.
  destruct data as [|x t]; [simpl; eauto|].
  unfold if_any, Statistics.median.
  pose proof (sorted_length (x :: t)) as L.
  destruct (length (Statistics.sorted (x :: t))); [discriminate L|].
  destruct (Nat.odd _); eauto.
Qed.

Lemma if_any_mean_returns (data : list Q) :
  exists v, if_any Statistics.mean data = Ok v.
Proof. destruct data; simpl; eauto. Qed.

Lemma find_similar_Forall (P : SimilarityMatch.t -> Prop) (pool : option Store.t)
  (current_ipo : CurrentIpo.t) :
  (forall row s f, P (make_match row s f)) ->
  Forall P (_find_similar_historical_ipos pool current_ipo).
Proof.
  intro H. unfold _find_similar_historical_ipos.
  destruct pool as [conn|]; [|constructor].
  destruct (Store.candidates conn _ _) as [rows|]; [|constructor].
  apply rank_candidates_Forall. intros row _ _. apply H.
Qed.

Lemma no_market_cap_no_values (similar_ipos : list SimilarityMatch.t) :
  Forall (fun m => SimilarityMatch.market_cap m = None) similar_ipos ->
  similar_market_caps similar_ipos = [].
Proof.
  unfold similar_market_caps, not_none.
  induction 1 as [|m t Hm _ IH]; simpl; [reflexivity|].
  rewrite Hm. simpl. exact IH.
Qed.

(** C9 fails on the code.  No match built by the matcher carries the
    peer's market cap (the field keeps its default [None]), so the peers'
    market-cap list of the benchmark is empty and the peer statistics of
    the market-cap benchmark are the defaults 0, 0, 0 and 50 whatever the
    peers' market caps.  With the sample database, whose single peer has a
    market cap of 1.2 billion, the match has no market cap and the peer
    median is 0. *)
Theorem peer_market_cap_not_copied (stdev : list Q -> Q) (pool : option Store.t)
  (current_ipo : CurrentIpo.t) (historical_market_caps : list Q) :
  let similar_ipos := _find_similar_historical_ipos pool current_ipo in
  Forall (fun m => SimilarityMatch.market_cap m = None) similar_ipos
  /\ similar_market_caps similar_ipos = []
  /\ (exists b,
        market_cap_benchmark stdev current_ipo similar_ipos historical_market_caps
        = Ok b
        /\ HistoricalBenchmark.similar_ipos_median b = 0
        /\ HistoricalBenchmark.similar_ipos_mean b = 0
        /\ HistoricalBenchmark.similar_ipos_std b = 0
        /\ HistoricalBenchmark.similar_ipos_percentile b = 50)
  /\ (map Row.market_cap_at_ipo [Sample.peer] = [Some 1200000000]
      /\ map SimilarityMatch.ticker
           (_find_similar_historical_ipos (Some Sample.store) Sample.acme)
         = ["PEER"%string]
      /\ map SimilarityMatch.market_cap
           (_find_similar_historical_ipos (Some Sample.store) Sample.acme)
         = [None]
      /\ map HistoricalBenchmark.similar_ipos_median
           (_calculate_historical_benchmarks Sample.stdev (Some Sample.store)
              Sample.acme
              (_find_similar_historical_ipos (Some Sample.store) Sample.acme))
         = [0.1; 0.7; 0]).
Proof.
  intro similar_ipos.
  assert (N : Forall (fun m => SimilarityMatch.market_cap m = None) similar_ipos)
    by (apply find_similar_Forall; reflexivity).
  split; [exact N|].
  pose proof (no_market_cap_no_values _ N) as E.
  split; [exact E|].
  split.
  - unfold market_cap_benchmark, make_benchmark. rewrite E.
    destruct (if_any_median_returns historical_market_caps) as [md ->].
    destruct (if_any_mean_returns historical_market_caps) as [mn ->].
    simpl. eexists. split; [reflexivity|]. repeat split; reflexivity.
  - repeat split; vm_compute; reflexivity.
Qed.

(** ** The entry point *)

Lemma find_similar_empty (pool : option Store.t) (current_ipo : CurrentIpo.t) :
  corpus_empty pool -> _find_similar_historical_ipos pool current_ipo = [].
Proof.
  destruct pool as [conn|]; [|reflexivity].
  intros [Hc _]. unfold _find_similar_historical_ipos.
  destruct (Hc (market_cap_category_of (CurrentIpo.implied_market_cap current_ipo))
               (CurrentIpo.sector current_ipo)) as [-> | ->]; reflexivity.
Qed.

Lemma return_pools_empty (pool : option Store.t) :
  corpus_empty pool -> return_pools pool [] = ([], [], []).
Proof.
  destruct pool as [conn|]; [|reflexivity].
  intros [_ [Hp | Hp]]; unfold return_pools; rewrite Hp; reflexivity.
Qed.

(** A reachable database without rows is an empty corpus. *)
Lemma empty_store_is_empty_corpus : corpus_empty (Some Store.empty).
Proof. split; [intros; left; reflexivity | left; reflexivity]. Qed.

(** With an empty corpus the median of the first-day returns raises. *)
Lemma analysis_steps_raise (stdev : list Q -> Q)
  (text : list HistoricalBenchmark.t -> SearchAnalysis.t -> SentimentAnalysis.t ->
          PerformancePredictions.t -> list SimilarityMatch.t -> string)
  (now : string) (pool : option Store.t) (current_ipo_data : CurrentIpo.t) :
  corpus_empty pool ->
  analysis_steps stdev text now pool current_ipo_data = Raise StatisticsError.
Proof.
  intro H. unfold analysis_steps. cbv zeta.
  rewrite (find_similar_empty pool current_ipo_data H).
  unfold _predict_performance_from_history.
  rewrite (return_pools_empty pool H). reflexivity.
Qed.

(** C2. The entry point returns a result for every input and never
    raises; with an empty corpus (whatever the company's record holds,
    upstream errors included) the result is the fixed fallback: score
    50.0, every sub-score 50.0 except the similarity score 30.0,
    recommendation "Hold" and risk level "High". *)
Theorem analysis_never_raises (stdev : list Q -> Q)
  (text : list HistoricalBenchmark.t -> SearchAnalysis.t -> SentimentAnalysis.t ->
          PerformancePredictions.t -> list SimilarityMatch.t -> string)
  (now : string) (pool : option Store.t) (current_ipo_data : CurrentIpo.t) :
  (exists r,
      analyze_ipo_hype_score stdev text now pool current_ipo_data = Ok r)
  /\ (corpus_empty pool ->
      analyze_ipo_hype_score stdev text now pool current_ipo_data
      = Ok {| HypeScoreResult.hype_score := 50.0;
              HypeScoreResult.component_scores :=
                {| ComponentScores.financial_score := 50.0;
                   ComponentScores.trend_score := 50.0;
                   ComponentScores.sentiment_score := 50.0;
                   ComponentScores.performance_score := 50.0;
                   ComponentScores.similarity_score := 30.0 |};
              HypeScoreResult.weight_allocation := None;
              HypeScoreResult.analysis :=
                "Historical analysis unavailable. Using basic scoring methodology.";
              HypeScoreResult.key_factors :=
                ["Limited historical data available"%string];
              HypeScoreResult.recommendation := "Hold";
              HypeScoreResult.risk_level := "High";
              HypeScoreResult.similar_ipos_count := 0;
              HypeScoreResult.benchmarks_analyzed := 0;
              HypeScoreResult.last_updated := now |}).
Proof.
  split.
  - unfold analyze_ipo_hype_score.
    destruct (analysis_steps stdev text now pool current_ipo_data) as [r | e];
      [exists r; reflexivity | unfold _get_fallback_hype_score; eauto].
  - intro H. unfold analyze_ipo_hype_score.
    rewrite (analysis_steps_raise stdev text now pool current_ipo_data H).
    reflexivity.
Qed.

Lemma analysis_never_raises_witness :
  exists r,
    analyze_ipo_hype_score Sample.stdev Sample.text Sample.now None Sample.blank
    = Ok r
    /\ HypeScoreResult.hype_score r = 50.0
    /\ ComponentScores.similarity_score (HypeScoreResult.component_scores r) = 30.0
    /\ HypeScoreResult.recommendation r = "Hold"%string
    /\ HypeScoreResult.risk_level r = "High"%string.
Proof.
  destruct (analysis_never_raises Sample.stdev Sample.text Sample.now None
              Sample.blank) as [_ F].
  eexists. split; [apply F; exact I|].
  repeat split; reflexivity.
Defined.

(** On the sample database the six steps succeed: the company gets the
    score 65.6 and the recommendation "Hold". *)
Example analysis_on_sample_store :
  exists r,
    analyze_ipo_hype_score Sample.stdev Sample.text Sample.now
      (Some Sample.store) Sample.acme = Ok r
    /\ HypeScoreResult.hype_score r == 65.6
    /\ HypeScoreResult.recommendation r = "Hold"%string
    /\ HypeScoreResult.similar_ipos_count r = 1%nat
    /\ HypeScoreResult.benchmarks_analyzed r = 3%nat.
Proof.
  eexists. split; [vm_compute; reflexivity|].
  repeat split; vm_compute; reflexivity.
Qed.

(** * Further properties of the code *)

(** ** The matcher's loop as a rule *)

Lemma threshold_is_rule (current_ipo : CurrentIpo.t) (r : Row.t) :
  Py.geb (fst (score_candidate current_ipo r)) 0.3 = retained current_ipo r.
Proof.
  unfold score_candidate, retained, factor_matches.
  cbn [String.eqb Ascii.eqb Bool.eqb].
  destruct (Py.ostr_eqb _ _), (col_eqb (Row.sector r) _),
    (col_eqb (Row.industry r) _), (growth_matches _ _); reflexivity.
Qed.

Lemma collect_matches_as_filter (current_ipo : CurrentIpo.t) (rows : list Row.t)
  (acc : list SimilarityMatch.t) :
  collect_matches current_ipo rows acc
  = acc ++ map (fun r => make_match r (fst (score_candidate current_ipo r))
                           (snd (score_candidate current_ipo r)))
               (filter (retained current_ipo) rows).
Proof.
  revert acc. induction rows as [|r rest IH]; intro acc; simpl.
  - rewrite app_nil_r. reflexivity.
  - rewrite <- threshold_is_rule.
    destruct (score_candidate current_ipo r) as [s f] eqn:E.
    cbn [fst snd]. destruct (Py.geb s 0.3).
    + rewrite IH, <- app_assoc. simpl. rewrite E. reflexivity.
    + apply IH.
Qed.

Lemma score_at_most_one (current_ipo : CurrentIpo.t) (row : Row.t) :
  fst (score_candidate current_ipo row) <= 1.
Proof.
  rewrite score_candidate_guarded. unfold guarded_candidate_score.
  destruct (Py.ostr_eqb _ _), (col_eqb (Row.sector row) _),
    (col_eqb (Row.industry row) _), (Row.revenue_growth_yoy row) as [g|];
    try destruct (_ && _ && _)%bool; lra.
Qed.

(** X3. A candidate passes the 0.3 threshold exactly when its market-cap
    category matches, or its revenue growth matches, or both its sector
    and its industry match; no score exceeds 1; and the loop keeps the
    passing candidates in the order of the rows. *)
Theorem retention_rule (current_ipo : CurrentIpo.t) (row : Row.t)
  (rows : list Row.t) :
  Py.geb (fst (score_candidate current_ipo row)) 0.3 = retained current_ipo row
  /\ fst (score_candidate current_ipo row) <= 1
  /\ collect_matches current_ipo rows []
     = map (fun r => make_match r (fst (score_candidate current_ipo r))
                       (snd (score_candidate current_ipo r)))
           (filter (retained current_ipo) rows).
Proof.
  split; [apply threshold_is_rule|].
  split; [apply score_at_most_one|].
  apply (collect_matches_as_filter current_ipo rows []).
Qed.

Lemma sorted_split {A} (R : A -> A -> Prop) (n : nat) (l : list A) :
  StronglySorted R l ->
  Forall (fun a => Forall (fun b => R a b) (skipn n l)) (firstn n l).
Proof.
  revert l. induction n as [|n IH]; intros l Hs; simpl; [constructor|].
  destruct Hs as [|a t Hs Hall]; [constructor|].
  constructor; [|apply IH; exact Hs].
  rewrite <- (firstn_skipn n t) in Hall.
  apply Forall_app in Hall. apply Hall.
Qed.

(** X4. The matches returned are the best ones: the returned list and a
    list of dropped matches together hold exactly the candidates that
    passed the threshold, no dropped match scores above a returned one, and
    the number returned is the number of passing candidates capped at
    10. *)
Theorem top_ten_are_best (current_ipo : CurrentIpo.t) (rows : list Row.t) :
  let returned := rank_candidates current_ipo rows in
  length returned = Nat.min 10 (length (filter (retained current_ipo) rows))
  /\ exists dropped,
       Permutation (returned ++ dropped) (collect_matches current_ipo rows [])
       /\ Forall (fun m => Forall (fun m' => score_ge m m') dropped) returned.
Proof.
  unfold rank_candidates. cbv zeta.
  set (l := sort_desc (collect_matches current_ipo rows [])).
  split.
  - rewrite length_firstn. unfold l.
    rewrite (Permutation_length (sort_desc_perm _)).
    rewrite collect_matches_as_filter. simpl. rewrite length_map. reflexivity.
  - exists (skipn 10 l). split.
    + rewrite firstn_skipn. apply sort_desc_perm.
    + apply sorted_split, sort_desc_sorted.
Qed.

Lemma factors_account (current_ipo : CurrentIpo.t) (row : Row.t) :
  snd (score_candidate current_ipo row)
  = filter (factor_matches current_ipo row) factor_names
  /\ fst (score_candidate current_ipo row)
     == Py.sum (map factor_weight (snd (score_candidate current_ipo row))).
Proof.
  unfold score_candidate, factor_names, factor_matches.
  cbn [filter String.eqb Ascii.eqb Bool.eqb].
  destruct (Py.ostr_eqb _ _), (col_eqb (Row.sector row) _),
    (col_eqb (Row.industry row) _), (growth_matches _ _);
    (split; [reflexivity | vm_compute; reflexivity]).
Qed.

(** X5. The factor list of a candidate names exactly the tests that
    succeeded, in the fixed order market_cap, sector, industry,
    revenue_growth, and the score is the sum of the weights of the listed
    factors (0.3, 0.2, 0.2, 0.3); so it is for every returned match. *)
Theorem matching_factors_account_for_score (current_ipo : CurrentIpo.t)
  (row : Row.t) (rows : list Row.t) :
  snd (score_candidate current_ipo row)
  = filter (factor_matches current_ipo row) factor_names
  /\ fst (score_candidate current_ipo row)
     == Py.sum (map factor_weight (snd (score_candidate current_ipo row)))
  /\ Forall (fun m => SimilarityMatch.similarity_score m
                      == Py.sum (map factor_weight
                                   (SimilarityMatch.matching_factors m)))
       (rank_candidates current_ipo rows).
Proof.
  destruct (factors_account current_ipo row) as [F S].
  split; [exact F|]. split; [exact S|].
  apply rank_candidates_Forall. intros r _ _. simpl.
  apply (factors_account current_ipo r).
Qed.

(** ** The entry point, continued *)

Lemma median_returns (data : list Q) :
  data <> [] -> exists v, Statistics.median data = Ok v.
Proof.
  intro NE. destruct data as [|x t]; [congruence|].
  unfold Statistics.median.
  pose proof (sorted_length (x :: t)) as L.
  destruct (length (Statistics.sorted (x :: t))); [discriminate L|].
  destruct (Nat.odd _); eauto.
Qed.

Lemma predict_returns (stdev : list Q -> Q) (pool : option Store.t)
  (current_ipo : CurrentIpo.t) (similar_ipos : list SimilarityMatch.t) :
  fst (fst (return_pools pool similar_ipos)) <> [] ->
  snd (fst (return_pools pool similar_ipos)) <> [] ->
  snd (return_pools pool similar_ipos) <> [] ->
  exists pp,
    _predict_performance_from_history stdev pool current_ipo similar_ipos = Ok pp.
Proof.
  unfold _predict_performance_from_history.
  destruct (return_pools pool similar_ipos) as [[d w] m]. cbn [fst snd].
  intros Hd Hw Hm.
  destruct (median_returns d Hd) as [vd ->].
  destruct (median_returns w Hw) as [vw ->].
  destruct (median_returns m Hm) as [vm ->].
  simpl. eauto.
Qed.

Lemma predict_raises (stdev : list Q -> Q) (pool : option Store.t)
  (current_ipo : CurrentIpo.t) (similar_ipos : list SimilarityMatch.t) :
  fst (fst (return_pools pool similar_ipos)) = []
  \/ snd (fst (return_pools pool similar_ipos)) = []
  \/ snd (return_pools pool similar_ipos) = [] ->
  _predict_performance_from_history stdev pool current_ipo similar_ipos
  = Raise StatisticsError.
Proof.
  unfold _predict_performance_from_history.
  destruct (return_pools pool similar_ipos) as [[d w] m]. cbn [fst snd].
  intros [-> | [-> | ->]]; [reflexivity | |].
  - destruct (Statistics.median d) as [vd | []]; reflexivity.
  - destruct (Statistics.median d) as [vd | []]; [|reflexivity].
    destruct (Statistics.median w) as [vw | []]; reflexivity.
Qed.

(** What a result of the composer always looks like. *)
Lemma generated_result_shape
  (text : list HistoricalBenchmark.t -> SearchAnalysis.t -> SentimentAnalysis.t ->
          PerformancePredictions.t -> list SimilarityMatch.t -> string)
  (now : string) (current_ipo : CurrentIpo.t)
  (similar_ipos : list SimilarityMatch.t)
  (benchmarks : list HistoricalBenchmark.t)
  (search_analysis : SearchAnalysis.t) (sentiment_analysis : SentimentAnalysis.t)
  (performance_predictions : PerformancePredictions.t) :
  exists r,
    _generate_data_backed_hype_score text now current_ipo similar_ipos
      benchmarks search_analysis sentiment_analysis performance_predictions
    = Ok r
    /\ 35 <= HypeScoreResult.hype_score r <= 100
    /\ (exists w, HypeScoreResult.weight_allocation r = Some w)
    /\ HypeScoreResult.similar_ipos_count r = length similar_ipos
    /\ HypeScoreResult.benchmarks_analyzed r = length benchmarks.
Proof.
  destruct (component_scores_return similar_ipos benchmarks search_analysis
              sentiment_analysis performance_predictions) as [scores Hs].
  unfold _generate_data_backed_hype_score. rewrite Hs. simpl bind.
  eexists. split; [reflexivity|].
  cbn [HypeScoreResult.hype_score HypeScoreResult.weight_allocation
       HypeScoreResult.similar_ipos_count HypeScoreResult.benchmarks_analyzed].
  split; [|split; [eauto | split; reflexivity]].
  apply (round_range 35 100). apply final_hype_score_range.
Qed.

Lemma find_similar_length (pool : option Store.t) (current_ipo : CurrentIpo.t) :
  (length (_find_similar_historical_ipos pool current_ipo) <= 10)%nat.
Proof.
  unfold _find_similar_historical_ipos.
  destruct pool as [conn|]; [|simpl; lia].
  destruct (Store.candidates conn _ _); [|simpl; lia].
  apply rank_candidates_well_ranked.
Qed.

Lemma benchmarks_length (stdev : list Q -> Q) (pool : option Store.t)
  (current_ipo : CurrentIpo.t) (similar_ipos : list SimilarityMatch.t) :
  (length (_calculate_historical_benchmarks stdev pool current_ipo similar_ipos)
   <= 3)%nat.
Proof.
  unfold _calculate_historical_benchmarks.
  repeat match goal with
         | |- context [match ?x with _ => _ end] => destruct x
         end; simpl; lia.
Qed.

(** The shape of every result of the entry point. *)
Lemma analysis_result_shape (stdev : list Q -> Q)
  (text : list HistoricalBenchmark.t -> SearchAnalysis.t -> SentimentAnalysis.t ->
          PerformancePredictions.t -> list SimilarityMatch.t -> string)
  (now : string) (pool : option Store.t) (current_ipo_data : CurrentIpo.t) :
  exists r,
    analyze_ipo_hype_score stdev text now pool current_ipo_data = Ok r
    /\ 35 <= HypeScoreResult.hype_score r <= 100
    /\ (HypeScoreResult.similar_ipos_count r <= 10)%nat
    /\ (HypeScoreResult.benchmarks_analyzed r <= 3)%nat.
Proof.
  unfold analyze_ipo_hype_score, analysis_steps. cbv zeta.
  destruct (_predict_performance_from_history stdev pool current_ipo_data _)
    as [pp | e]; simpl bind.
  - match goal with
    | |- context [_generate_data_backed_hype_score ?t ?n ?c ?s ?b ?sa ?se pp] =>
      destruct (generated_result_shape t n c s b sa se pp)
        as (r & -> & Hr & _ & Hs & Hb)
    end.
    exists r. split; [reflexivity|]. split; [exact Hr|].
    rewrite Hs, Hb.
    split; [apply find_similar_length | apply benchmarks_length].
  - eexists. split; [reflexivity|]. simpl.
    split; [split; lra | split; lia].
Qed.

(** X1. For every input the entry point returns a result whose score lies
    in [35, 100], whose count of similar IPOs is at most 10 and whose count
    of benchmarks is at most 3. *)
Theorem analysis_result_bounds (stdev : list Q -> Q)
  (text : list HistoricalBenchmark.t -> SearchAnalysis.t -> SentimentAnalysis.t ->
          PerformancePredictions.t -> list SimilarityMatch.t -> string)
  (now : string) (pool : option Store.t) (current_ipo_data : CurrentIpo.t) :
  exists r,
    analyze_ipo_hype_score stdev text now pool current_ipo_data = Ok r
    /\ 35 <= HypeScoreResult.hype_score r <= 100
    /\ (HypeScoreResult.similar_ipos_count r <= 10)%nat
    /\ (HypeScoreResult.benchmarks_analyzed r <= 3)%nat.
Proof.
  apply analysis_result_shape.
Qed.

(** X2. The fixed fallback result is returned exactly when one of the
    three return pools (first day, first week, first month) is empty: then
    the result is the fallback, and otherwise it is a composed result,
    which carries a weight allocation. *)
Theorem fallback_exactly_when_a_pool_is_empty (stdev : list Q -> Q)
  (text : list HistoricalBenchmark.t -> SearchAnalysis.t -> SentimentAnalysis.t ->
          PerformancePredictions.t -> list SimilarityMatch.t -> string)
  (now : string) (pool : option Store.t) (current_ipo_data : CurrentIpo.t) :
  let pools :=
    return_pools pool (_find_similar_historical_ipos pool current_ipo_data) in
  let first_day_returns := fst (fst pools) in
  let first_week_returns := snd (fst pools) in
  let first_month_returns := snd pools in
  (first_day_returns = [] \/ first_week_returns = [] \/ first_month_returns = [] ->
   analyze_ipo_hype_score stdev text now pool current_ipo_data
   = _get_fallback_hype_score now current_ipo_data)
  /\ (first_day_returns <> [] -> first_week_returns <> [] ->
      first_month_returns <> [] ->
      exists r w,
        analyze_ipo_hype_score stdev text now pool current_ipo_data = Ok r
        /\ HypeScoreResult.weight_allocation r = Some w).
Proof.
  intros pools d w m. split.
  - intro H. unfold analyze_ipo_hype_score, analysis_steps. cbv zeta.
    rewrite (predict_raises stdev pool current_ipo_data _ H). reflexivity.
  - intros Hd Hw Hm. unfold analyze_ipo_hype_score, analysis_steps. cbv zeta.
    destruct (predict_returns stdev pool current_ipo_data _ Hd Hw Hm) as [pp ->].
    simpl bind.
    match goal with
    | |- context [_generate_data_backed_hype_score ?t ?n ?c ?s ?b ?sa ?se pp] =>
      destruct (generated_result_shape t n c s b sa se pp)
        as (r & -> & _ & [wa Hw'] & _)
    end.
    exists r, wa. split; [reflexivity | exact Hw'].
Qed.

Lemma fallback_exactly_when_a_pool_is_empty_witness :
  analyze_ipo_hype_score Sample.stdev Sample.text Sample.now
    (Some Fixture.first_day_only) Sample.acme
  = _get_fallback_hype_score Sample.now Sample.acme
  /\ exists r w,
       analyze_ipo_hype_score Sample.stdev Sample.text Sample.now
         (Some Sample.store) Sample.acme = Ok r
       /\ HypeScoreResult.weight_allocation r = Some w.
Proof.
  split.
  - apply (fallback_exactly_when_a_pool_is_empty Sample.stdev Sample.text
             Sample.now (Some Fixture.first_day_only) Sample.acme).
    right. left. reflexivity.
  - apply (fallback_exactly_when_a_pool_is_empty Sample.stdev Sample.text
             Sample.now (Some Sample.store) Sample.acme); discriminate.
Defined.

(** ** Medians *)

Lemma insert_perm (x : Q) (l : list Q) :
  Permutation (Statistics.insert x l) (x :: l).
Proof.
  induction l as [|y t IH]; simpl; [reflexivity|].
  destruct (Qle_bool x y); [reflexivity|].
  rewrite IH. apply perm_swap.
Qed.

Lemma sorted_perm (l : list Q) : Permutation (Statistics.sorted l) l.
Proof.
  induction l as [|x t IH]; simpl; [reflexivity|].
  rewrite insert_perm. constructor. exact IH.
Qed.

Lemma insert_sorted (x : Q) (l : list Q) :
  StronglySorted Qle l -> StronglySorted Qle (Statistics.insert x l).
Proof.
  induction 1 as [|y t Hs IH Hall]; simpl.
  - constructor; constructor.
  - destruct (Qle_bool x y) eqn:E.
    + apply Qle_bool_iff in E. constructor.
      * constructor; assumption.
      * constructor; [exact E|].
        eapply Forall_impl; [|exact Hall]. intros z Hz. simpl in Hz. lra.
    + assert (L : y <= x).
      { destruct (Qlt_le_dec y x) as [L | L]; [lra|].
        apply Qle_bool_iff in L. congruence. }
      constructor; [exact IH|].
      apply (Permutation_Forall (Permutation_sym (insert_perm x t))).
      constructor; [exact L | exact Hall].
Qed.

Lemma sorted_sorted (l : list Q) : StronglySorted Qle (Statistics.sorted l).
Proof.
  induction l as [|x t IH]; simpl; [constructor|].
  apply insert_sorted. exact IH.
Qed.

(** In an ascending list, fewer than [k + 1] values lie strictly below a
    value not above the one at index [k]. *)
Lemma count_below_nth (s : list Q) :
  StronglySorted Qle s ->
  forall (k : nat) (v : Q),
    (k < length s)%nat -> v <= nth k s 0 ->
    (length (filter (fun x => Py.ltb x v) s) <= k)%nat.
Proof.
  induction 1 as [|a t Hs IH Hall]; intros k v Hk Hv; simpl in *; [lia|].
  destruct k as [|k].
  - assert (N : Py.ltb a v = false) by (apply ltb_ge; exact Hv).
    rewrite N. rewrite count_none; [simpl; lia|].
    intros y Hy. apply ltb_ge.
    rewrite Forall_forall in Hall. specialize (Hall y Hy). simpl in Hall. lra.
  - assert (Hk' : (k < length t)%nat) by lia.
    specialize (IH k v Hk' Hv).
    destruct (Py.ltb a v); simpl; lia.
Qed.

Lemma nth_sorted_le (s : list Q) :
  StronglySorted Qle s ->
  forall i j : nat, (i <= j)%nat -> (j < length s)%nat ->
    nth i s 0 <= nth j s 0.
Proof.
  induction 1 as [|a t Hs IH Hall]; intros i j Hij Hj; simpl in *; [lia|].
  destruct i as [|i], j as [|j]; try lia.
  - lra.
  - rewrite Forall_forall in Hall. apply Hall. apply nth_In. lia.
  - apply IH; lia.
Qed.

Lemma nth_within (a b : Q) (s : list Q) (k : nat) :
  (forall x, In x s -> a <= x <= b) -> (k < length s)%nat ->
  a <= nth k s 0 <= b.
Proof. intros H Hk. apply H. apply nth_In. exact Hk. Qed.

(** The median of non-empty data: it is not above the sorted value at
    index [n / 2], and it lies within any bounds of the data. *)
Lemma median_facts (data : list Q) :
  data <> [] ->
  exists m,
    Statistics.median data = Ok m
    /\ m <= nth (length data / 2) (Statistics.sorted data) 0
    /\ forall a b, (forall x, In x data -> a <= x <= b) -> a <= m <= b.
Proof.
  intro NE.
  pose proof (sorted_length data) as L.
  pose proof (sorted_sorted data) as Srt.
  assert (P : forall a b, (forall x, In x data -> a <= x <= b) ->
                          forall x, In x (Statistics.sorted data) -> a <= x <= b).
  { intros a b H x Hx. apply H.
    apply (Permutation_in _ (sorted_perm data)). exact Hx. }
  assert (Hn : (0 < length data)%nat).
  { destruct data; [congruence | simpl; lia]. }
  unfold Statistics.median. rewrite L.
  destruct (length data) as [|n'] eqn:En; [lia|].
  set (n := S n') in *.
  assert (Hhalf : (n / 2 < n)%nat) by (apply Nat.div_lt; lia).
  destruct (Nat.odd n) eqn:Eo.
  - eexists. split; [reflexivity|]. split; [lra|].
    intros a b H. apply nth_within; [apply P; exact H | lia].
  - assert (Hge : (2 <= n)%nat).
    { destruct n' as [|n'']; [discriminate Eo | unfold n; lia]. }
    assert (Hpos : (1 <= n / 2)%nat).
    { apply Nat.div_le_lower_bound; lia. }
    assert (Hle : nth (n / 2 - 1) (Statistics.sorted data) 0
                  <= nth (n / 2) (Statistics.sorted data) 0).
    { apply nth_sorted_le; [exact Srt | lia | lia]. }
    eexists. split; [reflexivity|]. split.
    + apply Qle_shift_div_r; [reflexivity|]. lra.
    + intros a b H.
      pose proof (nth_within a b _ (n / 2 - 1) (P a b H) ltac:(lia)) as B1.
      pose proof (nth_within a b _ (n / 2) (P a b H) ltac:(lia)) as B2.
      split.
      * apply Qle_shift_div_l; [reflexivity|]. lra.
      * apply Qle_shift_div_r; [reflexivity|]. lra.
Qed.

(** The safe median of non-empty values; the same two facts. *)
Lemma safe_median_facts (values : list Q) (default : Q) :
  values <> [] ->
  _safe_median values default
    <= nth (length values / 2) (Statistics.sorted values) 0
  /\ forall a b, (forall x, In x values -> a <= x <= b) ->
                 a <= _safe_median values default <= b.
Proof.
  intro NE. destruct values as [|v [|v' t]]; [congruence| |].
  - simpl. split; [lra|]. intros a b H. apply H. left. reflexivity.
  - destruct (median_facts (v :: v' :: t) NE) as (m & Hm & H1 & H2).
    unfold _safe_median. rewrite Hm. split; assumption.
Qed.

Lemma half_ratio (c n : nat) :
  (0 < n)%nat -> (c <= n / 2)%nat ->
  inject_Z (Z.of_nat c) / inject_Z (Z.of_nat n) * 100 <= 50.
Proof.
  intros Hn Hc.
  assert (H2 : (2 * c <= n)%nat).
  { pose proof (Nat.Div0.mul_div_le n 2). lia. }
  assert (Hn' : 0 < inject_Z (Z.of_nat n)).
  { replace 0 with (inject_Z 0) by reflexivity. rewrite <- Zlt_Qlt. lia. }
  assert (Hq : 2 * inject_Z (Z.of_nat c) <= inject_Z (Z.of_nat n)).
  { replace 2 with (inject_Z 2) by reflexivity.
    rewrite <- inject_Z_mult, <- Zle_Qle. lia. }
  assert (B : inject_Z (Z.of_nat c) / inject_Z (Z.of_nat n) <= 1 # 2).
  { apply Qle_shift_div_r; [exact Hn'|]. lra. }
  lra.
Qed.

Lemma safe_median_rank (values : list Q) (default : Q) :
  values <> [] ->
  _calculate_percentile_rank (_safe_median values default) values <= 50.
Proof.
  intro NE.
  assert (Hn : (0 < length values)%nat).
  { destruct values; [congruence | simpl; lia]. }
  rewrite percentile_rank_nonempty by exact NE.
  apply half_ratio; [exact Hn|].
  rewrite <- (sorted_count _ values).
  apply count_below_nth.
  - apply sorted_sorted.
  - rewrite sorted_length. apply Nat.div_lt; lia.
  - apply safe_median_facts. exact NE.
Qed.

(** X6. The percentile rank of the safe median of a non-empty pool,
    taken against that same pool, never exceeds 50: at most half of the
    values lie strictly below the median. *)
Theorem median_rank_at_most_half (values : list Q) (default : Q) :
  values <> [] ->
  0 <= _calculate_percentile_rank (_safe_median values default) values
  /\ _calculate_percentile_rank (_safe_median values default) values <= 50.
Proof.
  intro NE. split; [apply percentile_rank_range | apply safe_median_rank, NE].
Qed.

Lemma median_rank_at_most_half_witness :
  _calculate_percentile_rank (_safe_median [3; 1; 2; 2] 55.0) [3; 1; 2; 2] <= 50.
Proof.
  apply (median_rank_at_most_half [3; 1; 2; 2] 55.0). discriminate.
Defined.

(** X8. The safe median of non-empty values lies within any bounds that
    hold for all the values, and the safe median of no values is the
    default. *)
Theorem safe_median_within_bounds (values : list Q) (default a b : Q) :
  values <> [] -> (forall x, In x values -> a <= x <= b) ->
  a <= _safe_median values default <= b
  /\ _safe_median [] default = default.
Proof.
  intros NE H. split; [|reflexivity].
  apply (safe_median_facts values default NE). exact H.
Qed.

Lemma safe_median_within_bounds_witness :
  1 <= _safe_median [3; 1; 2; 2] 55.0 <= 3.
Proof.
  assert (H : forall x, In x [3; 1; 2; 2] -> 1 <= x <= 3).
  { intros x [<- | [<- | [<- | [<- | []]]]]; split; unfold Qle; simpl; lia. }
  apply (safe_median_within_bounds [3; 1; 2; 2] 55.0 1 3 ltac:(discriminate) H).
Defined.

(** ** Sub-scores under fallback *)

Lemma sentiment_multiplier_bounds (e : Q) :
  0 < sentiment_strength_multiplier (sentiment_strength_of e) <= 1.2.
Proof.
  unfold sentiment_strength_of, sentiment_strength_multiplier.
  destruct (Py.gtb e 0.2); [cbn [String.eqb Ascii.eqb Bool.eqb]; lra|].
  destruct (Py.gtb e 0.1); [cbn [String.eqb Ascii.eqb Bool.eqb]; lra|].
  destruct (Py.gtb e 0.02); [cbn [String.eqb Ascii.eqb Bool.eqb]; lra|].
  destruct (Py.ltb e (-0.05)); cbn [String.eqb Ascii.eqb Bool.eqb]; lra.
Qed.

(** A clamped product with factors in known ranges. *)
Lemma shaped_score_cap (lo floor p m c cap : Q) :
  0 <= p <= 50 -> 0 < m <= 1.2 -> 0 <= c <= 1 ->
  lo <= floor -> floor <= cap -> 60 * (0.6 + 0.4 * c) <= cap ->
  lo <= Py.max floor
          (Py.min 100 (Py.min 100 (p * m)
                       * (0.6 + 0.4 * Py.max 0.0 (Py.min 1.0 c))))
     <= cap.
Proof.
  intros [Hp0 Hp1] [Hm0 Hm1] [Hc0 Hc1] Hlo Hf Hcap.
  assert (Ec : Py.max 0.0 (Py.min 1.0 c) == c).
  { split_min 1.0 c; [split_max 0.0 c | split_max 0.0 1.0]; lra. }
  set (c' := Py.max 0.0 (Py.min 1.0 c)) in *.
  assert (Hpm : 0 <= p * m <= 60) by (split; nra).
  set (b := Py.min 100 (p * m)).
  assert (Hb : 0 <= b <= 60) by (unfold b; split_min 100 (p * m); lra).
  assert (Hs : 0 <= b * (0.6 + 0.4 * c') <= cap) by (split; nra).
  split.
  - match goal with |- _ <= Py.max ?x ?y => pose proof (max_lower_l x y) end. lra.
  - split_min 100 (b * (0.6 + 0.4 * c'));
      match goal with |- Py.max ?x ?y <= _ => split_max x y end; lra.
Qed.

(** The trend analysis when it falls back: its percentile is the rank of
    the median of a non-empty pool in that pool. *)
Lemma trend_analysis_under_fallback (stdev : list Q -> Q) (pool : option Store.t)
  (current_ipo : CurrentIpo.t) (similar_ipos : list SimilarityMatch.t) :
  let sa := _analyze_search_trends_historically stdev pool current_ipo similar_ipos in
  SearchAnalysis.used_historical_fallback sa = true ->
  exists (s : list Q) (p : Q),
    s <> []
    /\ SearchAnalysis.effective_percentile sa
       = _calculate_percentile_rank (_safe_median s 55.0) s
    /\ SearchAnalysis.trend_strength sa = fst (trend_strength_of p)
    /\ SearchAnalysis.data_confidence sa = 0.75.
Proof.
  unfold _analyze_search_trends_historically. cbv zeta.
  destruct (fetch_pools pool Store.trend_scores Store.trend_scores_of similar_ipos)
    as [h0 s0].
  pose proof (peer_pool_nonempty h0 s0 [50.0] ltac:(discriminate)) as NE.
  set (h := or_default h0 [50.0]) in *.
  set (s := or_default s0 h) in *.
  match goal with
  | |- context [trend_fallback ?l ?e ?c ?r ?a h s] =>
    destruct (trend_fallback_cases l e c r a h s NE) as [[T _] | T]; rewrite T
  end.
  - destruct (trend_strength_of _) as [ts ti]. simpl. discriminate.
  - destruct (trend_strength_of _) as [ts ti] eqn:E.
    cbn [SearchAnalysis.used_historical_fallback
         SearchAnalysis.effective_percentile SearchAnalysis.trend_strength
         SearchAnalysis.data_confidence].
    intros _. exists s. eexists. split; [exact NE|].
    split; [reflexivity|]. split; [rewrite E; reflexivity | reflexivity].
Qed.

(** The same for the sentiment analysis. *)
Lemma sentiment_analysis_under_fallback (pool : option Store.t)
  (current_ipo : CurrentIpo.t) (similar_ipos : list SimilarityMatch.t) :
  let se := _analyze_sentiment_historically pool current_ipo similar_ipos in
  SentimentAnalysis.used_historical_fallback se = true ->
  exists (s : list Q) (e : Q),
    s <> []
    /\ SentimentAnalysis.effective_percentile se
       = _calculate_percentile_rank (_safe_median s 0.05) s
    /\ SentimentAnalysis.sentiment_strength se = sentiment_strength_of e
    /\ SentimentAnalysis.data_confidence se = 0.7.
Proof.
  unfold _analyze_sentiment_historically. cbv zeta.
  destruct (fetch_pools pool Store.sentiment_scores Store.sentiment_scores_of
              similar_ipos) as [h0 s0].
  pose proof (peer_pool_nonempty h0 s0 [0.0] ltac:(discriminate)) as NE.
  set (h := or_default h0 [0.0]) in *.
  set (s := or_default s0 h) in *.
  match goal with
  | |- context [sentiment_fallback ?l ?e ?c ?n h s] =>
    destruct (sentiment_fallback_cases l e c n h s NE) as [[T _] | T]; rewrite T
  end.
  - simpl. discriminate.
  - cbn [SentimentAnalysis.used_historical_fallback
         SentimentAnalysis.effective_percentile
         SentimentAnalysis.sentiment_strength
         SentimentAnalysis.data_confidence].
    intros _. exists s. eexists. split; [exact NE|].
    split; [reflexivity|]. split; reflexivity.
Qed.

(** X7. Whenever the trend analysis falls back, its effective percentile
    is at most 50 and the trend sub-score lies in [35, 54]; whenever the
    sentiment analysis falls back, its effective percentile is at most 50
    and the sentiment sub-score lies in [30, 52.8]. *)
Theorem fallback_caps_sub_scores (stdev : list Q -> Q) (pool : option Store.t)
  (current_ipo : CurrentIpo.t) (similar_ipos : list SimilarityMatch.t) :
  let sa := _analyze_search_trends_historically stdev pool current_ipo similar_ipos in
  let se := _analyze_sentiment_historically pool current_ipo similar_ipos in
  (SearchAnalysis.used_historical_fallback sa = true ->
   SearchAnalysis.effective_percentile sa <= 50
   /\ 35 <= _calculate_trend_score sa <= 54)
  /\ (SentimentAnalysis.used_historical_fallback se = true ->
      SentimentAnalysis.effective_percentile se <= 50
      /\ 30 <= _calculate_sentiment_score se <= 52.8).
Proof.
  intros sa se. split.
  - intro U.
    destruct (trend_analysis_under_fallback stdev pool current_ipo similar_ipos U)
      as (s & p & NE & Hp & Hs & Hc).
    fold sa in Hp, Hs, Hc.
    pose proof (safe_median_rank s 55.0 NE) as R.
    pose proof (percentile_rank_range (_safe_median s 55.0) s) as R0.
    rewrite <- Hp in R, R0. split; [exact R|].
    pose proof (trend_multiplier_cases p) as M. cbv zeta in M.
    rewrite <- Hs in M.
    unfold _calculate_trend_score. cbv zeta. rewrite Hc.
    apply shaped_score_cap; lra.
  - intro U.
    destruct (sentiment_analysis_under_fallback pool current_ipo similar_ipos U)
      as (s & e & NE & Hp & Hs & Hc).
    fold se in Hp, Hs, Hc.
    pose proof (safe_median_rank s 0.05 NE) as R.
    pose proof (percentile_rank_range (_safe_median s 0.05) s) as R0.
    rewrite <- Hp in R, R0. split; [exact R|].
    pose proof (sentiment_multiplier_bounds e) as M. rewrite <- Hs in M.
    unfold _calculate_sentiment_score. cbv zeta. rewrite Hc.
    apply shaped_score_cap; lra.
Qed.

Lemma fallback_caps_sub_scores_witness :
  _calculate_trend_score
    (_analyze_search_trends_historically Sample.stdev (Some Sample.store)
       Sample.blank []) <= 54
  /\ _calculate_sentiment_score
       (_analyze_sentiment_historically (Some Sample.store) Sample.blank [])
     <= 52.8.
Proof.
  destruct (fallback_caps_sub_scores Sample.stdev (Some Sample.store)
              Sample.blank []) as [T S].
  split; [apply (T eq_refl) | apply (S eq_refl)].
Defined.

(** ** Ranges of the sub-scores *)

Lemma len_cons {A} (x : A) (l : list A) : Py.len (x :: l) == Py.len l + 1.
Proof.
  unfold Py.len. simpl length. rewrite Nat2Z.inj_succ, <- Z.add_1_r.
  rewrite inject_Z_plus. reflexivity.
Qed.

Lemma len_nonneg {A} (l : list A) : 0 <= Py.len l.
Proof.
  unfold Py.len. replace 0 with (inject_Z 0) by reflexivity.
  rewrite <- Zle_Qle. lia.
Qed.

Lemma fold_sum_bounds (a b : Q) (l : list Q) :
  (forall x, In x l -> a <= x <= b) ->
  forall acc,
    acc + Py.len l * a <= fold_left Qplus l acc <= acc + Py.len l * b.
Proof.
  induction l as [|x t IH]; intros H acc.
  - simpl fold_left. change (Py.len (@nil Q)) with 0. split; lra.
  - simpl fold_left.
    assert (Ht : forall y, In y t -> a <= y <= b) by (intros; apply H; right; auto).
    specialize (IH Ht (acc + x)).
    pose proof (H x (or_introl eq_refl)) as Hx.
    pose proof (len_cons x t) as L. rewrite L. split; lra.
Qed.

(** The mean of non-empty data lies within any bounds of the data. *)
Lemma mean_bounds (a b : Q) (l : list Q) :
  l <> [] -> (forall x, In x l -> a <= x <= b) ->
  exists m, Statistics.mean l = Ok m /\ a <= m <= b.
Proof.
  intros NE H. destruct l as [|x t]; [congruence|].
  unfold Statistics.mean. eexists. split; [reflexivity|].
  pose proof (fold_sum_bounds a b (x :: t) H 0) as S.
  fold (Py.sum (x :: t)) in S.
  assert (P : 0 < Py.len (x :: t)).
  { rewrite len_cons. pose proof (len_nonneg t). lra. }
  split.
  - apply Qle_shift_div_l; [exact P|]. lra.
  - apply Qle_shift_div_r; [exact P|]. lra.
Qed.

Lemma make_benchmark_percentiles (stdev : list Q -> Q) (metric_name : string)
  (current_value : Q) (historical similar : list Q) (b : HistoricalBenchmark.t) :
  make_benchmark stdev metric_name current_value historical similar = Ok b ->
  percentiles_in_range b.
Proof.
  unfold make_benchmark.
  destruct (if_any Statistics.median historical); [|discriminate].
  destruct (if_any Statistics.mean historical); [|discriminate].
  destruct (if_any Statistics.median similar); [|discriminate].
  destruct (if_any Statistics.mean similar); [|discriminate].
  simpl. intro E. injection E as <-.
  split; simpl; apply percentile_rank_range.
Qed.

Lemma benchmarks_percentiles (stdev : list Q -> Q) (pool : option Store.t)
  (current_ipo : CurrentIpo.t) (similar_ipos : list SimilarityMatch.t) :
  Forall percentiles_in_range
    (_calculate_historical_benchmarks stdev pool current_ipo similar_ipos).
Proof.
  unfold _calculate_historical_benchmarks, market_cap_benchmark.
  destruct pool as [conn|]; [|constructor].
  destruct (Store.revenue_growth_rates conn); [|constructor].
  destruct (make_benchmark _ _ _ _ _) as [b1|] eqn:E1; [|constructor].
  apply make_benchmark_percentiles in E1.
  destruct (Store.gross_margins conn); [|repeat (apply Forall_cons; [assumption|]); apply Forall_nil].
  destruct (make_benchmark _ "Gross Margin" _ _ _) as [b2|] eqn:E2;
    [|repeat (apply Forall_cons; [assumption|]); apply Forall_nil].
  apply make_benchmark_percentiles in E2.
  destruct (Store.market_caps conn); [|repeat (apply Forall_cons; [assumption|]); apply Forall_nil].
  destruct (make_benchmark _ "Market Cap" _ _ _) as [b3|] eqn:E3;
    [|repeat (apply Forall_cons; [assumption|]); apply Forall_nil].
  apply make_benchmark_percentiles in E3.
  repeat (apply Forall_cons; [assumption|]); apply Forall_nil.
Qed.

Lemma financial_score_range (benchmarks : list HistoricalBenchmark.t) :
  Forall percentiles_in_range benchmarks ->
  exists s, _calculate_financial_score benchmarks = Ok s /\ 0 <= s <= 100.
Proof.
  intro H. destruct benchmarks as [|b t].
  - simpl. eexists. split; [reflexivity | lra].
  - unfold _calculate_financial_score. cbv beta iota zeta.
    apply mean_bounds.
    + discriminate.
    + intros x Hx. apply in_map_iff in Hx. destruct Hx as (bm & <- & Hb).
      rewrite Forall_forall in H. destruct (H bm Hb) as [[A1 A2] [B1 B2]].
      split; lra.
Qed.

(** X9. Whatever the database answers, the benchmark calculator returns
    at most three benchmarks, each with both percentiles in [0, 100], and
    the financial sub-score computed from them is returned and lies in
    [0, 100]; without a connection there is no benchmark and the
    sub-score is 50. *)
Theorem financial_score_in_range (stdev : list Q -> Q) (pool : option Store.t)
  (current_ipo : CurrentIpo.t) (similar_ipos : list SimilarityMatch.t) :
  let benchmarks :=
    _calculate_historical_benchmarks stdev pool current_ipo similar_ipos in
  (length benchmarks <= 3)%nat
  /\ Forall percentiles_in_range benchmarks
  /\ (exists s, _calculate_financial_score benchmarks = Ok s /\ 0 <= s <= 100)
  /\ _calculate_financial_score
       (_calculate_historical_benchmarks stdev None current_ipo similar_ipos)
     = Ok 50.0.
Proof.
  intro benchmarks.
  split; [apply benchmarks_length|].
  split; [apply benchmarks_percentiles|].
  split; [apply financial_score_range, benchmarks_percentiles | reflexivity].
Qed.

Lemma similarity_score_range (similar_ipos : list SimilarityMatch.t) :
  Forall (fun m => 0.30 <= SimilarityMatch.similarity_score m <= 1) similar_ipos ->
  exists s,
    _calculate_similarity_score similar_ipos = Ok s
    /\ ((similar_ipos = [] /\ s = 30.0)
        \/ (similar_ipos <> [] /\ 35 <= s <= 100)).
Proof.
  intro H. destruct similar_ipos as [|m t].
  - simpl. eexists. split; [reflexivity|]. left. split; reflexivity.
  - unfold _calculate_similarity_score. cbv beta iota zeta.
    destruct (mean_bounds 0.3 1
                (map SimilarityMatch.similarity_score (m :: t))) as (avg & -> & A).
    + discriminate.
    + intros x Hx. apply in_map_iff in Hx. destruct Hx as (y & <- & Hy).
      rewrite Forall_forall in H. specialize (H y Hy). simpl in H. lra.
    + simpl bind. eexists. split; [reflexivity|]. right.
      split; [discriminate|].
      assert (L : 1 <= Py.len (m :: t)).
      { rewrite len_cons. pose proof (len_nonneg t). lra. }
      set (n := Py.len (m :: t)) in *.
      split_min 20 (n * 5);
        match goal with |- _ <= Py.min ?x ?y <= _ => split_min x y end; lra.
Qed.

(** X10. The similarity sub-score of the matches the matcher returns is
    30 when there is no match and lies in [35, 100] otherwise; every
    returned match has a score in [0.30, 1]. *)
Theorem similarity_score_in_range (pool : option Store.t)
  (current_ipo : CurrentIpo.t) :
  let similar_ipos := _find_similar_historical_ipos pool current_ipo in
  Forall (fun m => 0.30 <= SimilarityMatch.similarity_score m <= 1) similar_ipos
  /\ exists s,
       _calculate_similarity_score similar_ipos = Ok s
       /\ ((similar_ipos = [] /\ s = 30.0)
           \/ (similar_ipos <> [] /\ 35 <= s <= 100)).
Proof.
  intro similar_ipos.
  assert (F : Forall (fun m => 0.30 <= SimilarityMatch.similarity_score m <= 1)
                similar_ipos).
  { unfold similar_ipos, _find_similar_historical_ipos.
    destruct pool as [conn|]; [|constructor].
    destruct (Store.candidates conn _ _) as [rows|]; [|constructor].
    apply rank_candidates_Forall. intros row _ E. simpl.
    apply geb_le in E. pose proof (score_at_most_one current_ipo row). lra. }
  split; [exact F | apply similarity_score_range, F].
Qed.

(** X11. For every prediction record the performance sub-score lies in
    [0, 100]; for every analysis record the trend sub-score lies in
    [35, 100] and the sentiment sub-score in [30, 100]. *)
Theorem dynamic_sub_scores_in_range (pp : PerformancePredictions.t)
  (sa : SearchAnalysis.t) (se : SentimentAnalysis.t) :
  0 <= _calculate_performance_score pp <= 100
  /\ 35 <= _calculate_trend_score sa <= 100
  /\ 30 <= _calculate_sentiment_score se <= 100.
Proof.
  split; [|split].
  - unfold _calculate_performance_score. cbv zeta.
    set (r := Py.max 0 (Py.min 100 _)).
    set (v := Py.max 0.0 (Py.min 0.5 _)).
    assert (Hr : 0 <= r <= 100).
    { unfold r. match goal with |- _ <= Py.max 0 (Py.min 100 ?x) <= _ =>
        pose proof (clamp_bounds 0 100 x) end. lra. }
    assert (Hv : 0 <= v <= 0.5).
    { unfold v. match goal with |- _ <= Py.max 0.0 (Py.min 0.5 ?x) <= _ =>
        pose proof (clamp_bounds 0.0 0.5 x) end. lra. }
    assert (E : v * 0.8 / 0.5 == 1.6 * v) by field.
    assert (P : 0 <= r * (1.1 - v * 0.8 / 0.5)) by (rewrite E; nra).
    split; [|apply min_upper_l].
    split_min 100 (r * (1.1 - v * 0.8 / 0.5)); lra.
  - unfold _calculate_trend_score. cbv zeta.
    match goal with |- _ <= Py.max 35.0 (Py.min 100 ?x) <= _ =>
      pose proof (clamp_bounds 35.0 100 x) end. lra.
  - unfold _calculate_sentiment_score. cbv zeta.
    match goal with |- _ <= Py.max 30.0 (Py.min 100 ?x) <= _ =>
      pose proof (clamp_bounds 30.0 100 x) end. lra.
Qed.

(** ** When the analyses fall back *)

Lemma trend_fallback_decided (live : bool) (err : option string)
  (c r a : Q) (h s : list Q) :
  s <> [] ->
  live = (Py.gtb (a + r) 0 || Py.gtb c 0)%bool \/ live = false ->
  trend_fallback live err c r a h s
  = if (negb live || Py.truthy_ostr err)%bool
    then (true, "similar"%string, _safe_median s 55.0)
    else (false, "live"%string, c).
Proof.
  intros NE Hl. unfold trend_fallback.
  destruct s as [|x t]; [congruence|].
  destruct (negb live || Py.truthy_ostr err)%bool eqn:E; [reflexivity|].
  apply orb_false_iff in E. destruct E as [E _].
  apply negb_false_iff in E. subst live.
  destruct Hl as [Hl | Hl]; [|discriminate].
  destruct (Qle_bool c 0 && Qle_bool r 0 && Qle_bool a 0)%bool eqn:F;
    [|reflexivity].
  apply andb_true_iff in F. destruct F as [F Fa].
  apply andb_true_iff in F. destruct F as [Fc Fr].
  apply Qle_bool_iff in Fa, Fc, Fr. symmetry in Hl.
  apply orb_true_iff in Hl. unfold Py.gtb in Hl.
  destruct Hl as [Hl | Hl]; apply ltb_lt in Hl; lra.
Qed.

Lemma sentiment_fallback_decided (live : bool) (err : option string)
  (c : Q) (n : Z) (h s : list Q) :
  s <> [] -> live = (0 <? n)%Z \/ live = false ->
  sentiment_fallback live err c n h s
  = if (negb live || Py.truthy_ostr err)%bool
    then (true, "similar"%string, _safe_median s 0.05)
    else (false, "live"%string, c).
Proof.
  intros NE Hl. unfold sentiment_fallback.
  destruct s as [|x t]; [congruence|].
  destruct (negb live || Py.truthy_ostr err)%bool eqn:E; [reflexivity|].
  apply orb_false_iff in E. destruct E as [E _].
  apply negb_false_iff in E. subst live.
  destruct Hl as [Hl | Hl]; [|discriminate].
  symmetry in Hl. apply Z.ltb_lt in Hl.
  destruct (n =? 0)%Z eqn:F; [apply Z.eqb_eq in F; lia | reflexivity].
Qed.

(** The decision of the trend analysis. *)
Lemma trend_analysis_decision (stdev : list Q -> Q) (pool : option Store.t)
  (current_ipo : CurrentIpo.t) (similar_ipos : list SimilarityMatch.t) :
  let sa := _analyze_search_trends_historically stdev pool current_ipo similar_ipos in
  let trend_live :=
    (CurrentIpo.trend_data_available current_ipo
     && (Py.gtb (CurrentIpo.trend_average_interest current_ipo
                 + CurrentIpo.trend_recent_interest current_ipo) 0
         || Py.gtb (CurrentIpo.trend_score current_ipo) 0))%bool in
  let trend_fell := SearchAnalysis.used_historical_fallback sa in
  trend_fell
    = (negb trend_live || Py.truthy_ostr (CurrentIpo.trend_error current_ipo))%bool
  /\ SearchAnalysis.fallback_source sa
     = (if trend_fell then "similar" else "live")%string
  /\ SearchAnalysis.data_confidence sa = (if trend_fell then 0.75 else 1.0)
  /\ (if trend_fell then True
      else SearchAnalysis.effective_trend_score sa
           = CurrentIpo.trend_score current_ipo).
Proof.
  cbv zeta.
  repeat split;
    unfold _analyze_search_trends_historically; cbv zeta;
    destruct (fetch_pools pool Store.trend_scores Store.trend_scores_of
                similar_ipos) as [h0 s0];
    (rewrite trend_fallback_decided;
      [ | apply peer_pool_nonempty; discriminate
        | destruct (CurrentIpo.trend_data_available current_ipo); auto ]);
    destruct (negb _ || Py.truthy_ostr _)%bool;
    destruct (trend_strength_of _) as [ts ti]; reflexivity.
Qed.

(** The decision of the sentiment analysis. *)
Lemma sentiment_analysis_decision (pool : option Store.t)
  (current_ipo : CurrentIpo.t) (similar_ipos : list SimilarityMatch.t) :
  let se := _analyze_sentiment_historically pool current_ipo similar_ipos in
  let news_live :=
    (CurrentIpo.news_data_available current_ipo
     && (0 <? CurrentIpo.news_total_articles current_ipo)%Z)%bool in
  let news_fell := SentimentAnalysis.used_historical_fallback se in
  news_fell
    = (negb news_live || Py.truthy_ostr (CurrentIpo.news_error current_ipo))%bool
  /\ SentimentAnalysis.fallback_source se
     = (if news_fell then "similar" else "live")%string
  /\ SentimentAnalysis.data_confidence se = (if news_fell then 0.7 else 1.0)
  /\ (if news_fell then True
      else SentimentAnalysis.effective_sentiment se
           = CurrentIpo.sentiment_score current_ipo).
Proof.
  cbv zeta.
  repeat split;
    unfold _analyze_sentiment_historically; cbv zeta;
    destruct (fetch_pools pool Store.sentiment_scores Store.sentiment_scores_of
                similar_ipos) as [h0 s0];
    (rewrite sentiment_fallback_decided;
      [ | apply peer_pool_nonempty; discriminate
        | destruct (CurrentIpo.news_data_available current_ipo); auto ]);
    destruct (negb _ || Py.truthy_ostr _)%bool; reflexivity.
Qed.

(** X13. The trend analysis falls back exactly when the live data are not
    available (flag off, or no positive interest or score) or an error is
    reported, and the sentiment analysis exactly when the news are not
    available (flag off or no article) or an error is reported; the
    branches for flat live data and for zero articles never add a case.
    With fallback the source is "similar" with confidence 0.75 (trend) or
    0.7 (sentiment); without it the source is "live", the confidence 1.0
    and the effective value the live one. *)
Theorem fallback_decision (stdev : list Q -> Q) (pool : option Store.t)
  (current_ipo : CurrentIpo.t) (similar_ipos : list SimilarityMatch.t) :
  let sa := _analyze_search_trends_historically stdev pool current_ipo similar_ipos in
  let se := _analyze_sentiment_historically pool current_ipo similar_ipos in
  let trend_live :=
    (CurrentIpo.trend_data_available current_ipo
     && (Py.gtb (CurrentIpo.trend_average_interest current_ipo
                 + CurrentIpo.trend_recent_interest current_ipo) 0
         || Py.gtb (CurrentIpo.trend_score current_ipo) 0))%bool in
  let news_live :=
    (CurrentIpo.news_data_available current_ipo
     && (0 <? CurrentIpo.news_total_articles current_ipo)%Z)%bool in
  let trend_fell := SearchAnalysis.used_historical_fallback sa in
  let news_fell := SentimentAnalysis.used_historical_fallback se in
  trend_fell
    = (negb trend_live || Py.truthy_ostr (CurrentIpo.trend_error current_ipo))%bool
  /\ SearchAnalysis.fallback_source sa
     = (if trend_fell then "similar" else "live")%string
  /\ SearchAnalysis.data_confidence sa = (if trend_fell then 0.75 else 1.0)
  /\ (if trend_fell then True
      else SearchAnalysis.effective_trend_score sa
           = CurrentIpo.trend_score current_ipo)
  /\ news_fell
     = (negb news_live || Py.truthy_ostr (CurrentIpo.news_error current_ipo))%bool
  /\ SentimentAnalysis.fallback_source se
     = (if news_fell then "similar" else "live")%string
  /\ SentimentAnalysis.data_confidence se = (if news_fell then 0.7 else 1.0)
  /\ (if news_fell then True
      else SentimentAnalysis.effective_sentiment se
           = CurrentIpo.sentiment_score current_ipo).
Proof.
  cbv zeta.
  destruct (trend_analysis_decision stdev pool current_ipo similar_ipos)
    as (A1 & A2 & A3 & A4).
  destruct (sentiment_analysis_decision pool current_ipo similar_ipos)
    as (B1 & B2 & B3 & B4).
  repeat split; assumption.
Qed.

(** X12. When no trend sample can be read (both pools empty) and the
    trend analysis falls back, the effective trend score is 50, its
    percentile 0 and the trend sub-score the floor 35; likewise, with no
    sentiment sample, the effective sentiment is 0, its percentile 0 and
    the sentiment sub-score the floor 30. *)
Theorem no_samples_score_at_floor (stdev : list Q -> Q) (pool : option Store.t)
  (current_ipo : CurrentIpo.t) (similar_ipos : list SimilarityMatch.t) :
  let sa := _analyze_search_trends_historically stdev pool current_ipo similar_ipos in
  let se := _analyze_sentiment_historically pool current_ipo similar_ipos in
  (fetch_pools pool Store.trend_scores Store.trend_scores_of similar_ipos = ([], []) ->
   SearchAnalysis.used_historical_fallback sa = true ->
   SearchAnalysis.effective_trend_score sa = 50.0
   /\ SearchAnalysis.effective_percentile sa == 0
   /\ _calculate_trend_score sa == 35)
  /\ (fetch_pools pool Store.sentiment_scores Store.sentiment_scores_of similar_ipos
      = ([], []) ->
      SentimentAnalysis.used_historical_fallback se = true ->
      SentimentAnalysis.effective_sentiment se = 0.0
      /\ SentimentAnalysis.effective_percentile se == 0
      /\ _calculate_sentiment_score se == 30).
Proof.
  cbv zeta. split.
  - unfold _analyze_search_trends_historically. cbv zeta. intros ->.
    cbn [or_default].
    match goal with
    | |- context [trend_fallback ?l ?e ?c ?r ?a ?h ?s] =>
      destruct (trend_fallback_cases l e c r a h s ltac:(discriminate))
        as [[T _] | T]; rewrite T
    end.
    + destruct (trend_strength_of _); simpl; discriminate.
    + intros _. repeat split; vm_compute; reflexivity.
  - unfold _analyze_sentiment_historically. cbv zeta. intros ->.
    cbn [or_default].
    match goal with
    | |- context [sentiment_fallback ?l ?e ?c ?n ?h ?s] =>
      destruct (sentiment_fallback_cases l e c n h s ltac:(discriminate))
        as [[T _] | T]; rewrite T
    end.
    + simpl; discriminate.
    + intros _. repeat split; vm_compute; reflexivity.
Qed.

Lemma no_samples_score_at_floor_witness :
  _calculate_trend_score
    (_analyze_search_trends_historically Sample.stdev (Some Sparse.no_samples)
       Sample.blank
       (_find_similar_historical_ipos (Some Sparse.no_samples) Sample.blank))
  == 35
  /\ _calculate_sentiment_score
       (_analyze_sentiment_historically (Some Sparse.no_samples) Sample.blank
          (_find_similar_historical_ipos (Some Sparse.no_samples) Sample.blank))
     == 30.
Proof.
  destruct (no_samples_score_at_floor Sample.stdev (Some Sparse.no_samples)
              Sample.blank
              (_find_similar_historical_ipos (Some Sparse.no_samples)
                 Sample.blank)) as [T S].
  split; [apply (T eq_refl eq_refl) | apply (S eq_refl eq_refl)].
Defined.

(** ** The record built by the caller *)

(** The trend decision on a record built by the caller. *)
Lemma built_record_trend_decision (search_data : SearchData.t)
  (news_data : NewsData.t) (stock_data : StockData.t)
  (stdev : list Q -> Q) (pool : option Store.t)
  (similar_ipos : list SimilarityMatch.t) :
  0 <= or_zero (SearchData.average_interest search_data) ->
  0 <= or_zero (SearchData.recent_interest search_data) ->
  let current_ipo := current_ipo_data_of search_data news_data stock_data in
  let sa := _analyze_search_trends_historically stdev pool current_ipo similar_ipos in
  let available := CurrentIpo.trend_data_available current_ipo in
  SearchAnalysis.used_historical_fallback sa = negb available
  /\ SearchAnalysis.fallback_source sa
     = (if available then "live" else "similar")%string
  /\ SearchAnalysis.data_confidence sa = (if available then 1.0 else 0.75)
  /\ (if available
      then SearchAnalysis.effective_trend_score sa
           = get_or (SearchData.trend_score search_data) 0
      else True).
Proof.
  intros Ha Hr current_ipo sa available.
  destruct (trend_analysis_decision stdev pool current_ipo similar_ipos)
    as (A1 & A2 & A3 & A4).
  fold sa in A1, A2, A3, A4.
  assert (E : SearchAnalysis.used_historical_fallback sa = negb available).
  { rewrite A1. unfold available, current_ipo, current_ipo_data_of.
    cbn [CurrentIpo.trend_data_available CurrentIpo.trend_average_interest
         CurrentIpo.trend_recent_interest CurrentIpo.trend_score
         CurrentIpo.trend_error].
    set (a := or_zero (SearchData.average_interest search_data)) in *.
    set (r := or_zero (SearchData.recent_interest search_data)) in *.
    destruct (Py.truthy_ostr (SearchData.error search_data));
      [rewrite !andb_false_r; reflexivity|].
    rewrite !andb_true_r, orb_false_r.
    assert (S : Py.gtb (a + r) 0 = (Py.gtb a 0 || Py.gtb r 0)%bool).
    { unfold Py.gtb. by_cases_ltb 0 a; by_cases_ltb 0 r; simpl.
      - apply ltb_lt. lra.
      - apply ltb_lt. lra.
      - apply ltb_lt. lra.
      - apply ltb_ge. lra. }
    rewrite S.
    destruct (SearchData.trend_score search_data) as [v|];
      destruct (Py.gtb a 0), (Py.gtb r 0); try destruct (Py.gtb v 0);
      reflexivity. }
  rewrite E in A2, A3, A4. split; [exact E|].
  destruct available; simpl in *; repeat split; assumption.
Qed.

(** X14. For the record [_get_historical_analysis] builds from search
    data with non-negative interests, the trend analysis uses the live
    score (source "live", confidence 1.0) exactly when the record's
    [trend_data_available] is set, and falls back (source "similar",
    confidence 0.75) otherwise. *)
Theorem built_record_trend_source (search_data : SearchData.t)
  (news_data : NewsData.t) (stock_data : StockData.t)
  (stdev : list Q -> Q) (pool : option Store.t)
  (similar_ipos : list SimilarityMatch.t) :
  0 <= or_zero (SearchData.average_interest search_data) ->
  0 <= or_zero (SearchData.recent_interest search_data) ->
  let current_ipo := current_ipo_data_of search_data news_data stock_data in
  let sa := _analyze_search_trends_historically stdev pool current_ipo similar_ipos in
  let available := CurrentIpo.trend_data_available current_ipo in
  SearchAnalysis.used_historical_fallback sa = negb available
  /\ SearchAnalysis.fallback_source sa
     = (if available then "live" else "similar")%string
  /\ SearchAnalysis.data_confidence sa = (if available then 1.0 else 0.75)
  /\ (if available
      then SearchAnalysis.effective_trend_score sa
           = get_or (SearchData.trend_score search_data) 0
      else True).
Proof.
  apply built_record_trend_decision.
Qed.

Lemma built_record_trend_source_witness :
  let search_data :=
    {| SearchData.trend_score := None;
       SearchData.average_interest := Some 12;
       SearchData.recent_interest := Some 0;
       SearchData.error := None |} in
  let news_data := NewsData.mk Missing Missing Missing None in
  let stock_data := StockData.mk None None None None None in
  SearchAnalysis.fallback_source
    (_analyze_search_trends_historically Sample.stdev None
       (current_ipo_data_of search_data news_data stock_data) [])
  = "live"%string.
Proof.
  cbv zeta.
  assert (H0 : 0 <= 12) by (unfold Qle; simpl; lia).
  assert (H1 : 0 <= 0) by (unfold Qle; simpl; lia).
  apply (built_record_trend_source
           (SearchData.mk None (Some 12) (Some 0) None)
           (NewsData.mk Missing Missing Missing None)
           (StockData.mk None None None None None)
           Sample.stdev None [] H0 H1).
Defined.

(** The sentiment decision on a record built by the caller. *)
Lemma built_record_news_decision (search_data : SearchData.t)
  (news_data : NewsData.t) (stock_data : StockData.t)
  (pool : option Store.t) (similar_ipos : list SimilarityMatch.t) :
  let current_ipo := current_ipo_data_of search_data news_data stock_data in
  let se := _analyze_sentiment_historically pool current_ipo similar_ipos in
  let available := CurrentIpo.news_data_available current_ipo in
  SentimentAnalysis.used_historical_fallback se = negb available
  /\ SentimentAnalysis.fallback_source se
     = (if available then "live" else "similar")%string
  /\ SentimentAnalysis.data_confidence se = (if available then 1.0 else 0.7)
  /\ (if available
      then SentimentAnalysis.effective_sentiment se
           = CurrentIpo.sentiment_score current_ipo
      else True).
Proof.
  intros current_ipo se available.
  destruct (sentiment_analysis_decision pool current_ipo similar_ipos)
    as (A1 & A2 & A3 & A4).
  fold se in A1, A2, A3, A4.
  assert (E : SentimentAnalysis.used_historical_fallback se = negb available).
  { rewrite A1. unfold available, current_ipo, current_ipo_data_of.
    cbn [CurrentIpo.news_data_available CurrentIpo.news_total_articles
         CurrentIpo.news_error].
    destruct (Py.truthy_ostr (NewsData.error news_data));
      [rewrite !andb_false_r; reflexivity|].
    rewrite !andb_true_r, orb_false_r.
    destruct (0 <? _)%Z; reflexivity. }
  rewrite E in A2, A3, A4. split; [exact E|].
  destruct available; simpl in *; repeat split; assumption.
Qed.

(** X15. For every record [_get_historical_analysis] builds, the article
    count read is the value of ["total_articles"] when that key is
    present (a stored null counting as 0), else that of ["totalArticles"],
    else 0.  The sentiment analysis uses the live sentiment (source
    "live", confidence 1.0, effective sentiment the sentiment score, an
    absent or null one counting as 0) exactly when that count is positive
    and no error is reported, and falls back (source "similar",
    confidence 0.7) otherwise; so with a null ["total_articles"] it falls
    back whatever ["totalArticles"] holds. *)
Theorem built_record_news_source (search_data : SearchData.t)
  (news_data : NewsData.t) (stock_data : StockData.t)
  (pool : option Store.t) (similar_ipos : list SimilarityMatch.t) :
  let current_ipo := current_ipo_data_of search_data news_data stock_data in
  let se := _analyze_sentiment_historically pool current_ipo similar_ipos in
  let count :=
    match NewsData.total_articles news_data with
    | Held n => n
    | Null => 0%Z
    | Missing =>
      match NewsData.totalArticles news_data with
      | Held n => n
      | Null => 0%Z
      | Missing => 0%Z
      end
    end in
  let live :=
    ((0 <? count)%Z && negb (Py.truthy_ostr (NewsData.error news_data)))%bool in
  CurrentIpo.news_data_available current_ipo = live
  /\ SentimentAnalysis.used_historical_fallback se = negb live
  /\ SentimentAnalysis.fallback_source se
     = (if live then "live" else "similar")%string
  /\ SentimentAnalysis.data_confidence se = (if live then 1.0 else 0.7)
  /\ (if live
      then SentimentAnalysis.effective_sentiment se
           = match NewsData.sentiment_score news_data with
             | Held v => v
             | Null => 0
             | Missing => 0
             end
      else True)
  /\ match NewsData.total_articles news_data with
     | Null => live = false
     | Missing => True
     | Held _ => True
     end.
Proof.
  intros current_ipo se count live.
  assert (A : CurrentIpo.news_data_available current_ipo = live).
  { unfold live, count, current_ipo, current_ipo_data_of.
    cbn [CurrentIpo.news_data_available].
    destruct (NewsData.total_articles news_data) as [| |n];
      [destruct (NewsData.totalArticles news_data) as [| |m]| |]; reflexivity. }
  destruct (built_record_news_decision search_data news_data stock_data pool
              similar_ipos) as (D1 & D2 & D3 & D4).
  fold current_ipo in D1, D2, D3, D4. fold se in D1, D2, D3, D4.
  rewrite A in D1, D2, D3, D4.
  split; [exact A|]. split; [exact D1|]. split; [exact D2|]. split; [exact D3|].
  split.
  - destruct live; [|exact I]. rewrite D4.
    unfold current_ipo, current_ipo_data_of. cbn [CurrentIpo.sentiment_score].
    destruct (NewsData.sentiment_score news_data); reflexivity.
  - unfold live, count.
    destruct (NewsData.total_articles news_data); try exact I. reflexivity.
Qed.

(** ** The model-refined score *)

Lemma ai_score_range (data : PromptData.t) (reply : score_reply)
  (h : HypeScoreResult.t) :
  0 <= HypeScoreResult.hype_score h <= 100 ->
  match _calculate_hype_score_with_ai data reply h with
  | Done hype_score => 0 <= hype_score <= 100
  | Raised _ => True
  end.
Proof.
  intro H. unfold _calculate_hype_score_with_ai.
  assert (C : forall x, inject_Z 0 <= Py.max 0 (Py.min 100 x) <= inject_Z 100).
  { intro x. pose proof (clamp_bounds 0 100 x ltac:(lra)) as B.
    change (inject_Z 0) with 0. change (inject_Z 100) with 100. exact B. }
  destruct (_build_hype_score_calculation_prompt data); [|exact I].
  destruct reply as [|[[x|]|]]; simpl; try exact H;
    apply (round_range 0 100); apply C.
Qed.

Lemma score_prompt_raises (data : PromptData.t) :
  raised (_build_hype_score_calculation_prompt data)
  = existsb (fun x => negb (formats x)) (formatted_values data).
Proof.
  unfold _build_hype_score_calculation_prompt, _format_news_sentiment_data,
    _format_financial_data, formatted_values.
  destruct data as [s c v m r g n gm om f cb ev so cal].
  cbn [PromptData.sentiment_score PromptData.change_percent PromptData.volume
       PromptData.market_cap PromptData.revenue PromptData.revenue_growth_yoy
       PromptData.net_income PromptData.gross_margin PromptData.operating_margin
       PromptData.free_cash_flow PromptData.cash_burn PromptData.enterprise_value
       PromptData.shares_outstanding PromptData.ipo_calendar_data].
  destruct cal as [[[lo hi] sh]|]; cbn [app existsb];
    destruct (formats s), (formats c), (formats v), (formats m), (formats r),
      (formats g), (formats n), (formats gm), (formats om), (formats f),
      (formats cb), (formats ev), (formats so);
    try destruct (formats lo); try destruct (formats hi);
    try destruct (formats sh); reflexivity.
Qed.

Lemma analysis_prompt_follows (data : PromptData.t) :
  raised (_build_hype_score_calculation_prompt data) = false ->
  raised (_build_analysis_generation_prompt data) = false.
Proof.
  unfold _build_hype_score_calculation_prompt, _build_analysis_generation_prompt,
    _format_news_sentiment_data, _format_financial_data.
  destruct (formats (PromptData.sentiment_score data)),
    (formats (PromptData.change_percent data)),
    (formats (PromptData.volume data)),
    (formats (PromptData.market_cap data)),
    (formats (PromptData.revenue data)),
    (formats (PromptData.revenue_growth_yoy data)),
    (formats (PromptData.net_income data)),
    (formats (PromptData.gross_margin data)),
    (formats (PromptData.operating_margin data)),
    (formats (PromptData.free_cash_flow data)),
    (formats (PromptData.cash_burn data)),
    (formats (PromptData.enterprise_value data)),
    (formats (PromptData.shares_outstanding data));
    cbn [andb raised]; intro H; try reflexivity; discriminate H.
Qed.



(** ** Merging articles *)

Lemma seen_false (k : string) (s : list string) : seen k s = false <-> ~ In k s.
Proof.
  unfold seen. split.
  - intros H Hin. assert (E : existsb (String.eqb k) s = true).
    { apply existsb_exists. exists k. split; [exact Hin | apply String.eqb_refl]. }
    congruence.
  - intro H. destruct (existsb (String.eqb k) s) eqn:E; [|reflexivity].
    apply existsb_exists in E. destruct E as (x & Hx & Ex).
    apply String.eqb_eq in Ex. subst x. contradiction.
Qed.

(** The loop and its recursive reading agree. *)
Lemma merge_fold (strip lower : string -> string) (l merged : list Article.t)
  (seen_urls : list string) :
  fst (fold_left (merge_step strip lower) l (merged, seen_urls))
  = merged ++ keep_first (article_key strip lower) seen_urls l.
Proof.
  revert merged seen_urls. induction l as [|a rest IH]; intros merged seen_urls.
  - simpl. rewrite app_nil_r. reflexivity.
  - simpl fold_left. simpl keep_first.
    remember (merge_step strip lower (merged, seen_urls) a) as st eqn:Est.
    unfold merge_step in Est.
    destruct (Py.truthy_str (article_key strip lower a)
              && seen (article_key strip lower a) seen_urls)%bool; subst st.
    + apply IH.
    + rewrite IH, <- app_assoc. reflexivity.
Qed.

Lemma merge_as_keep_first (strip lower : string -> string)
  (primary secondary : list Article.t) :
  _merge_articles strip lower primary secondary
  = keep_first (article_key strip lower) [] (primary ++ secondary).
Proof.
  unfold _merge_articles. rewrite <- fold_left_app. apply merge_fold.
Qed.

Section KeepFirst.

Variable key : Article.t -> string.

Lemma keep_first_fresh (l : list Article.t) :
  forall s,
    Forall (fun k => ~ In k s) (url_keys key (keep_first key s l))
    /\ NoDup (url_keys key (keep_first key s l)).
Proof.
  unfold url_keys.
  induction l as [|a rest IH]; intro s; simpl; [split; constructor|].
  destruct (Py.truthy_str (key a)) eqn:T; simpl andb.
  - destruct (seen (key a) s) eqn:S; [apply IH|].
    simpl. rewrite T.
    destruct (IH (key a :: s)) as [F N].
    apply seen_false in S. split.
    + constructor; [exact S|].
      eapply Forall_impl; [|exact F]. intros k Hk Hin. apply Hk. right. exact Hin.
    + constructor; [|exact N].
      intro Hin. rewrite Forall_forall in F. apply (F _ Hin). left. reflexivity.
  - simpl. rewrite T. apply IH.
Qed.

Lemma keep_first_covers (l : list Article.t) :
  forall s k, In k (url_keys key l) ->
              In k s \/ In k (url_keys key (keep_first key s l)).
Proof.
  unfold url_keys.
  induction l as [|a rest IH]; intros s k Hk; simpl in *; [contradiction|].
  destruct (Py.truthy_str (key a)) eqn:T; simpl andb.
  - simpl in Hk. destruct (seen (key a) s) eqn:S.
    + destruct Hk as [<- | Hk]; [|apply IH; exact Hk].
      left. destruct (in_dec string_dec (key a) s) as [I | I]; [exact I|].
      apply seen_false in I. congruence.
    + simpl. rewrite T. simpl.
      destruct Hk as [<- | Hk]; [right; left; reflexivity|].
      destruct (IH (key a :: s) k Hk) as [[E | I] | I]; auto.
  - simpl. rewrite T. apply IH. exact Hk.
Qed.

Lemma keep_first_without_url (l : list Article.t) :
  forall s, without_url key (keep_first key s l) = without_url key l.
Proof.
  unfold without_url.
  induction l as [|a rest IH]; intro s; simpl; [reflexivity|].
  destruct (Py.truthy_str (key a)) eqn:T; simpl andb.
  - destruct (seen (key a) s); simpl; [apply IH|].
    rewrite T. simpl. apply IH.
  - simpl. rewrite T. simpl. f_equal. apply IH.
Qed.

Lemma keep_first_incl (l : list Article.t) :
  forall s, incl (keep_first key s l) l
            /\ (length (keep_first key s l) <= length l)%nat.
Proof.
  induction l as [|a rest IH]; intro s; simpl; [split; [apply incl_refl | lia]|].
  destruct (Py.truthy_str (key a) && seen (key a) s)%bool.
  - destruct (IH s) as [I L]. split; [apply incl_tl; exact I | lia].
  - match goal with |- context [keep_first key ?s' rest] =>
      destruct (IH s') as [I L] end.
    split; [|simpl; lia].
    apply incl_cons; [left; reflexivity | apply incl_tl; exact I].
Qed.

Lemma keep_first_id (l : list Article.t) :
  forall s, NoDup (url_keys key l) ->
            Forall (fun k => ~ In k s) (url_keys key l) ->
            keep_first key s l = l.
Proof.
  unfold url_keys.
  induction l as [|a rest IH]; intros s N F; simpl in *; [reflexivity|].
  destruct (Py.truthy_str (key a)) eqn:T; simpl andb; simpl in N, F.
  - inversion N as [|? ? Hnin N']; subst. inversion F as [|? ? Hs F']; subst.
    apply seen_false in Hs. rewrite Hs. cbv iota.
    f_equal. apply IH; [exact N'|].
    rewrite Forall_forall in *. intros k Hk [<- | Hin]; [contradiction|].
    apply (F' k Hk Hin).
  - cbv iota. f_equal. apply IH; assumption.
Qed.

Lemma keep_first_app (p q : list Article.t) :
  forall s, exists s',
    keep_first key s (p ++ q) = keep_first key s p ++ keep_first key s' q.
Proof.
  induction p as [|a rest IH]; intro s; simpl; [exists s; reflexivity|].
  destruct (Py.truthy_str (key a) && seen (key a) s)%bool; [apply IH|].
  match goal with |- context [keep_first key ?s' (rest ++ q)] =>
    destruct (IH s') as [s'' E] end.
  exists s''. rewrite E. reflexivity.
Qed.

End KeepFirst.

(** X17. Merging never keeps two articles with the same non-empty
    normalised URL, keeps every article without a URL, loses no URL of
    either source, invents no article, and merging the result again
    changes nothing; so the article count of [get_company_news] is at most
    the sum of the two source counts. *)
Theorem merge_deduplicates (strip lower : string -> string)
  (primary secondary : list Article.t) (newsapi_error gdelt_error : string) :
  let key := article_key strip lower in
  let merged := _merge_articles strip lower primary secondary in
  let news :=
    company_news strip lower (primary, newsapi_error) (secondary, gdelt_error) in
  NoDup (url_keys key merged)
  /\ without_url key merged = without_url key (primary ++ secondary)
  /\ incl (url_keys key (primary ++ secondary)) (url_keys key merged)
  /\ incl merged (primary ++ secondary)
  /\ _merge_articles strip lower merged [] = merged
  /\ (CompanyNews.total_articles news
      <= CompanyNews.newsapi_count news + CompanyNews.gdelt_count news)%nat.
Proof.
  intros key merged news.
  assert (M : merged = keep_first key [] (primary ++ secondary))
    by apply merge_as_keep_first.
  destruct (keep_first_fresh key (primary ++ secondary) []) as [F N].
  rewrite <- M in F, N.
  split; [exact N|].
  split; [rewrite M; apply keep_first_without_url|].
  split.
  - intros k Hk.
    destruct (keep_first_covers key (primary ++ secondary) [] k Hk) as [[] | I].
    rewrite M. exact I.
  - split; [rewrite M; apply keep_first_incl|].
    split.
    + rewrite merge_as_keep_first, app_nil_r.
      apply keep_first_id; [exact N | exact F].
    + simpl. fold merged. rewrite M.
      pose proof (proj2 (keep_first_incl key (primary ++ secondary) [])) as L.
      rewrite length_app in L. exact L.
Qed.

(** X18. When the primary source has no two articles with the same
    non-empty normalised URL, the merged list starts with the whole
    primary list, followed by articles of the secondary source only. *)
Theorem merge_keeps_primary (strip lower : string -> string)
  (primary secondary : list Article.t) :
  NoDup (url_keys (article_key strip lower) primary) ->
  exists rest,
    _merge_articles strip lower primary secondary = primary ++ rest
    /\ incl rest secondary.
Proof.
  intro N. rewrite merge_as_keep_first.
  destruct (keep_first_app (article_key strip lower) primary secondary [])
    as [s' E].
  exists (keep_first (article_key strip lower) s' secondary).
  rewrite E. split; [|apply keep_first_incl].
  f_equal. apply keep_first_id; [exact N|].
  apply Forall_forall. intros k _ [].
Qed.

Lemma merge_keeps_primary_witness :
  _merge_articles Press.same Press.same
    [Press.strong; Press.weak] [Press.copy]
  = [Press.strong; Press.weak].
Proof.
  assert (N : NoDup (url_keys (article_key Press.same Press.same)
                       [Press.strong; Press.weak])).
  { repeat constructor; simpl; intuition discriminate. }
  destruct (merge_keeps_primary Press.same Press.same
              [Press.strong; Press.weak] [Press.copy] N) as (rest & E & _).
  reflexivity.
Defined.

(** ** Keyword sentiment *)

Lemma count_fold (lower : string -> string) (l : list Article.t) :
  forall p n u : nat,
    let counts := fold_left (count_step lower) l (p, n, u) in
    (fst (fst counts) + snd (fst counts) + snd counts = p + n + u + length l)%nat.
Proof.
  induction l as [|a rest IH]; intros p n u; simpl fold_left; [simpl; lia|].
  remember (count_step lower (p, n, u) a) as st eqn:Est.
  unfold count_step in Est.
  destruct (_ <? _)%nat;
    [|destruct (_ <? _)%nat]; subst st; cbv zeta; rewrite IH; simpl; lia.
Qed.

Lemma unit_clamp (x : Q) : -1 <= x <= 1 -> Py.max (-1) (Py.min 1 x) == x.
Proof. intro H. split_min 1 x; [split_max (-1) x | split_max (-1) 1]; lra. Qed.

(** The score of counted articles. *)
Lemma share_bounds (p n u total : nat) :
  (p + n + u = total)%nat -> (0 < total)%nat ->
  -1 <= (inject_Z (Z.of_nat p) - inject_Z (Z.of_nat n)) / inject_Z (Z.of_nat total)
     <= 1.
Proof.
  intros E P.
  assert (T : 0 < inject_Z (Z.of_nat total)).
  { replace 0 with (inject_Z 0) by reflexivity. rewrite <- Zlt_Qlt. lia. }
  assert (Hp : 0 <= inject_Z (Z.of_nat p) <= inject_Z (Z.of_nat total)).
  { split; [replace 0 with (inject_Z 0) by reflexivity|];
      rewrite <- Zle_Qle; lia. }
  assert (Hn : 0 <= inject_Z (Z.of_nat n) <= inject_Z (Z.of_nat total)).
  { split; [replace 0 with (inject_Z 0) by reflexivity|];
      rewrite <- Zle_Qle; lia. }
  split.
  - apply Qle_shift_div_l; [exact T|]. lra.
  - apply Qle_shift_div_r; [exact T|]. lra.
Qed.

(** What [analyze_sentiment] stores for a company. *)
Lemma sentiment_entry_cases (lower : string -> string) (news : CompanyNews.t) :
  let entry := sentiment_entry lower news in
  (SentimentEntry.total_articles entry = None
   /\ SentimentEntry.sentiment_score entry = 0
   /\ SentimentEntry.sentiment_label entry = "neutral"%string
   /\ (exists msg, SentimentEntry.error entry = Some msg)
   /\ (CompanyNews.error news <> None \/ CompanyNews.articles news = []))
  \/ (exists total,
        SentimentEntry.total_articles entry = Some total
        /\ total = length (CompanyNews.articles news)
        /\ (0 < total)%nat
        /\ CompanyNews.error news = None
        /\ SentimentEntry.error entry = None
        /\ (SentimentEntry.positive_count entry
            + SentimentEntry.negative_count entry
            + SentimentEntry.neutral_count entry = total)%nat
        /\ SentimentEntry.sentiment_score entry
           == (inject_Z (Z.of_nat (SentimentEntry.positive_count entry))
               - inject_Z (Z.of_nat (SentimentEntry.negative_count entry)))
              / inject_Z (Z.of_nat total)
        /\ -1 <= SentimentEntry.sentiment_score entry <= 1).
Proof.
  unfold sentiment_entry.
  destruct (CompanyNews.error news) as [msg|] eqn:E.
  - left. simpl. repeat split; eauto. left. discriminate.
  - destruct (CompanyNews.articles news) as [|a rest] eqn:A.
    + left. simpl. repeat split; eauto.
    + right. exists (length (a :: rest)).
      pose proof (count_fold lower (a :: rest) 0 0 0) as C. cbv zeta in C.
      destruct (fold_left (count_step lower) (a :: rest) (0, 0, 0)%nat)
        as [[p n] u].
      cbn [fst snd] in C. cbv zeta.
      assert (P : (0 < length (a :: rest))%nat) by (simpl; lia).
      assert (L : (0 <? length (a :: rest))%nat = true) by (apply Nat.ltb_lt; exact P).
      rewrite L.
      cbn [SentimentEntry.total_articles SentimentEntry.error
           SentimentEntry.positive_count SentimentEntry.negative_count
           SentimentEntry.neutral_count SentimentEntry.sentiment_score].
      pose proof (share_bounds p n u (length (a :: rest)) ltac:(lia) P) as B.
      pose proof (unit_clamp _ B) as U.
      repeat split; try reflexivity; try exact P; try lia; try exact U;
        rewrite U; apply B.
Qed.

(** X19. For every company [analyze_sentiment] either reports an error
    (an upstream error or no article: score 0, label "neutral", no article
    count) or scores the articles: then the positive, negative and neutral
    counts add up to the number of articles, the score is
    [(positive - negative) / total], it lies in [-1, 1] (the clamp changes
    nothing), and no error is reported. *)
Theorem sentiment_counts_add_up (lower : string -> string) (news : CompanyNews.t) :
  let entry := sentiment_entry lower news in
  -1 <= SentimentEntry.sentiment_score entry <= 1
  /\ ((SentimentEntry.total_articles entry = None
       /\ SentimentEntry.sentiment_score entry = 0
       /\ SentimentEntry.sentiment_label entry = "neutral"%string
       /\ exists msg, SentimentEntry.error entry = Some msg)
      \/ (SentimentEntry.total_articles entry
          = Some (length (CompanyNews.articles news))
          /\ SentimentEntry.error entry = None
          /\ (SentimentEntry.positive_count entry
              + SentimentEntry.negative_count entry
              + SentimentEntry.neutral_count entry
              = length (CompanyNews.articles news))%nat
          /\ SentimentEntry.sentiment_score entry
             == (inject_Z (Z.of_nat (SentimentEntry.positive_count entry))
                 - inject_Z (Z.of_nat (SentimentEntry.negative_count entry)))
                / inject_Z (Z.of_nat (length (CompanyNews.articles news))))).
Proof.
  cbv zeta.
  pose proof (sentiment_entry_cases lower news) as H. cbv zeta in H.
  destruct H as [(T & S & L & M & _) | (total & T & -> & P & _ & E & C & S & B)].
  - split; [rewrite S; lra|]. left. auto.
  - split; [exact B|]. right. auto.
Qed.

(** ** From the news sources to the sentiment analysis *)

(** X20. Along the chain from [get_company_news] through
    [analyze_sentiment] and the caller's record to the historical
    sentiment analysis, the live sentiment is used (source "live",
    confidence 1.0, effective sentiment the keyword score) exactly when
    the merged list holds an article and the two sources did not both
    fail; otherwise the analysis falls back (source "similar", confidence
    0.7). *)
Theorem news_chain_source (strip lower : string -> string)
  (newsapi_articles gdelt_articles : list Article.t * string)
  (search_data : SearchData.t) (stock_data : StockData.t)
  (pool : option Store.t) (similar_ipos : list SimilarityMatch.t) :
  let news := company_news strip lower newsapi_articles gdelt_articles in
  let entry := sentiment_entry lower news in
  let current_ipo :=
    current_ipo_data_of search_data (news_data_of entry) stock_data in
  let se := _analyze_sentiment_historically pool current_ipo similar_ipos in
  let scored :=
    (negb (Py.truthy_str (snd newsapi_articles)
           && Py.truthy_str (snd gdelt_articles))
     && match CompanyNews.articles news with [] => false | _ => true end)%bool in
  CurrentIpo.news_data_available current_ipo = scored
  /\ SentimentAnalysis.fallback_source se
     = (if scored then "live" else "similar")%string
  /\ SentimentAnalysis.data_confidence se = (if scored then 1.0 else 0.7)
  /\ (if scored
      then SentimentAnalysis.effective_sentiment se
           = SentimentEntry.sentiment_score entry
      else True).
Proof.
  intros news entry current_ipo se scored.
  assert (A : CurrentIpo.news_data_available current_ipo = scored).
  { pose proof (sentiment_entry_cases lower news) as H. cbv zeta in H.
    fold entry in H.
    unfold current_ipo, current_ipo_data_of, news_data_of.
    cbn [CurrentIpo.news_data_available NewsData.total_articles
         NewsData.totalArticles NewsData.error].
    unfold scored.
    assert (Err : CompanyNews.error news
                  = if (Py.truthy_str (snd newsapi_articles)
                        && Py.truthy_str (snd gdelt_articles))%bool
                    then Some ("NewsAPI: " ++ snd newsapi_articles
                               ++ "; GDELT: " ++ snd gdelt_articles)%string
                    else None) by reflexivity.
    destruct H as [(T & _ & _ & _ & C) | (total & T & L & P & E & Ee & _)].
    - destruct C as [C | C].
      + rewrite T. cbn [get_default get_or]. rewrite Err in C.
        destruct (Py.truthy_str (snd newsapi_articles)
                  && Py.truthy_str (snd gdelt_articles))%bool;
          [reflexivity | congruence].
      + rewrite C, T. cbn [get_default get_or]. rewrite andb_false_r. reflexivity.
    - rewrite T, Ee. cbn [get_default get_or Py.truthy_ostr negb].
      assert (Z : (0 <? Z.of_nat total)%Z = true) by (apply Z.ltb_lt; lia).
      rewrite Z. rewrite Err in E.
      destruct (Py.truthy_str (snd newsapi_articles)
                && Py.truthy_str (snd gdelt_articles))%bool; [discriminate|].
      destruct (CompanyNews.articles news); [simpl in L; lia | reflexivity]. }
  split; [exact A|].
  destruct (built_record_news_decision search_data (news_data_of entry)
              stock_data pool similar_ipos) as (_ & D2 & D3 & D4).
  fold current_ipo in D2, D3, D4. fold se in D2, D3, D4.
  rewrite A in D2, D3, D4.
  split; [exact D2|]. split; [exact D3|].
  destruct scored; [|exact I]. rewrite D4. reflexivity.
Qed.

(** ** From the trends source to the trend analysis *)

Lemma tail_nonempty (n : nat) (series : list Q) :
  (0 < n)%nat -> series <> [] -> tail n series <> [].
Proof.
  intros Hn NE E. apply (f_equal (@length Q)) in E.
  unfold tail in E. rewrite length_skipn in E.
  destruct series; [congruence | cbn [length] in E; lia].
Qed.

Lemma tail_incl (n : nat) (series : list Q) (x : Q) :
  In x (tail n series) -> In x series.
Proof.
  unfold tail. intro H.
  rewrite <- (firstn_skipn (length series - n) series).
  apply in_or_app. right. exact H.
Qed.

Lemma series_mean_bounds (a b : Q) (series : list Q) :
  series <> [] -> (forall x, In x series -> a <= x <= b) ->
  a <= series_mean series <= b.
Proof.
  intros NE H. destruct (mean_bounds a b series NE H) as (m & E & B).
  destruct series; [congruence|]. simpl in E. injection E as <-. exact B.
Qed.

Lemma fold_grows (l : list Q) (acc : Q) :
  (forall y, In y l -> 0 <= y) -> acc <= fold_left Qplus l acc.
Proof.
  revert acc. induction l as [|w l IH]; intros acc Hl; simpl; [lra|].
  specialize (IH (acc + w) (fun u Hu => Hl u (or_intror Hu))).
  pose proof (Hl w (or_introl eq_refl)). lra.
Qed.

Lemma nonneg_le_fold (l : list Q) (acc y : Q) :
  (forall y, In y l -> 0 <= y) -> 0 <= acc -> In y l ->
  y <= fold_left Qplus l acc.
Proof.
  revert acc. induction l as [|z l IH]; intros acc Hl Ha Hy; [contradiction|].
  pose proof (Hl z (or_introl eq_refl)) as Hz.
  simpl. destruct Hy as [<- | Hy].
  - pose proof (fold_grows l (acc + z) (fun u Hu => Hl u (or_intror Hu))). lra.
  - apply IH; [intros u Hu; apply Hl; right; exact Hu | lra | exact Hy].
Qed.

Lemma trends_entry_bounded (series : list Q) (lo hi : Q) :
  series <> [] -> Forall (fun v => lo <= v <= hi) series ->
  let entry := trends_entry (Interest series) in
  lo <= TrendEntry.average_interest entry <= hi
  /\ lo <= TrendEntry.recent_interest entry <= hi
  /\ TrendEntry.trend_score entry = TrendEntry.recent_interest entry.
Proof.
  intros NE F entry. rewrite Forall_forall in F.
  destruct series as [|v t] eqn:E; [congruence|]. rewrite <- E in *.
  assert (En : entry
               = TrendEntry.mk (series_mean series) (series_mean (tail 7 series))
                   (series_mean (tail 7 series)) None)
    by (unfold entry; rewrite E; reflexivity).
  rewrite En. cbn [TrendEntry.average_interest TrendEntry.recent_interest
                   TrendEntry.trend_score].
  split; [apply series_mean_bounds; [rewrite E; discriminate | exact F]|].
  split; [|reflexivity].
  apply series_mean_bounds.
  - apply tail_nonempty; [lia | rewrite E; discriminate].
  - intros x Hx. apply F. apply (tail_incl 7). exact Hx.
Qed.

(** X21. For a non-empty interest series whose values all lie between two
    bounds, the average interest, the recent interest (mean of the last 7
    values) and the trend score stored by [get_trends_data] lie between
    the same bounds, the trend score is the recent interest, and no error
    is stored; for an empty frame or an exception the three values are 0
    and an error is stored. *)
Theorem trends_entry_bounds (series : list Q) (lo hi : Q) (message : string) :
  series <> [] -> Forall (fun v => lo <= v <= hi) series ->
  let entry := trends_entry (Interest series) in
  (lo <= TrendEntry.average_interest entry <= hi
   /\ lo <= TrendEntry.recent_interest entry <= hi
   /\ TrendEntry.trend_score entry = TrendEntry.recent_interest entry
   /\ TrendEntry.error entry = None)
  /\ trends_entry (Interest [])
     = TrendEntry.mk 0 0 0 (Some "No data available"%string)
  /\ trends_entry (TrendsError message) = TrendEntry.mk 0 0 0 (Some message).
Proof.
  intros NE F entry. split; [|split; reflexivity].
  rewrite Forall_forall in F.
  destruct series as [|v t] eqn:E; [congruence|]. rewrite <- E in *.
  assert (En : entry
               = TrendEntry.mk (series_mean series) (series_mean (tail 7 series))
                   (series_mean (tail 7 series)) None)
    by (unfold entry; rewrite E; reflexivity).
  rewrite En. cbn [TrendEntry.average_interest TrendEntry.recent_interest
                   TrendEntry.trend_score TrendEntry.error].
  split; [apply series_mean_bounds; [rewrite E; discriminate | exact F]|].
  split; [|split; reflexivity].
  apply series_mean_bounds.
  - apply tail_nonempty; [lia | rewrite E; discriminate].
  - intros x Hx. apply F. apply (tail_incl 7). exact Hx.
Qed.

Lemma trends_entry_bounds_witness :
  0 <= TrendEntry.trend_score (trends_entry (Interest [0; 40; 100])) <= 100.
Proof.
  assert (F : Forall (fun v => 0 <= v <= 100) [0; 40; 100]).
  { repeat constructor; unfold Qle; simpl; lia. }
  destruct (trends_entry_bounds [0; 40; 100] 0 100 EmptyString
              ltac:(discriminate) F) as ((_ & R & T & _) & _).
  rewrite T. exact R.
Defined.

(** X22. Along the chain from [get_trends_data] through the caller's
    record to the historical trend analysis, with an interest series of
    non-negative values: the live trend score is used (source "live",
    confidence 1.0, effective score the recent interest) exactly when the
    recent or the average interest is positive; with an empty frame, an
    exception or an all-zero series the analysis falls back (source
    "similar", confidence 0.75). *)
Theorem trends_chain_source (reply : trends_reply) (news_data : NewsData.t)
  (stock_data : StockData.t) (stdev : list Q -> Q) (pool : option Store.t)
  (similar_ipos : list SimilarityMatch.t) :
  match reply with
  | Interest series => Forall (fun v => 0 <= v) series
  | TrendsError _ => True
  end ->
  let entry := trends_entry reply in
  let current_ipo :=
    current_ipo_data_of (search_data_of entry) news_data stock_data in
  let sa := _analyze_search_trends_historically stdev pool current_ipo similar_ipos in
  let live :=
    (Py.gtb (TrendEntry.recent_interest entry) 0
     || Py.gtb (TrendEntry.average_interest entry) 0)%bool in
  SearchAnalysis.fallback_source sa = (if live then "live" else "similar")%string
  /\ SearchAnalysis.data_confidence sa = (if live then 1.0 else 0.75)
  /\ (if live
      then SearchAnalysis.effective_trend_score sa
           = TrendEntry.recent_interest entry
      else True)
  /\ match reply with
     | Interest [] | TrendsError _ => live = false
     | Interest _ => True
     end.
Proof.
  intros H entry current_ipo sa live.
  assert (B : 0 <= TrendEntry.average_interest entry
              /\ 0 <= TrendEntry.recent_interest entry
              /\ TrendEntry.trend_score entry = TrendEntry.recent_interest entry
              /\ (Py.truthy_ostr (TrendEntry.error entry) = true -> live = false)).
  { unfold live, entry. destruct reply as [[|v t]|msg].
    - simpl. repeat split; try lra; reflexivity.
    - rewrite Forall_forall in H.
      assert (F : forall x, In x (v :: t) -> 0 <= x <= Py.sum (v :: t)).
      { intros x Hx. split; [apply H; exact Hx|].
        unfold Py.sum. apply nonneg_le_fold; [exact H | lra | exact Hx]. }
      cbn [trends_entry TrendEntry.average_interest TrendEntry.recent_interest
           TrendEntry.trend_score TrendEntry.error Py.truthy_ostr].
      split; [apply (series_mean_bounds 0 (Py.sum (v :: t)));
              [discriminate | exact F]|].
      split; [|split; [reflexivity | discriminate]].
      apply (series_mean_bounds 0 (Py.sum (v :: t))).
      + apply tail_nonempty; [lia | discriminate].
      + intros x Hx. apply F. apply (tail_incl 7). exact Hx.
    - simpl. repeat split; try lra; reflexivity. }
  destruct B as (Ba & Br & Bt & Be).
  destruct (built_record_trend_decision (search_data_of entry) news_data
              stock_data stdev pool similar_ipos Ba Br) as (_ & D2 & D3 & D4).
  fold current_ipo in D2, D3, D4. fold sa in D2, D3, D4.
  assert (A : CurrentIpo.trend_data_available current_ipo = live).
  { unfold current_ipo, current_ipo_data_of, search_data_of, live.
    cbn [CurrentIpo.trend_data_available SearchData.trend_score
         SearchData.average_interest SearchData.recent_interest
         SearchData.error or_zero].
    rewrite Bt.
    destruct (Py.truthy_ostr (TrendEntry.error entry)) eqn:T.
    - rewrite andb_false_r. symmetry. apply Be. reflexivity.
    - rewrite andb_true_r.
      destruct (Py.gtb (TrendEntry.recent_interest entry) 0),
        (Py.gtb (TrendEntry.average_interest entry) 0); reflexivity. }
  rewrite A in D2, D3, D4.
  split; [exact D2|]. split; [exact D3|]. split.
  - destruct live; [|exact I]. rewrite D4. simpl. exact Bt.
  - destruct reply as [[|v t]|msg]; try exact I; reflexivity.
Qed.

Lemma trends_chain_source_witness :
  SearchAnalysis.fallback_source
    (_analyze_search_trends_historically Sample.stdev None
       (current_ipo_data_of (search_data_of (trends_entry (Interest [0; 40; 100])))
          (NewsData.mk Missing Missing Missing None)
          (StockData.mk None None None None None)) [])
  = "live"%string.
Proof.
  assert (F : Forall (fun v => 0 <= v) [0; 40; 100]).
  { repeat constructor; unfold Qle; simpl; lia. }
  destruct (trends_chain_source (Interest [0; 40; 100])
              (NewsData.mk Missing Missing Missing None)
              (StockData.mk None None None None None)
              Sample.stdev None [] F) as (S & _).
  exact S.
Defined.

(** ** The stock service in the chain *)

Lemma growth_never_matches_zero (row_growth : option Q) :
  growth_matches row_growth 0 = false.
Proof.
  destruct row_growth as [g|]; [|reflexivity].
  unfold growth_matches.
  replace (Py.truthy 0) with false by reflexivity.
  rewrite andb_false_r. reflexivity.
Qed.

(** X23. With the stock entry of [get_stock_data] as [stock_data], the
    record built by the caller has revenue growth 0, so whatever the
    reply of the stock source and whatever the candidate row, the matcher
    never grants the revenue-growth factor, the similarity score of a
    candidate is at most 0.7, and a candidate is retained exactly when
    its market-cap bucket matches or both its sector and its industry
    match. *)
Theorem stock_chain_no_growth_factor (reply : stock_reply)
  (search_data : SearchData.t) (news_data : NewsData.t) (row : Row.t) :
  let current_ipo :=
    current_ipo_data_of search_data news_data (stock_data_of (stock_entry reply)) in
  CurrentIpo.revenue_growth_yoy current_ipo = 0
  /\ existsb (String.eqb "revenue_growth") (snd (score_candidate current_ipo row)) = false
  /\ fst (score_candidate current_ipo row) <= 0.7
  /\ Py.geb (fst (score_candidate current_ipo row)) 0.3
     = (factor_matches current_ipo row "market_cap"
        || (factor_matches current_ipo row "sector"
            && factor_matches current_ipo row "industry"))%bool.
Proof.
  intro current_ipo.
  assert (G : growth_matches (Row.revenue_growth_yoy row)
                (CurrentIpo.revenue_growth_yoy current_ipo) = false)
    by apply growth_never_matches_zero.
  split; [reflexivity|].
  rewrite threshold_is_rule. unfold retained.
  unfold score_candidate, factor_matches.
  cbn [String.eqb Ascii.eqb Bool.eqb].
  rewrite G.
  destruct (Py.ostr_eqb _ _), (col_eqb (Row.sector row) _),
    (col_eqb (Row.industry row) _); cbn; repeat split; lra.
Qed.

(** ** The collector of historical data *)

Lemma count_present_le (ipo_data : Field.t -> bool) (fields : list Field.t) :
  (count_present ipo_data fields <= length fields)%nat.
Proof.
  unfold count_present. apply filter_length_le.
Qed.

(** X24. The completeness score of [calculate_data_completeness] lies in
    [0, 1]; with r of the four required and o of the ten optional fields
    present it is 1.0 exactly when 5 r + o >= 20, so a record with all
    four required fields scores 1.0 whatever its optional fields, and a
    record can score 1.0 with required fields missing. *)
Theorem data_completeness_range (ipo_data : Field.t -> bool) :
  let score := calculate_data_completeness ipo_data in
  let r := count_present ipo_data required_fields in
  let o := count_present ipo_data optional_fields in
  0 <= score <= 1
  /\ Qeq_bool score 1 = (20 <=? 5 * r + o)%nat
  /\ (if forallb ipo_data required_fields then score else 1) == 1.
Proof.
  cbv zeta.
  pose proof (count_present_le ipo_data optional_fields) as Ho.
  change (length optional_fields) with 10%nat in Ho.
  unfold calculate_data_completeness.
  set (o := count_present ipo_data optional_fields) in *. clearbody o.
  unfold count_present, required_fields. cbn [filter forallb].
  destruct (ipo_data Field.name), (ipo_data Field.ticker),
    (ipo_data Field.ipo_date), (ipo_data Field.ipo_price);
    cbn [length andb];
    do 11 (destruct o as [|o];
           [vm_compute; repeat split; try reflexivity; intro C; discriminate C|]);
    lia.
Qed.

(** X25. The market-cap bucket the collector stores with a historical IPO
    is the bucket the matcher computes for a current IPO of the same
    market capitalisation (an unknown or zero one giving no bucket on
    both sides); such a stored row earns the market-cap factor, reaches
    the threshold of 0.3 and is retained by the matcher. *)
Theorem stored_category_matches (market_cap : option Q)
  (current_ipo : CurrentIpo.t) (row : Row.t) :
  Row.market_cap_category row = calculate_market_cap_category market_cap ->
  CurrentIpo.implied_market_cap current_ipo = or_zero market_cap ->
  calculate_market_cap_category market_cap
  = market_cap_category_of (or_zero market_cap)
  /\ factor_matches current_ipo row "market_cap" = true
  /\ 0.3 <= fst (score_candidate current_ipo row)
  /\ Py.geb (fst (score_candidate current_ipo row)) 0.3 = true.
Proof.
  intros Hrow Hcur.
  assert (E : calculate_market_cap_category market_cap
              = market_cap_category_of (or_zero market_cap)).
  { destruct market_cap as [m|]; [|reflexivity].
    unfold calculate_market_cap_category, market_cap_category_of, or_zero.
    destruct (Py.truthy m); reflexivity. }
  assert (F : factor_matches current_ipo row "market_cap" = true).
  { unfold factor_matches. cbn [String.eqb Ascii.eqb Bool.eqb].
    rewrite Hrow, Hcur, E.
    destruct (market_cap_category_of (or_zero market_cap)) as [c|];
      [apply String.eqb_refl | reflexivity]. }
  assert (T : Py.geb (fst (score_candidate current_ipo row)) 0.3 = true).
  { rewrite threshold_is_rule. unfold retained. rewrite F. reflexivity. }
  repeat split; try assumption.
  unfold Py.geb in T. apply Qle_bool_iff in T. exact T.
Qed.

Lemma stored_category_matches_witness :
  Py.geb (fst (score_candidate Sample.acme Sample.peer)) 0.3 = true.
Proof.
  apply (stored_category_matches (Some 1000000000) Sample.acme Sample.peer);
    reflexivity.
Defined.

Lemma count_rows_total (process : nat -> RollingRow.t -> row_outcome)
  (rows : list RollingRow.t) (i successful failed : nat) :
  let '(i', successful', failed') :=
    fold_left (count_row process) rows (i, successful, failed) in
  (i' = i + length rows
   /\ successful' + failed' = successful + failed + length rows
   /\ successful <= successful' /\ failed <= failed')%nat.
Proof.
  revert i successful failed.
  induction rows as [|row rows IH]; intros i s f; simpl; [lia|].
  destruct (process i row);
    [specialize (IH (S i) (S s) f) | specialize (IH (S i) s (S f))
     | specialize (IH (S i) s (S f)) | specialize (IH (S i) s (S f))];
    destruct (fold_left _ rows _) as [[i' s'] f']; lia.
Qed.

Lemma py_slice_length {A} (start stop : Z) (l : list A) :
  (length (py_slice start stop l) <= length l)%nat.
Proof.
  unfold py_slice. rewrite length_firstn, length_skipn. lia.
Qed.

Lemma py_slice_window {A} (start limit : Z) (l : list A) :
  (0 < limit)%Z ->
  (length (py_slice start (start + limit) l) <= Z.to_nat limit)%nat.
Proof.
  intro H. unfold py_slice, slice_index. rewrite length_firstn.
  destruct (Z.ltb_spec start 0), (Z.ltb_spec (start + limit) 0); lia.
Qed.

(** X26. In [run] of the collector every selected row is counted exactly
    once, as a success or as a failure (a row whose processing raises
    included): the two counters add up to the number of selected rows,
    which is at most the number of rows read; a positive [limit] bounds
    that number for any [start_from], while a [limit] of 0 selects every
    row with a date and a ticker and ignores [start_from]; with a file
    that was read, nothing is counted only when it has no rows. *)
Theorem populate_run_counts (process : nat -> RollingRow.t -> row_outcome)
  (rows : list RollingRow.t) (limit : option Z) (start_from : Z) :
  let selected := select_rows limit start_from (rows_with_dates rows) in
  match populate_run process (CsvRows rows) limit start_from with
  | Some (successful, failed) =>
    (successful + failed = length selected)%nat
  | None => rows = []
  end
  /\ (length selected <= length rows)%nat
  /\ select_rows (Some 0%Z) start_from (rows_with_dates rows) = rows_with_dates rows
  /\ match limit with
     | Some l => if (0 <? l)%Z then (length selected <= Z.to_nat l)%nat else True
     | None => True
     end.
Proof.
  intro selected. split; [|split; [|split]].
  - unfold populate_run. destruct rows as [|row rows]; [reflexivity|].
    fold selected.
    pose proof (count_rows_total process selected 0 0 0) as T.
    destruct (fold_left _ selected _) as [[i s] f]. lia.
  - assert (L : (length (rows_with_dates rows) <= length rows)%nat)
      by apply filter_length_le.
    unfold selected, select_rows. destruct limit as [l|]; [|exact L].
    destruct (l =? 0)%Z; [exact L|].
    pose proof (py_slice_length start_from (start_from + l) (rows_with_dates rows)).
    lia.
  - reflexivity.
  - destruct limit as [l|]; [|exact I].
    destruct (Z.ltb_spec 0 l) as [P|P]; [|exact I].
    unfold selected, select_rows.
    destruct (Z.eqb_spec l 0) as [Z0|Z0]; [lia|].
    apply py_slice_window. exact P.
Qed.

(** ** The nightly job *)

Lemma seen_cons_false (key head : string) (seen_keys : list string) :
  seen key (head :: seen_keys) = false ->
  key <> head /\ seen key seen_keys = false.
Proof.
  unfold seen. simpl. intro H. apply orb_false_iff in H. destruct H as [E R].
  split; [|exact R]. intro C. subst head. rewrite String.eqb_refl in E. discriminate.
Qed.

Lemma normalise_rows_fresh (strip upper : string -> string)
  (combined : list (string -> option string)) (seen_tickers : list string) :
  let normalised := normalise_rows strip upper seen_tickers combined in
  NoDup (map IpoRecord.ticker normalised)
  /\ Forall (fun record =>
               seen (IpoRecord.ticker record) seen_tickers = false
               /\ Py.truthy_str (IpoRecord.company_name record) = true
               /\ Py.truthy_str (IpoRecord.ticker record) = true
               /\ Py.truthy_str (IpoRecord.cik record) = true) normalised.
Proof.
  revert seen_tickers.
  induction combined as [|row rest IH]; intro seen_tickers;
    [split; constructor|].
  cbn [normalise_rows].
  destruct (normalise_company_fields strip upper row) as [[company ticker] cik].
  destruct company as [company|]; [|apply IH].
  destruct ticker as [ticker|]; [|apply IH].
  destruct (Py.truthy_str company) eqn:Tc; [|apply IH].
  destruct (Py.truthy_str ticker) eqn:Tt; [|apply IH].
  cbn [negb orb].
  destruct (seen ticker seen_tickers) eqn:S0; [apply IH|].
  destruct (IH (ticker :: seen_tickers)) as [N F].
  cbv zeta in N, F. cbn [map IpoRecord.ticker]. split.
  - constructor; [|exact N].
    intro C. apply in_map_iff in C. destruct C as (record & E & Hin).
    rewrite Forall_forall in F. destruct (F record Hin) as (Sn & _).
    apply seen_cons_false in Sn. destruct Sn as [Ne _]. congruence.
  - constructor.
    + cbn [IpoRecord.ticker IpoRecord.company_name IpoRecord.cik].
      repeat split; try assumption.
      destruct cik as [c|]; cbn [Py.truthy_ostr get_or].
      * destruct (Py.truthy_str c) eqn:Tk; [exact Tk | reflexivity].
      * reflexivity.
    + eapply Forall_impl; [|exact F].
      intros record (Sn & R). split; [|exact R].
      apply seen_cons_false in Sn. apply Sn.
Qed.

Lemma NoDup_firstn {A} (n : nat) (l : list A) : NoDup l -> NoDup (firstn n l).
Proof.
  intro H. rewrite <- (firstn_skipn n l) in H.
  apply NoDup_app_remove_r in H. exact H.
Qed.

(** X27. The candidates [load_ipos] returns have pairwise distinct
    tickers, and each has a non-empty company name, ticker and CIK (the
    CIK being replaced by UNKNOWN-ticker when the row has none); a
    non-negative [limit] bounds their number. *)
Theorem load_ipos_distinct (strip upper : string -> string)
  (include_recent include_upcoming : bool) (recent upcoming : CsvResponse.t)
  (limit : option Z) :
  let ipos :=
    load_ipos strip upper include_recent include_upcoming recent upcoming limit in
  NoDup (map IpoRecord.ticker ipos)
  /\ Forall (fun record =>
               Py.truthy_str (IpoRecord.company_name record) = true
               /\ Py.truthy_str (IpoRecord.ticker record) = true
               /\ Py.truthy_str (IpoRecord.cik record) = true) ipos
  /\ match limit with
     | Some l => if (0 <=? l)%Z then (length ipos <= Z.to_nat l)%nat else True
     | None => True
     end.
Proof.
  intro ipos. unfold load_ipos in ipos.
  set (combined := flat_map _ _) in ipos.
  destruct (normalise_rows_fresh strip upper combined []) as [N F].
  cbv zeta in N, F.
  assert (F' : Forall (fun record =>
               Py.truthy_str (IpoRecord.company_name record) = true
               /\ Py.truthy_str (IpoRecord.ticker record) = true
               /\ Py.truthy_str (IpoRecord.cik record) = true)
             (normalise_rows strip upper [] combined)).
  { eapply Forall_impl; [|exact F]. intros record (_ & R). exact R. }
  destruct limit as [l|]; [|repeat split; assumption].
  assert (E : ipos = firstn (slice_index l (length (normalise_rows strip upper [] combined)))
                       (normalise_rows strip upper [] combined)).
  { unfold ipos, py_slice.
    replace (slice_index 0 _) with 0%nat by reflexivity.
    rewrite Nat.sub_0_r. reflexivity. }
  rewrite E. split; [|split].
  - rewrite <- firstn_map. apply NoDup_firstn. exact N.
  - apply firstn_Forall. exact F'.
  - destruct (Z.leb_spec 0 l) as [P|P]; [|exact I].
    rewrite length_firstn. unfold slice_index.
    destruct (Z.ltb_spec l 0); lia.
Qed.

Lemma after_store_counts {A} (outcome : stored A) (counter : nat) (rows : list A) :
  let '(counter', rows') := after_store outcome counter rows in
  (counter <= counter' <= S counter
   /\ length rows <= length rows'
   /\ length rows' - length rows <= counter' - counter)%nat
  /\ match outcome with
     | NoEntry => counter' = S counter /\ rows' = rows
     | Inserted _ => True
     | StoreRaised => True
     end.
Proof.
  destruct outcome; cbn [after_store]; rewrite ?length_app; cbn [length];
    repeat split; lia.
Qed.

Lemma store_records_counts (execute_trend : TrendRow.t -> bool)
  (execute_sentiment : SentimentRow.t -> bool)
  (trends : string -> option TrendEntry.t)
  (sentiment : string -> option SentimentEntry.t)
  (ipos : list IpoRecord.t) (state : JobState.t) :
  let final :=
    fold_left (store_record execute_trend execute_sentiment trends sentiment)
      ipos state in
  (JobState.stored_trends state <= JobState.stored_trends final
   /\ JobState.stored_trends final <= JobState.stored_trends state + length ipos
   /\ length (JobState.trend_rows final) - length (JobState.trend_rows state)
      <= JobState.stored_trends final - JobState.stored_trends state
   /\ JobState.stored_sentiment state <= JobState.stored_sentiment final
   /\ JobState.stored_sentiment final <= JobState.stored_sentiment state + length ipos
   /\ length (JobState.sentiment_rows final) - length (JobState.sentiment_rows state)
      <= JobState.stored_sentiment final - JobState.stored_sentiment state
   /\ length (JobState.trend_rows state) <= length (JobState.trend_rows final)
   /\ length (JobState.sentiment_rows state) <= length (JobState.sentiment_rows final))%nat.
Proof.
  revert state. induction ipos as [|record ipos IH]; intro state; [simpl; lia|].
  cbn [fold_left]. cbv zeta.
  specialize (IH (store_record execute_trend execute_sentiment trends sentiment
                    state record)).
  cbv zeta in IH.
  set (final := fold_left _ ipos _) in *. clearbody final.
  unfold store_record in IH.
  pose proof (after_store_counts (store_search_trend execute_trend record trends)
                (JobState.stored_trends state) (JobState.trend_rows state)) as T.
  pose proof (after_store_counts
                (store_news_sentiment execute_sentiment record sentiment)
                (JobState.stored_sentiment state) (JobState.sentiment_rows state)) as S0.
  destruct (after_store (store_search_trend _ _ _) _ _) as [st tr].
  destruct (after_store (store_news_sentiment _ _ _) _ _) as [ss sr].
  cbn [JobState.stored_trends JobState.stored_sentiment JobState.trend_rows
       JobState.sentiment_rows] in IH.
  destruct T as [(T1 & T2 & T3) _], S0 as [(S1 & S2 & S3) _].
  destruct IH as (I1 & I2 & I3 & I4 & I5 & I6 & I7 & I8).
  cbn [length].
  repeat split;
    [clear S1 S2 S3 I4 I5 I6 I8 | clear S1 S2 S3 I4 I5 I6 I8
     | clear S1 S2 S3 I4 I5 I6 I8 | clear T1 T2 T3 I1 I2 I3 I7
     | clear T1 T2 T3 I1 I2 I3 I7 | clear T1 T2 T3 I1 I2 I3 I7
     | clear S1 S2 S3 I4 I5 I6 I8 | clear T1 T2 T3 I1 I2 I3 I7]; lia.
Qed.

Lemma store_records_without_trends (execute_trend : TrendRow.t -> bool)
  (execute_sentiment : SentimentRow.t -> bool)
  (sentiment : string -> option SentimentEntry.t)
  (ipos : list IpoRecord.t) (state : JobState.t) :
  let final :=
    fold_left (store_record execute_trend execute_sentiment (fun _ => None) sentiment)
      ipos state in
  JobState.stored_trends final = (JobState.stored_trends state + length ipos)%nat
  /\ JobState.trend_rows final = JobState.trend_rows state.
Proof.
  revert state. induction ipos as [|record ipos IH]; intro state;
    [simpl; split; [lia | reflexivity]|].
  cbn [fold_left]. cbv zeta.
  specialize (IH (store_record execute_trend execute_sentiment (fun _ => None)
                    sentiment state record)).
  cbv zeta in IH. destruct IH as [C R]. rewrite C, R.
  unfold store_record, store_search_trend. cbn [after_store].
  destruct (after_store (store_news_sentiment _ _ _) _ _) as [ss sr].
  cbn [JobState.stored_trends JobState.trend_rows length]. split; [lia | reflexivity].
Qed.

(** X28. In [run] of the nightly job the counter of stored trends counts
    the candidates whose store call did not raise, not the rows written:
    the number of rows written to the trends table is at most the
    counter, which is at most the number of candidates (likewise for the
    sentiment table), and when the trends service failed as a whole the
    counter equals the number of candidates although no trend row is
    written. *)
Theorem precompute_run_counts (execute_trend : TrendRow.t -> bool)
  (execute_sentiment : SentimentRow.t -> bool) (ipos : list IpoRecord.t)
  (trends_fetch : option (string -> option TrendEntry.t))
  (sentiment_fetch : option (string -> option SentimentEntry.t)) :
  match precompute_run execute_trend execute_sentiment ipos
          trends_fetch sentiment_fetch with
  | Some final =>
    (length (JobState.trend_rows final) <= JobState.stored_trends final
     /\ JobState.stored_trends final <= length ipos
     /\ length (JobState.sentiment_rows final) <= JobState.stored_sentiment final
     /\ JobState.stored_sentiment final <= length ipos)%nat
    /\ match trends_fetch with
       | None =>
         JobState.stored_trends final = length ipos
         /\ JobState.trend_rows final = []
       | Some _ => True
       end
  | None => ipos = []
  end.
Proof.
  unfold precompute_run. destruct ipos as [|record ipos]; [reflexivity|].
  set (l := record :: ipos). split.
  - pose proof (store_records_counts execute_trend execute_sentiment
                  (fetched_or_empty trends_fetch) (fetched_or_empty sentiment_fetch)
                  l (JobState.mk 0 0 [] [])) as H.
    cbv zeta in H. simpl JobState.stored_trends in H at 1.
    cbn [JobState.stored_trends JobState.stored_sentiment JobState.trend_rows
         JobState.sentiment_rows length] in H. lia.
  - destruct trends_fetch as [entries|]; [exact I|].
    pose proof (store_records_without_trends execute_trend execute_sentiment
                  (fetched_or_empty sentiment_fetch) l (JobState.mk 0 0 [] [])) as H.
    cbv zeta in H. exact H.
Qed.

Lemma round_half_even_bounds (a b : Z) (y : Q) :
  inject_Z a <= y <= inject_Z b ->
  (a <= Py.round_half_even y <= b)%Z.
Proof.
  intros [Ha Hb].
  pose proof (Qfloor_le y) as Fl. pose proof (Qlt_floor y) as Fu.
  assert (A : (a <= Qfloor y)%Z).
  { assert (L : inject_Z a < inject_Z (Qfloor y + 1)) by lra.
    rewrite <- Zlt_Qlt in L. lia. }
  assert (B : (Qfloor y <= b)%Z).
  { assert (L : inject_Z (Qfloor y) <= inject_Z b) by lra.
    rewrite <- Zle_Qle in L. exact L. }
  assert (C : inject_Z (Qfloor y) < y -> (Qfloor y + 1 <= b)%Z).
  { intro G. assert (L : inject_Z (Qfloor y) < inject_Z b) by lra.
    rewrite <- Zlt_Qlt in L. lia. }
  unfold Py.round_half_even, Py.ltb.
  destruct (Qle_bool (1 # 2) (y - inject_Z (Qfloor y))) eqn:E1; cbn [negb];
    [|lia].
  apply Qle_bool_iff in E1.
  assert (G : inject_Z (Qfloor y) < y) by lra. specialize (C G).
  destruct (Qle_bool (y - inject_Z (Qfloor y)) (1 # 2)); cbn [negb]; [|lia].
  destruct (Z.even (Qfloor y)); lia.
Qed.

(** X29. When the entry of a candidate was computed by [get_trends_data]
    from interest values between 0 and 100, the row [store_search_trend]
    writes has a trend score and a search volume that are integers
    between 0 and 100; for an empty frame or an exception of the trends
    source the call still writes a row, with trend score 0. *)
Theorem stored_trend_in_range (execute : TrendRow.t -> bool)
  (record : IpoRecord.t) (trends : string -> option TrendEntry.t)
  (reply : trends_reply) :
  match reply with
  | Interest series => Forall (fun v => 0 <= v <= 100) series
  | TrendsError _ => True
  end ->
  trends (IpoRecord.company_name record) = Some (trends_entry reply) ->
  match store_search_trend execute record trends with
  | Inserted row =>
    (0 <= TrendRow.trend_score row <= 100)%Z
    /\ match TrendRow.search_volume row with
       | Some volume => (0 <= volume <= 100)%Z
       | None => False
       end
    /\ match reply with
       | Interest [] | TrendsError _ => TrendRow.trend_score row = 0%Z
       | Interest _ => True
       end
  | NoEntry => False
  | StoreRaised => True
  end.
Proof.
  intros H E. unfold store_search_trend. rewrite E.
  assert (B : 0 <= TrendEntry.trend_score (trends_entry reply) <= 100
              /\ 0 <= TrendEntry.average_interest (trends_entry reply) <= 100).
  { destruct reply as [[|v t]|msg]; try (simpl; split; split; lra).
    assert (NE : v :: t <> []) by discriminate.
    destruct (trends_entry_bounded (v :: t) 0 100 NE H) as (Ba & Br & Bt).
    rewrite Bt. split; assumption. }
  destruct B as [Bt Ba].
  destruct (execute _); [|exact I].
  cbn [TrendRow.trend_score TrendRow.search_volume].
  split; [apply round_half_even_bounds; exact Bt|].
  split; [apply round_half_even_bounds; exact Ba|].
  destruct reply as [[|v t]|msg]; try exact I; reflexivity.
Qed.

Lemma stored_trend_in_range_witness :
  match store_search_trend (fun _ => true)
          (IpoRecord.mk "Acme" "ACME" "0001")
          (fun _ => Some (trends_entry (Interest [0; 40; 100]))) with
  | Inserted row => (0 <= TrendRow.trend_score row <= 100)%Z
  | NoEntry => False
  | StoreRaised => True
  end.
Proof.
  assert (F : Forall (fun v => 0 <= v <= 100) [0; 40; 100]).
  { repeat constructor; unfold Qle; simpl; lia. }
  pose proof (stored_trend_in_range (fun _ => true)
                (IpoRecord.mk "Acme" "ACME" "0001")
                (fun _ => Some (trends_entry (Interest [0; 40; 100])))
                (Interest [0; 40; 100]) F eq_refl) as H.
  destruct (store_search_trend _ _ _); [exact H | apply H | exact I].
Defined.
